(** * React Flow MCP server: the request pipeline

    A shallow embedding of the request-handling code of the server
    (handler.ts, utils/validation.ts, tools/index.ts, the tool handlers
    under tools/, resources.ts, resource-templates.ts, prompts.ts and the
    argument parsing of index.ts), with the properties of the pipeline
    stated and proved over it.

    Conventions.
    - JS strings are [string]; the text the server handles is taken to be
      ASCII, on which [toLowerCase] maps A-Z to a-z and the regex class \s
      is tab, LF, VT, FF, CR and space.
    - A value of TypeScript type [any] is a [JsValue]: what JSON carries,
      with the safe integers for numbers.  Converting a value to a string
      can fail ([to_string]), as it does in JS for an object that has a
      property named [toString].
    - Code that logs, reads the clock, uses the cache or the circuit
      breaker, or throws, lives in the monad [M]: a state-and-exception
      monad over [World].
    - Reading a property of an object literal follows the prototype chain:
      a name that is not an own key may still be found on
      [Object.prototype] ([js_get]). *)

From Stdlib Require Import String Ascii List ZArith Bool Lia DecimalString.
From stdpp Require Import gmap strings.
Import ListNotations.

(** ** JavaScript strings and values *)

Module Js.

Definition dquote : string := String "034" EmptyString.
Definition nl : string := String "010" EmptyString.

Definition is_upper (c : ascii) : bool :=
  Nat.leb 65 (nat_of_ascii c) && Nat.leb (nat_of_ascii c) 90.

Definition is_lower (c : ascii) : bool :=
  Nat.leb 97 (nat_of_ascii c) && Nat.leb (nat_of_ascii c) 122.

Definition lower_char (c : ascii) : ascii :=
  if is_upper c then ascii_of_nat (nat_of_ascii c + 32) else c.

Definition upper_char (c : ascii) : ascii :=
  if is_lower c then ascii_of_nat (nat_of_ascii c - 32) else c.

(** [s.toLowerCase()] *)
Fixpoint toLowerCase (s : string) : string :=
  match s with
  | EmptyString => EmptyString
  | String c r => String (lower_char c) (toLowerCase r)
  end.

(** [s.charAt(0).toUpperCase() + s.slice(1)] *)
Definition capitalize (s : string) : string :=
  match s with
  | EmptyString => EmptyString
  | String c r => String (upper_char c) r
  end.

(** the regex class [\s] *)
Definition is_space (c : ascii) : bool :=
  let n := nat_of_ascii c in
  (Nat.leb 9 n && Nat.leb n 13) || Nat.eqb n 32.

(** [s.replace(/[...]/g, '')] for a character class [cls] *)
Fixpoint remove_chars (cls : ascii -> bool) (s : string) : string :=
  match s with
  | EmptyString => EmptyString
  | String c r =>
      if cls c then remove_chars cls r else String c (remove_chars cls r)
  end.

(** [s.replace(/\s+/g, sep)]: every maximal run of white space becomes one
    [sep]; [in_run] tells that the previous character was white space. *)
Fixpoint replace_space_runs (sep : string) (in_run : bool) (s : string) : string :=
  match s with
  | EmptyString => EmptyString
  | String c r =>
      if is_space c
      then if in_run then replace_space_runs sep true r
           else sep +:+ replace_space_runs sep true r
      else String c (replace_space_runs sep false r)
  end.

(** [s.split(/\s+/)]: the pieces between the maximal runs of white space;
    a leading or trailing run yields an empty piece, and the empty string
    yields one empty piece.  The head of the result is the piece in
    progress; [in_gap] tells that the previous character was white space. *)
Fixpoint split_space_from (in_gap : bool) (s : string) : list string :=
  match s with
  | EmptyString => [EmptyString]
  | String c r =>
      if is_space c
      then if in_gap then split_space_from true r
           else EmptyString :: split_space_from true r
      else match split_space_from false r with
           | t :: ts => String c t :: ts
           | [] => [String c EmptyString]
           end
  end.

Definition split_space (s : string) : list string := split_space_from false s.

(** [s.includes(t)] *)
Fixpoint includes (s t : string) : bool :=
  String.prefix t s ||
  match s with
  | EmptyString => false
  | String _ r => includes r t
  end.

(** [l.join(sep)] *)
Definition join (sep : string) (l : list string) : string := String.concat sep l.

Definition nat_to_string (n : nat) : string :=
  NilZero.string_of_uint (Nat.to_uint n).

(** The safe integers: those of magnitude at most 2^53 - 1, which a JS
    number holds exactly and prints with all their digits. *)
Definition is_safe (n : Z) : bool := (Z.abs n <=? 9007199254740991)%Z.

(** A value of type [any], as JSON carries it.  Numbers are the safe
    integers; this development never does arithmetic on them. *)
#[warnings="-register-all"]
Inductive JsValue : Type :=
  | JsUndefined
  | JsNull
  | JsBoolean (b : bool)
  | JsNumber (n : Z) (safe : is_safe n = true)
  | JsString (s : string)
  | JsArray (items : list JsValue)
  | JsObject (props : list (string * JsValue)).

(** An object as its own properties, in insertion order. *)
Definition JsObj : Type := list (string * JsValue).

(** Own-property lookup in a property list. *)
Fixpoint assoc {A : Type} (l : list (string * A)) (key : string) : option A :=
  match l with
  | [] => None
  | (k, a) :: r => if String.eqb k key then Some a else assoc r key
  end.

(** [obj[key]] for an own key, [undefined] otherwise. *)
Definition obj_get (o : JsObj) (key : string) : JsValue :=
  match assoc o key with
  | Some v => v
  | None => JsUndefined
  end.

(** [key in obj], for own keys. *)
Definition obj_has (o : JsObj) (key : string) : bool :=
  match assoc o key with
  | Some _ => true
  | None => false
  end.

(** Truthiness, as [if (v)], [!v] and [v || d] use it. *)
Definition truthy (v : JsValue) : bool :=
  match v with
  | JsUndefined | JsNull => false
  | JsBoolean b => b
  | JsNumber n _ => negb (Z.eqb n 0)
  | JsString s => negb (String.eqb s EmptyString)
  | JsArray _ | JsObject _ => true
  end.

(** [String(v)], as a template literal or a property key applies it;
    [None] where the conversion throws a [TypeError].  A plain object
    prints through the [toString] it inherits; one that has a property of
    that name has no callable [toString] (nothing JSON carries is
    callable), the inherited [valueOf] returns the object itself, and the
    conversion fails.  An array prints its elements joined by commas,
    [null] and [undefined] as nothing, and fails where an element does. *)
Fixpoint to_string (v : JsValue) : option string :=
  match v with
  | JsUndefined => Some "undefined"
  | JsNull => Some "null"
  | JsBoolean b => Some (if b then "true" else "false")
  | JsNumber n _ => Some (NilZero.string_of_int (Z.to_int n))
  | JsString s => Some s
  | JsArray items =>
      option_map (String.concat ",")
        ((fix elements (l : list JsValue) : option (list string) :=
            match l with
            | [] => Some []
            | x :: rest =>
                match match x with
                      | JsUndefined | JsNull => Some EmptyString
                      | _ => to_string x
                      end, elements rest with
                | Some shown, Some others => Some (shown :: others)
                | _, _ => None
                end
            end) items)
  | JsObject props => if obj_has props "toString" then None else Some "[object Object]"
  end.

(** The properties every object literal inherits from [Object.prototype]. *)
Inductive ProtoMember : Type :=
  | P_constructor
  | P_defineGetter
  | P_defineSetter
  | P_hasOwnProperty
  | P_lookupGetter
  | P_lookupSetter
  | P_isPrototypeOf
  | P_propertyIsEnumerable
  | P_toString
  | P_valueOf
  | P_proto
  | P_toLocaleString.

Definition object_prototype : list (string * ProtoMember) :=
  [ ("constructor", P_constructor);
    ("__defineGetter__", P_defineGetter);
    ("__defineSetter__", P_defineSetter);
    ("hasOwnProperty", P_hasOwnProperty);
    ("__lookupGetter__", P_lookupGetter);
    ("__lookupSetter__", P_lookupSetter);
    ("isPrototypeOf", P_isPrototypeOf);
    ("propertyIsEnumerable", P_propertyIsEnumerable);
    ("toString", P_toString);
    ("valueOf", P_valueOf);
    ("__proto__", P_proto);
    ("toLocaleString", P_toLocaleString) ].

(** The [name] property of an inherited member: the functions carry their
    name, and [__proto__] reads as [Object.prototype], which has none. *)
Definition proto_member_name (m : ProtoMember) : option string :=
  match m with
  | P_constructor => Some "Object"
  | P_defineGetter => Some "__defineGetter__"
  | P_defineSetter => Some "__defineSetter__"
  | P_hasOwnProperty => Some "hasOwnProperty"
  | P_lookupGetter => Some "__lookupGetter__"
  | P_lookupSetter => Some "__lookupSetter__"
  | P_isPrototypeOf => Some "isPrototypeOf"
  | P_propertyIsEnumerable => Some "propertyIsEnumerable"
  | P_toString => Some "toString"
  | P_valueOf => Some "valueOf"
  | P_proto => None
  | P_toLocaleString => Some "toLocaleString"
  end.

(** The result of [table[key]] on an object literal [table]. *)
Inductive Lookup (A : Type) : Type :=
  | OwnProp (a : A)
  | Inherited (m : ProtoMember)
  | Undefined.

Arguments OwnProp {A} a.
Arguments Inherited {A} m.
Arguments Undefined {A}.

Definition js_get {A : Type} (table : list (string * A)) (key : string) : Lookup A :=
  match assoc table key with
  | Some a => OwnProp a
  | None =>
      match assoc object_prototype key with
      | Some m => Inherited m
      | None => Undefined
      end
  end.

(** [`${x}`] for a property that may be missing. *)
Definition show (x : option string) : string :=
  match x with
  | Some s => s
  | None => "undefined"
  end.

End Js.

(** ** Payloads, errors, log and world *)

(** The uniform response shape [{ content: [ { type, text } ] }].  [text]
    is [None] when the code stores [undefined] there. *)
Record ContentItem : Type := { type : string; text : option string }.

Record Payload : Type := { content : list ContentItem }.

Definition text_payload (t : option string) : Payload :=
  {| content := [ {| type := "text"; text := t |} ] |}.

(** What [toolHandlers[name](params)] evaluates to: a payload for the
    eleven tool handlers, some other value for an inherited function. *)
Inductive ToolResult : Type :=
  | ResultPayload (p : Payload)
  | ResultValue (v : Js.JsValue).

(** Thrown values: [new Error(message)], the engine's [TypeError], and
    the circuit breaker's rejection. *)
Inductive JsError : Type :=
  | Error (message : string)
  | TypeError (message : string)
  | CircuitOpenError.

Inductive LogLevel : Type := LevelInfo | LevelWarn | LevelError.

(** One call of [logInfo], [logWarning] or [logError]. *)
Record LogEntry : Type :=
  { level : LogLevel; message : string; detail : option JsError }.

(** History of control flow, kept beside the program state: entries and
    exits of the breaker's [execute], and calls of a request handler or a
    tool handler.  No code reads it. *)
Inductive Event : Type :=
  | ExecuteEnter
  | ExecuteExit
  | HandlerCall (method : string)
  | ToolCall (name : string).

(** *** Cache *)

Module Cache.

Record CacheEntry (V : Type) : Type := { value : V; expiresAt : Z }.
Arguments value {V} _.
Arguments expiresAt {V} _.

(** Modelled from the spec: utils/cache.ts is missing.  [get(key)] returns
    the value only while [now < expiresAt], absent for a key never set or
    an expired entry, and leaves the store as it is. *)
Definition get {V : Type} (store : gmap string (CacheEntry V)) (now : Z) (key : string)
  : option V :=
  match store !! key with
  | Some e => if (now <? expiresAt e)%Z then Some (value e) else None
  | None => None
  end.

(** Modelled from the spec: utils/cache.ts is missing.  [set(key, value,
    ttlMs)] stores the value with [expiresAt = now + ttlMs], overwriting any
    prior entry for the key. *)
Definition set {V : Type} (store : gmap string (CacheEntry V)) (now : Z)
    (key : string) (v : V) (ttlMs : Z) : gmap string (CacheEntry V) :=
  <[ key := {| value := v; expiresAt := (now + ttlMs)%Z |} ]> store.

End Cache.

(** *** Circuit breaker *)

Module CircuitBreaker.

Inductive State : Type := closed | open | half_open.

Record CircuitBreakerState : Type :=
  { state : State;
    consecutiveFailures : Z;
    lastFailureTime : option Z;
    failureThreshold : Z;
    resetTimeoutMs : Z }.

Definition with_state (b : CircuitBreakerState) (s : State) (n : Z) (t : option Z)
  : CircuitBreakerState :=
  {| state := s; consecutiveFailures := n; lastFailureTime := t;
     failureThreshold := failureThreshold b; resetTimeoutMs := resetTimeoutMs b |}.

(** Modelled from the spec: utils/circuit-breaker.ts is missing.  A breaker
    is created closed, with no failure recorded. *)
Definition create (threshold timeout : Z) : CircuitBreakerState :=
  {| state := closed; consecutiveFailures := 0; lastFailureTime := None;
     failureThreshold := threshold; resetTimeoutMs := timeout |}.

(** Modelled from the spec: utils/circuit-breaker.ts is missing.  An
    invocation attempt: closed and half-open let it through; open lets it
    through as a half-open trial once [now - lastFailureTime >=
    resetTimeoutMs], and rejects it ([None]) before that.  An open breaker
    with no recorded failure does not arise; it rejects. *)
Definition attempt (now : Z) (b : CircuitBreakerState) : option CircuitBreakerState :=
  match state b with
  | closed | half_open => Some b
  | open =>
      match lastFailureTime b with
      | Some t =>
          if (resetTimeoutMs b <=? now - t)%Z
          then Some (with_state b half_open (consecutiveFailures b) (lastFailureTime b))
          else None
      | None => None
      end
  end.

(** Modelled from the spec: utils/circuit-breaker.ts is missing.  The work
    succeeded: closed resets the count to 0; half-open closes and resets
    the count.  The spec has no rule for a success seen while open. *)
Definition on_success (b : CircuitBreakerState) : CircuitBreakerState :=
  match state b with
  | closed => with_state b closed 0 (lastFailureTime b)
  | half_open => with_state b closed 0 (lastFailureTime b)
  | open => b
  end.

(** Modelled from the spec: utils/circuit-breaker.ts is missing.  The work
    failed: closed increments the count and, when it reaches the
    threshold, opens and records the time; half-open reopens and updates
    the time.  The spec has no rule for a failure seen while open (the
    work itself opened the breaker). *)
Definition on_failure (now : Z) (b : CircuitBreakerState) : CircuitBreakerState :=
  match state b with
  | closed =>
      let n := (consecutiveFailures b + 1)%Z in
      if (failureThreshold b <=? n)%Z
      then with_state b open n (Some now)
      else with_state b closed n (lastFailureTime b)
  | half_open => with_state b open (consecutiveFailures b) (Some now)
  | open => b
  end.

End CircuitBreaker.

(** *** World and monad *)

Record World : Type :=
  { now : Z;
    breaker : CircuitBreaker.CircuitBreakerState;
    cache : gmap string (Cache.CacheEntry Payload);
    log : list LogEntry;
    trace : list Event }.

Definition set_breaker (b : CircuitBreaker.CircuitBreakerState) (w : World) : World :=
  {| now := now w; breaker := b; cache := cache w; log := log w; trace := trace w |}.

Definition set_cache (c : gmap string (Cache.CacheEntry Payload)) (w : World) : World :=
  {| now := now w; breaker := breaker w; cache := c; log := log w; trace := trace w |}.

Definition add_log (e : LogEntry) (w : World) : World :=
  {| now := now w; breaker := breaker w; cache := cache w;
     log := log w ++ [e]; trace := trace w |}.

Definition add_event (e : Event) (w : World) : World :=
  {| now := now w; breaker := breaker w; cache := cache w;
     log := log w; trace := trace w ++ [e] |}.

Definition set_now (t : Z) (w : World) : World :=
  {| now := t; breaker := breaker w; cache := cache w; log := log w; trace := trace w |}.

Inductive Outcome (A : Type) : Type :=
  | Return (a : A)
  | Throw (e : JsError).

Arguments Return {A} a.
Arguments Throw {A} e.

Definition M (A : Type) : Type := World -> Outcome A * World.

Definition ret {A : Type} (a : A) : M A := fun w => (Return a, w).

Definition throw {A : Type} (e : JsError) : M A := fun w => (Throw e, w).

Definition bind {A B : Type} (m : M A) (k : A -> M B) : M B :=
  fun w =>
    match m w with
    | (Return a, w') => k a w'
    | (Throw e, w') => (Throw e, w')
    end.

(** [try { body } catch (error) { handler }] *)
Definition try_catch {A : Type} (body : M A) (handler : JsError -> M A) : M A :=
  fun w =>
    match body w with
    | (Return a, w') => (Return a, w')
    | (Throw e, w') => handler e w'
    end.

Definition modify (f : World -> World) : M unit := fun w => (Return tt, f w).

Declare Scope js_scope.
Delimit Scope js_scope with js.
Notation "'let!' x ':=' m 'in' k" := (bind m (fun x => k))
  (at level 10, x name, m at level 100, k at level 200) : js_scope.
Notation "'do!' m 'in' k" := (bind m (fun _ => k))
  (at level 10, m at level 100, k at level 200) : js_scope.
Local Open Scope js_scope.

(** *** Logger *)

(** Modelled from the spec: utils/logger.ts is missing.  A call of
    [logInfo] is recorded in [log]; whether the configured level lets it
    through to the output is the logger's business. *)
Definition logInfo (msg : string) : M unit :=
  modify (add_log {| level := LevelInfo; message := msg; detail := None |}).

(** Modelled from the spec: utils/logger.ts is missing.  A call of
    [logWarning] is recorded in [log]. *)
Definition logWarning (msg : string) : M unit :=
  modify (add_log {| level := LevelWarn; message := msg; detail := None |}).

(** Modelled from the spec: utils/logger.ts is missing.  A call of
    [logError] is recorded in [log] with the error it was given. *)
Definition logError (msg : string) (error : JsError) : M unit :=
  modify (add_log {| level := LevelError; message := msg; detail := Some error |}).

(** Append an event to the history; it has no counterpart in the source. *)
Definition emit (e : Event) : M unit := modify (add_event e).

(** Modelled from the spec: utils/cache.ts is missing.  [cache.get(key)]
    on the process-wide cache, at the current time. *)
Definition cache_get (key : string) : M (option Payload) :=
  fun w => (Return (Cache.get (cache w) (now w) key), w).

(** Modelled from the spec: utils/cache.ts is missing.  [cache.set(key,
    value, ttl)] on the process-wide cache, at the current time. *)
Definition cache_set (key : string) (v : Payload) (ttlMs : Z) : M unit :=
  modify (fun w => set_cache (Cache.set (cache w) (now w) key v ttlMs) w).

(** Modelled from the spec: utils/circuit-breaker.ts is missing.
    [circuitBreakers.external.execute(work)]: reject with
    [CircuitOpenError] without running [work] while the breaker is open
    and the cooldown has not elapsed; otherwise run [work], update the
    breaker by its outcome and propagate the outcome. *)
Definition execute {A : Type} (work : M A) : M A :=
  fun w0 =>
    let w := add_event ExecuteEnter w0 in
    match CircuitBreaker.attempt (now w) (breaker w) with
    | None => (Throw CircuitOpenError, add_event ExecuteExit w)
    | Some b =>
        match work (set_breaker b w) with
        | (Return a, w') =>
            (Return a,
             add_event ExecuteExit (set_breaker (CircuitBreaker.on_success (breaker w')) w'))
        | (Throw e, w') =>
            (Throw e,
             add_event ExecuteExit
               (set_breaker (CircuitBreaker.on_failure (now w') (breaker w')) w'))
        end
    end.

(** Lift a pure outcome into [M]. *)
Definition lift {A : Type} (o : Outcome A) : M A := fun w => (o, w).

(** [`${v}`], and [table[v]] for the key: the string of a value, or the
    [TypeError] of a value that has none. *)
Definition as_string (v : Js.JsValue) : Outcome string :=
  match Js.to_string v with
  | Some s => Return s
  | None => Throw (TypeError "Cannot convert object to primitive value")
  end.

(** ** utils/validation.ts *)

(** The three field schemas of the table: [stringSchema] is
    [z.string().min(1).max(1000)], [optionalStringSchema] is
    [z.string().optional()], and [anyOptional] is [z.any().optional()]. *)
Inductive FieldSchema : Type := stringSchema | optionalStringSchema | anyOptional.

Definition methodSchemas : list (string * list (string * FieldSchema)) :=
  [ ("get_react_flow_component", [("componentName", stringSchema)]);
    ("list_react_flow_components", [("category", optionalStringSchema)]);
    ("get_react_flow_hook", [("hookName", stringSchema)]);
    ("list_react_flow_hooks", [("category", optionalStringSchema)]);
    ("get_react_flow_type", [("typeName", stringSchema)]);
    ("list_react_flow_types", [("category", optionalStringSchema)]);
    ("get_react_flow_utility", [("utilityName", stringSchema)]);
    ("list_react_flow_utilities", []);
    ("get_react_flow_example", [("exampleType", stringSchema)]);
    ("search_react_flow_examples", [("query", stringSchema)]);
    ("get_react_flow_docs", [("topic", stringSchema)]);
    ("list_resources", []);
    ("list_resource_templates", []);
    ("list_tools", []);
    ("list_prompts", []);
    ("read_resource", [("uri", stringSchema)]);
    ("get_prompt", [("name", stringSchema); ("arguments", anyOptional)]);
    ("call_tool", [("name", stringSchema); ("arguments", anyOptional)]) ].

(** The type name zod reports for a value. *)
Definition parsed_type (v : Js.JsValue) : string :=
  match v with
  | Js.JsUndefined => "undefined"
  | Js.JsNull => "null"
  | Js.JsBoolean _ => "boolean"
  | Js.JsNumber _ _ => "number"
  | Js.JsString _ => "string"
  | Js.JsArray _ => "array"
  | Js.JsObject _ => "object"
  end.

(** The issue zod raises for [z.string()] on a value that is no string. *)
Definition not_a_string (v : Js.JsValue) : string :=
  match v with
  | Js.JsUndefined => "Required"
  | _ => "Expected string, received " +:+ parsed_type v
  end.

(** Parsing one field: [None] when the value passes, the issue's message
    otherwise. *)
Definition check_field (f : FieldSchema) (v : Js.JsValue) : option string :=
  match f with
  | stringSchema =>
      match v with
      | Js.JsString s =>
          if Nat.ltb (String.length s) 1
          then Some "String must contain at least 1 character(s)"
          else if Nat.ltb 1000 (String.length s)
          then Some "String must contain at most 1000 character(s)"
          else None
      | _ => Some (not_a_string v)
      end
  | optionalStringSchema =>
      match v with
      | Js.JsUndefined | Js.JsString _ => None
      | _ => Some (not_a_string v)
      end
  | anyOptional => None
  end.

(** The issues of [z.object(shape).parse(data)], as (path, message), in
    the order of the shape. *)
Fixpoint issues (shape : list (string * FieldSchema)) (data : Js.JsObj)
  : list (string * string) :=
  match shape with
  | [] => []
  | (key, f) :: rest =>
      match check_field f (Js.obj_get data key) with
      | Some msg => (key, msg) :: issues rest data
      | None => issues rest data
      end
  end.

(** The object [parse] returns: the keys of the shape that [data] has,
    with the values of [data]; unknown keys are stripped. *)
Fixpoint parsed (shape : list (string * FieldSchema)) (data : Js.JsObj) : Js.JsObj :=
  match shape with
  | [] => []
  | (key, _) :: rest =>
      if Js.obj_has data key
      then (key, Js.obj_get data key) :: parsed rest data
      else parsed rest data
  end.

(** [e.errors.map(e => `${e.path.join('.')}: ${e.message}`).join(', ')] *)
Definition issues_text (l : list (string * string)) : string :=
  Js.join ", " (map (fun e => fst e +:+ ": " +:+ snd e) l).

Definition validation_message (method : string) (l : list (string * string)) : string :=
  "Validation failed for " +:+ method +:+ ": " +:+ issues_text l.

(** [params || {}] for the parameters of a request: an object or absent. *)
Definition or_empty (params : option Js.JsObj) : Js.JsObj :=
  match params with
  | Some o => o
  | None => []
  end.

Definition validateAndSanitizeParams (method : string) (params : option Js.JsObj)
  : M Js.JsObj :=
  match Js.js_get methodSchemas method with
  | Js.Undefined =>
      do! logWarning ("No validation schema found for method: " +:+ method) in
      ret (or_empty params)
  | Js.Inherited _ =>
      (* [schema.parse] is undefined on an inherited member; the [catch]
         rethrows what is no [ZodError] *)
      throw (TypeError "schema.parse is not a function")
  | Js.OwnProp shape =>
      match issues shape (or_empty params) with
      | [] => ret (parsed shape (or_empty params))
      | errs => throw (Error (validation_message method errs))
      end
  end.

(** ** The catalogue

    The reference text of the catalogue (types, descriptions, props,
    examples, guide bodies) is inert data.  The keys of every table and
    the fields the not-found messages print are given as the source has
    them; the remaining fields of an entry are supplied by a [Catalogue],
    and every property below holds for any such text. *)

(** A documented prop, parameter or property. *)
Record Field : Type :=
  { field_name : string;
    field_type : string;
    field_description : string;
    field_required : bool;
    field_default : option string }.

Record Method : Type :=
  { method_name : string; method_returns : string; method_description : string }.

Record Variant : Type :=
  { variant_name : string; variant_description : string; variant_props : string }.

Record EnumValue : Type :=
  { value_name : string; value_value : string; value_description : option string }.

(** The fields of an entry besides its name, as the code reads them: a
    field that is missing reads [undefined] ([None], or the empty list). *)
Record ComponentFields : Type :=
  { component_type : option string;
    component_description : option string;
    component_props : list Field;
    component_example : option string }.

Record HookFields : Type :=
  { hook_type : option string;
    hook_description : option string;
    hook_parameters : list Field;
    hook_returns : option string;
    hook_methods : list Method;
    hook_example : option string }.

Record TypeFields : Type :=
  { type_type : option string;
    type_description : option string;
    type_signature : option string;
    type_properties : list Field;
    type_variants : list Variant;
    type_values : list EnumValue;
    type_example : option string }.

Record UtilityFields : Type :=
  { utility_type : option string;
    utility_description : option string;
    utility_signature : option string;
    utility_parameters : list Field;
    utility_returns : option string;
    utility_example : option string }.

Record ExampleFields : Type :=
  { example_tags : list string; example_code : string }.

Record Catalogue : Type :=
  { component_fields : string -> ComponentFields;
    hook_fields : string -> HookFields;
    type_fields : string -> TypeFields;
    utility_fields : string -> UtilityFields;
    example_fields : string -> ExampleFields;
    doc_content : string -> string }.

(** What an inherited member shows for any of these fields: nothing. *)
Definition no_component_fields : ComponentFields :=
  {| component_type := None; component_description := None;
     component_props := []; component_example := None |}.

Definition no_hook_fields : HookFields :=
  {| hook_type := None; hook_description := None; hook_parameters := [];
     hook_returns := None; hook_methods := []; hook_example := None |}.

Definition no_type_fields : TypeFields :=
  {| type_type := None; type_description := None; type_signature := None;
     type_properties := []; type_variants := []; type_values := [];
     type_example := None |}.

Definition no_utility_fields : UtilityFields :=
  {| utility_type := None; utility_description := None; utility_signature := None;
     utility_parameters := []; utility_returns := None; utility_example := None |}.

(** A catalogue with empty bodies, for closed examples. *)
Definition blank_catalogue : Catalogue :=
  {| component_fields := fun _ => no_component_fields;
     hook_fields := fun _ => no_hook_fields;
     type_fields := fun _ => no_type_fields;
     utility_fields := fun _ => no_utility_fields;
     example_fields := fun _ => {| example_tags := []; example_code := EmptyString |};
     doc_content := fun _ => EmptyString |}.

(** [if (x)] on a string that may be missing. *)
Definition present (x : option string) : bool :=
  match x with
  | Some s => negb (String.eqb s EmptyString)
  | None => false
  end.

(** Concatenation of the pieces a [forEach] appends. *)
Definition concat_map {A : Type} (f : A -> string) (l : list A) : string :=
  String.concat EmptyString (map f l).

(** One line of a prop or property list; [with_required] is false where
    the code prints no required mark. *)
Definition field_line (with_required : bool) (p : Field) : string :=
  "- **" +:+ field_name p +:+ "** (`" +:+ field_type p +:+ "`)" +:+
  (if with_required && field_required p then " *required*" else EmptyString) +:+
  ": " +:+ field_description p +:+
  (if present (field_default p)
   then " - Default: `" +:+ Js.show (field_default p) +:+ "`"
   else EmptyString) +:+
  Js.nl.

(** A titled section over a list, printed when the list is not empty. *)
Definition list_section {A : Type} (title : string) (line : A -> string) (l : list A)
  : string :=
  match l with
  | [] => EmptyString
  | _ => "## " +:+ title +:+ Js.nl +:+ Js.nl +:+ concat_map line l +:+ Js.nl
  end.

Definition example_section (example : option string) : string :=
  if present example
  then "## Example" +:+ Js.nl +:+ Js.nl +:+ "```tsx" +:+ Js.nl +:+ Js.show example +:+
       Js.nl +:+ "```" +:+ Js.nl
  else EmptyString.

Definition heading (name type description : option string) : string :=
  "# " +:+ Js.show name +:+ Js.nl +:+ Js.nl +:+
  "**Type:** " +:+ Js.show type +:+ Js.nl +:+ Js.nl +:+
  "**Description:** " +:+ Js.show description +:+ Js.nl +:+ Js.nl.

(** ** The tool handlers *)

(** The receiver check of [x.toLowerCase()] on a parameter the caller
    supplied: only a string has the method. *)
Definition string_receiver (what : string) (v : Js.JsValue) : Outcome string :=
  match v with
  | Js.JsString s => Return s
  | Js.JsUndefined =>
      Throw (TypeError "Cannot read properties of undefined (reading 'toLowerCase')")
  | Js.JsNull =>
      Throw (TypeError "Cannot read properties of null (reading 'toLowerCase')")
  | _ => Throw (TypeError (what +:+ ".toLowerCase is not a function"))
  end.

(** The part shared by every handler after its log line: return the
    cached payload if there is one, else compute, store and return. *)
Definition cached_lookup (cacheKey : string) (ttlMs : Z) (compute : Outcome Payload)
  : M Payload :=
  let! cached := cache_get cacheKey in
  match cached with
  | Some p => ret p
  | None =>
      let! result := lift compute in
      do! cache_set cacheKey result ttlMs in
      ret result
  end.

(** A category table of a list tool: name and description per item. *)
Definition Listing : Type := list (string * list (string * string)).

(** The category filter the three list tools share: a falsy [category]
    lists everything, a string filters, and any other truthy value has no
    [toLowerCase].  [table[category]] on an inherited name is truthy, and
    the rendering then calls [forEach] on a value that has none ([each]
    is the variable the call is made on). *)
Definition filter_category (table : Listing) (not_found : string -> string)
    (each : string) (category : Js.JsValue) : Outcome (Listing + Payload) :=
  if Js.truthy category then
    match string_receiver "category" category with
    | Return c =>
        let normalizedCategory := Js.toLowerCase c in
        match Js.js_get table normalizedCategory with
        | Js.OwnProp items => Return (inl [(normalizedCategory, items)])
        | Js.Inherited _ => Throw (TypeError (each +:+ ".forEach is not a function"))
        | Js.Undefined => Return (inr (text_payload (Some (not_found c))))
        end
    | Throw e => Throw e
    end
  else Return (inl table).

Definition render_listing (title kind footer : string) (l : Listing) : string :=
  "# " +:+ title +:+ Js.nl +:+ Js.nl +:+
  concat_map
    (fun entry =>
       "## " +:+ Js.capitalize (fst entry) +:+ " " +:+ kind +:+ Js.nl +:+ Js.nl +:+
       concat_map
         (fun item => "- **" +:+ fst item +:+ "**: " +:+ snd item +:+ Js.nl)
         (snd entry) +:+
       Js.nl)
    l +:+
  Js.nl +:+ "---" +:+ Js.nl +:+ Js.nl +:+ footer +:+ Js.nl.

Definition list_tool (table : Listing) (not_found : string -> string)
    (each title kind footer : string) (category : Js.JsValue) : Outcome Payload :=
  match filter_category table not_found each category with
  | Return (inl l) => Return (text_payload (Some (render_listing title kind footer l)))
  | Return (inr p) => Return p
  | Throw e => Throw e
  end.

(** [`${category || 'all'}`] *)
Definition category_or_all (v : Js.JsValue) : Outcome string :=
  if Js.truthy v then as_string v else Return "all".

(** [`...${category ? ` in category: ${category}` : ''}`] *)
Definition in_category (v : Js.JsValue) : Outcome string :=
  if Js.truthy v then
    match as_string v with
    | Return shown => Return (" in category: " +:+ shown)
    | Throw e => Throw e
    end
  else Return EmptyString.

(** *** tools/components/list-components.ts *)

Definition components_listing : Listing :=
  [ ("core",
     [ ("<ReactFlow />", "Main component for rendering interactive node-based graphs");
       ("<ReactFlowProvider />", "Context provider for using React Flow hooks outside the main component") ]);
    ("helper",
     [ ("<Background />", "Renders a customizable background pattern (dots, lines, cross)");
       ("<Controls />", "Renders zoom and fit-view controls");
       ("<MiniMap />", "Renders a small overview map for navigation");
       ("<Panel />", "Helper component to render content at specific positions");
       ("<ViewportPortal />", "Renders content in the viewport coordinate system");
       ("<ControlButton />", "Custom button component for the Controls panel") ]);
    ("node",
     [ ("<Handle />", "Connection point for edges on custom nodes");
       ("<NodeResizer />", "Adds resize handles to custom nodes");
       ("<NodeResizeControl />", "Individual resize control for custom positioning");
       ("<NodeToolbar />", "Toolbar that appears when a node is selected") ]);
    ("edge",
     [ ("<BaseEdge />", "Base component for creating custom edges");
       ("<EdgeLabelRenderer />", "Renders edge labels outside SVG for better styling");
       ("<EdgeToolbar />", "Toolbar that appears when an edge is selected") ]) ].

Definition category_not_found (available : string) (category : string) : string :=
  "Category " +:+ Js.dquote +:+ category +:+ Js.dquote +:+
  " not found. Available categories: " +:+ available.

Definition getComponentsList (category : Js.JsValue) : Outcome Payload :=
  list_tool components_listing (category_not_found "core, helper, node, edge")
    "comps" "React Flow Components" "Components"
    "Use `get_react_flow_component` to get detailed information about a specific component."
    category.

Definition handleListComponents (params : Js.JsObj) : M Payload :=
  let category := Js.obj_get params "category" in
  let! suffix := lift (in_category category) in
  do! logInfo ("Listing React Flow components" +:+ suffix) in
  let! key := lift (category_or_all category) in
  cached_lookup ("react-flow-components-list-" +:+ key) (60 * 60 * 1000) (getComponentsList category).

(** *** tools/hooks/list-hooks.ts *)

Definition hooks_listing : Listing :=
  [ ("state",
     [ ("useNodes()", "Returns the current nodes array");
       ("useEdges()", "Returns the current edges array");
       ("useNodesState()", "Convenience hook for nodes state management");
       ("useEdgesState()", "Convenience hook for edges state management");
       ("useNodesData()", "Returns data of specified nodes") ]);
    ("viewport",
     [ ("useViewport()", "Returns current viewport (x, y, zoom)");
       ("useOnViewportChange()", "Register viewport change callbacks") ]);
    ("connection",
     [ ("useConnection()", "Returns info about current connection being made");
       ("useHandleConnections()", "Returns connections for a specific handle");
       ("useNodeConnections()", "Returns all connections for the current node") ]);
    ("selection",
     [ ("useOnSelectionChange()", "Register selection change callback") ]);
    ("store",
     [ ("useStore()", "Access internal zustand store with selector");
       ("useStoreApi()", "Returns store API for reading without subscribing") ]);
    ("utility",
     [ ("useReactFlow()", "Returns React Flow instance with control methods");
       ("useNodeId()", "Returns ID of current node (inside custom nodes)");
       ("useUpdateNodeInternals()", "Function to update node handle positions");
       ("useNodesInitialized()", "Returns true when all nodes are measured");
       ("useInternalNode()", "Returns internal node data with dimensions");
       ("useKeyPress()", "Returns whether a key is pressed") ]) ].

Definition getHooksList (category : Js.JsValue) : Outcome Payload :=
  list_tool hooks_listing
    (category_not_found "state, viewport, connection, selection, store, utility")
    "hks" "React Flow Hooks" "Hooks"
    "Use `get_react_flow_hook` to get detailed information about a specific hook."
    category.

Definition handleListHooks (params : Js.JsObj) : M Payload :=
  let category := Js.obj_get params "category" in
  let! suffix := lift (in_category category) in
  do! logInfo ("Listing React Flow hooks" +:+ suffix) in
  let! key := lift (category_or_all category) in
  cached_lookup ("react-flow-hooks-list-" +:+ key) (60 * 60 * 1000) (getHooksList category).

(** *** tools/types/list-types.ts *)

Definition types_listing : Listing :=
  [ ("core",
     [ ("Node<T>", "Represents a node in the flow with custom data type T");
       ("Edge<T>", "Represents an edge connecting two nodes");
       ("Connection", "Represents a connection between handles");
       ("Viewport", "Current view state (x, y, zoom) of the canvas") ]);
    ("geometry",
     [ ("XYPosition", "Simple x/y coordinate pair");
       ("Rect", "Rectangle with position and dimensions");
       ("Dimensions", "Width and height dimensions");
       ("CoordinateExtent", "Bounding box for node movement") ]);
    ("change",
     [ ("NodeChange", "Union type for all node changes");
       ("EdgeChange", "Union type for all edge changes");
       ("NodeAddChange", "Node was added");
       ("NodeRemoveChange", "Node was removed");
       ("NodePositionChange", "Node position changed");
       ("NodeDimensionChange", "Node dimensions changed");
       ("NodeSelectionChange", "Node selection changed") ]);
    ("enum",
     [ ("Position", "Handle and toolbar positions (Top, Bottom, Left, Right)");
       ("MarkerType", "Edge marker types (Arrow, ArrowClosed)");
       ("ConnectionMode", "Connection mode (Strict, Loose)");
       ("PanelPosition", "Panel positions (top-left, bottom-right, etc.)");
       ("BackgroundVariant", "Background patterns (Dots, Lines, Cross)");
       ("SelectionMode", "Selection behavior (Partial, Full)") ]);
    ("configuration",
     [ ("NodeTypes", "Record mapping node type names to components");
       ("EdgeTypes", "Record mapping edge type names to components");
       ("FitViewOptions", "Options for fitView behavior");
       ("DefaultEdgeOptions", "Default options for all edges");
       ("ProOptions", "React Flow Pro options") ]);
    ("callback",
     [ ("OnConnect", "Callback when a connection is created");
       ("OnNodesChange", "Callback when nodes change");
       ("OnEdgesChange", "Callback when edges change");
       ("OnNodeDrag", "Callback during node drag");
       ("OnSelectionChange", "Callback when selection changes");
       ("OnMove", "Callback when viewport moves");
       ("OnInit", "Callback when React Flow initializes");
       ("IsValidConnection", "Function to validate connections") ]) ].

Definition getTypesList (category : Js.JsValue) : Outcome Payload :=
  list_tool types_listing
    (category_not_found "core, geometry, change, enum, configuration, callback")
    "tps" "React Flow Types" "Types"
    "Use `get_react_flow_type` to get detailed information about a specific type."
    category.

Definition handleListTypes (params : Js.JsObj) : M Payload :=
  let category := Js.obj_get params "category" in
  let! suffix := lift (in_category category) in
  do! logInfo ("Listing React Flow types" +:+ suffix) in
  let! key := lift (category_or_all category) in
  cached_lookup ("react-flow-types-list-" +:+ key) (60 * 60 * 1000) (getTypesList category).

(** *** tools/utilities/list-utilities.ts *)

Definition utilities_listing : Listing :=
  [ ("edge",
     [ ("addEdge()", "Add a new edge to an existing array");
       ("reconnectEdge()", "Update an edge with a new connection") ]);
    ("node",
     [ ("applyNodeChanges()", "Apply node changes to nodes array") ]);
    ("edgeChanges",
     [ ("applyEdgeChanges()", "Apply edge changes to edges array") ]);
    ("path",
     [ ("getBezierPath()", "Calculate bezier curve path");
       ("getSimpleBezierPath()", "Calculate simple bezier path");
       ("getSmoothStepPath()", "Calculate smooth step path with rounded corners");
       ("getStraightPath()", "Calculate straight line path") ]);
    ("graph",
     [ ("getConnectedEdges()", "Get all edges connected to nodes");
       ("getIncomers()", "Get nodes with edges pointing to target");
       ("getOutgoers()", "Get nodes that source points to") ]);
    ("layout",
     [ ("getNodesBounds()", "Calculate bounding box for nodes");
       ("getViewportForBounds()", "Calculate viewport to fit bounds") ]);
    ("validation",
     [ ("isNode()", "Type guard for Node");
       ("isEdge()", "Type guard for Edge") ]) ].

Definition getUtilitiesList : Payload :=
  text_payload
    (Some (render_listing "React Flow Utilities" "Utilities"
             "Use `get_react_flow_utility` to get detailed information about a specific utility."
             utilities_listing)).

Definition handleListUtilities (params : Js.JsObj) : M Payload :=
  do! logInfo "Listing React Flow utilities" in
  cached_lookup "react-flow-utilities-list" (60 * 60 * 1000) (Return getUtilitiesList).

(** *** The get tools *)

Definition not_found_text (kind plural : string) (given : string) (names : list string)
  : string :=
  kind +:+ " " +:+ Js.dquote +:+ given +:+ Js.dquote +:+ " not found. Available " +:+
  plural +:+ ": " +:+ Js.join ", " names.

Definition method_line (m : Method) : string :=
  "- **" +:+ method_name m +:+ "** → `" +:+ method_returns m +:+ "`: " +:+
  method_description m +:+ Js.nl.

Definition variant_line (v : Variant) : string :=
  "- **" +:+ variant_name v +:+ "**: " +:+ variant_description v +:+ Js.nl +:+
  "  - `" +:+ variant_props v +:+ "`" +:+ Js.nl.

Definition value_line (v : EnumValue) : string :=
  "- **" +:+ value_name v +:+ "** = `" +:+ value_value v +:+ "`" +:+
  (if present (value_description v)
   then ": " +:+ Js.show (value_description v) else EmptyString) +:+
  Js.nl.

Definition render_component (name : option string) (f : ComponentFields) : string :=
  heading name (component_type f) (component_description f) +:+
  list_section "Props" (field_line true) (component_props f) +:+
  example_section (component_example f).

Definition render_hook (name : option string) (f : HookFields) : string :=
  heading name (hook_type f) (hook_description f) +:+
  list_section "Parameters" (field_line false) (hook_parameters f) +:+
  (if present (hook_returns f)
   then "## Returns" +:+ Js.nl +:+ Js.nl +:+ "`" +:+ Js.show (hook_returns f) +:+ "`" +:+
        Js.nl +:+ Js.nl
   else EmptyString) +:+
  list_section "Methods" method_line (hook_methods f) +:+
  example_section (hook_example f).

Definition render_type (name : option string) (f : TypeFields) : string :=
  heading name (type_type f) (type_description f) +:+
  (if present (type_signature f)
   then "**Signature:** `" +:+ Js.show (type_signature f) +:+ "`" +:+ Js.nl +:+ Js.nl
   else EmptyString) +:+
  list_section "Properties" (field_line true) (type_properties f) +:+
  list_section "Variants" variant_line (type_variants f) +:+
  list_section "Values" value_line (type_values f) +:+
  example_section (type_example f).

Definition render_utility (name : option string) (f : UtilityFields) : string :=
  heading name (utility_type f) (utility_description f) +:+
  (if present (utility_signature f)
   then "**Signature:**" +:+ Js.nl +:+ "```typescript" +:+ Js.nl +:+
        Js.show (utility_signature f) +:+ Js.nl +:+ "```" +:+ Js.nl +:+ Js.nl
   else EmptyString) +:+
  list_section "Parameters" (field_line false) (utility_parameters f) +:+
  (if present (utility_returns f)
   then "## Returns" +:+ Js.nl +:+ Js.nl +:+ Js.show (utility_returns f) +:+ Js.nl +:+ Js.nl
   else EmptyString) +:+
  example_section (utility_example f).

(** Keys and [name] fields of the table in tools/components/get-component.ts. *)
Definition components : list (string * string) :=
  [ ("reactflow", "<ReactFlow />");
    ("reactflowprovider", "<ReactFlowProvider />");
    ("background", "<Background />");
    ("controls", "<Controls />");
    ("minimap", "<MiniMap />");
    ("panel", "<Panel />");
    ("handle", "<Handle />");
    ("baseedge", "<BaseEdge />");
    ("edgelabelrenderer", "<EdgeLabelRenderer />");
    ("noderesizer", "<NodeResizer />");
    ("nodetoolbar", "<NodeToolbar />");
    ("viewportportal", "<ViewportPortal />");
    ("controlbutton", "<ControlButton />") ].

(** Keys and [name] fields of the table in tools/hooks/get-hook.ts. *)
Definition hooks : list (string * string) :=
  [ ("usereactflow", "useReactFlow()");
    ("usenodes", "useNodes()");
    ("useedges", "useEdges()");
    ("usenodesstate", "useNodesState(initialNodes)");
    ("useedgesstate", "useEdgesState(initialEdges)");
    ("usenodeid", "useNodeId()");
    ("usenodesdata", "useNodesData(nodeIds)");
    ("useconnection", "useConnection()");
    ("usehandleconnections", "useHandleConnections({ type, id })");
    ("usenodeconnections", "useNodeConnections({ type })");
    ("useviewport", "useViewport()");
    ("useonviewportchange", "useOnViewportChange({ onStart, onChange, onEnd })");
    ("useonselectionchange", "useOnSelectionChange({ onChange })");
    ("usekeypress", "useKeyPress(keyCode)");
    ("usestore", "useStore(selector)");
    ("usestoreapi", "useStoreApi()");
    ("useupdatenodeinternals", "useUpdateNodeInternals()");
    ("usenodesinitialized", "useNodesInitialized(options?)");
    ("useinternalnode", "useInternalNode(nodeId)") ].

(** Keys and [name] fields of the table in tools/types/get-type.ts. *)
Definition types : list (string * string) :=
  [ ("node", "Node<T>");
    ("edge", "Edge<T>");
    ("connection", "Connection");
    ("viewport", "Viewport");
    ("xyposition", "XYPosition");
    ("rect", "Rect");
    ("nodechange", "NodeChange");
    ("edgechange", "EdgeChange");
    ("position", "Position");
    ("markertype", "MarkerType");
    ("connectionmode", "ConnectionMode");
    ("panelposition", "PanelPosition");
    ("nodetypes", "NodeTypes");
    ("edgetypes", "EdgeTypes");
    ("onconnect", "OnConnect");
    ("onnodeschange", "OnNodesChange");
    ("onedgeschange", "OnEdgesChange") ].

(** Keys and [name] fields of the table in tools/utilities/get-utility.ts. *)
Definition utilities : list (string * string) :=
  [ ("addedge", "addEdge()");
    ("applynodechanges", "applyNodeChanges()");
    ("applyedgechanges", "applyEdgeChanges()");
    ("reconnectedge", "reconnectEdge()");
    ("getbezierpath", "getBezierPath()");
    ("getsimplebezierpath", "getSimpleBezierPath()");
    ("getsmoothsteppath", "getSmoothStepPath()");
    ("getstraightpath", "getStraightPath()");
    ("getconnectededges", "getConnectedEdges()");
    ("getincomers", "getIncomers()");
    ("getoutgoers", "getOutgoers()");
    ("getnodesbounds", "getNodesBounds()");
    ("getviewportforbounds", "getViewportForBounds()");
    ("isnode", "isNode()");
    ("isedge", "isEdge()") ].

(** Keys, [name] and [description] fields of the table in
    tools/examples/get-example.ts. *)
Definition example_codes : list (string * (string * string)) :=
  [ ("basic-flow", ("Basic Flow", "A simple React Flow setup with nodes, edges, and basic interactivity."));
    ("custom-node", ("Custom Node", "Creating a custom node component with handles and custom styling."));
    ("custom-edge", ("Custom Edge", "Creating a custom edge with a button to delete the connection."));
    ("drag-and-drop", ("Drag and Drop", "Adding nodes via drag and drop from a sidebar."));
    ("sub-flows", ("Sub Flows (Nested Nodes)", "Creating nodes that contain other nodes using parent-child relationships."));
    ("validation", ("Connection Validation", "Validating connections before they are created."));
    ("save-restore", ("Save and Restore", "Saving flow state to JSON and restoring it."));
    ("resizable-node", ("Resizable Node", "Creating nodes that can be resized by users."));
    ("toolbar-node", ("Node with Toolbar", "Adding a toolbar that appears when a node is selected."));
    ("layout-elk", ("Auto Layout with ELK", "Using ELK.js for automatic graph layout.")) ].

(** Keys and [title] fields of the table in tools/docs/get-docs.ts. *)
Definition docs : list (string * string) :=
  [ ("getting-started", "Getting Started with React Flow");
    ("concepts", "Core Concepts");
    ("custom-nodes", "Custom Nodes");
    ("custom-edges", "Custom Edges");
    ("performance", "Performance Optimization");
    ("state-management", "State Management");
    ("typescript", "TypeScript Usage");
    ("accessibility", "Accessibility") ].

(** *** tools/examples/search-examples.ts *)

Module Search.

Record Example : Type :=
  { id : string; name : string; description : string; tags : list string }.

Definition examples : list Example :=
  [ {| id := "basic-flow"; name := "Basic Flow";
       description := "A simple React Flow setup with nodes, edges, and basic interactivity.";
       tags := ["beginner"; "setup"; "nodes"; "edges"; "getting-started"] |};
    {| id := "custom-node"; name := "Custom Node";
       description := "Creating a custom node component with handles and custom styling.";
       tags := ["intermediate"; "custom"; "nodes"; "handles"; "styling"] |};
    {| id := "custom-edge"; name := "Custom Edge";
       description := "Creating a custom edge with a button to delete the connection.";
       tags := ["intermediate"; "custom"; "edges"; "delete"; "interactive"] |};
    {| id := "drag-and-drop"; name := "Drag and Drop";
       description := "Adding nodes via drag and drop from a sidebar.";
       tags := ["intermediate"; "drag-drop"; "add-nodes"; "sidebar"; "dnd"] |};
    {| id := "sub-flows"; name := "Sub Flows (Nested Nodes)";
       description := "Creating nodes that contain other nodes using parent-child relationships.";
       tags := ["advanced"; "nested"; "groups"; "layout"; "parent"; "child"] |};
    {| id := "validation"; name := "Connection Validation";
       description := "Validating connections before they are created.";
       tags := ["intermediate"; "validation"; "connections"; "isValidConnection"] |};
    {| id := "save-restore"; name := "Save and Restore";
       description := "Saving flow state to JSON and restoring it.";
       tags := ["intermediate"; "persistence"; "json"; "localStorage"; "save"; "load"] |};
    {| id := "resizable-node"; name := "Resizable Node";
       description := "Creating nodes that can be resized by users.";
       tags := ["intermediate"; "resize"; "custom-node"; "NodeResizer"] |};
    {| id := "toolbar-node"; name := "Node with Toolbar";
       description := "Adding a toolbar that appears when a node is selected.";
       tags := ["intermediate"; "toolbar"; "custom-node"; "NodeToolbar"; "selection"] |};
    {| id := "layout-elk"; name := "Auto Layout with ELK";
       description := "Using ELK.js for automatic graph layout.";
       tags := ["advanced"; "layout"; "elk"; "auto-layout"; "algorithm"] |};
    {| id := "interactive-minimap"; name := "Interactive MiniMap";
       description := "Configuring MiniMap with panning and zooming capabilities.";
       tags := ["beginner"; "minimap"; "navigation"; "overview"] |};
    {| id := "edge-types"; name := "Built-in Edge Types";
       description := "Using different built-in edge types: default, straight, step, smoothstep, simplebezier.";
       tags := ["beginner"; "edges"; "types"; "bezier"; "step"] |};
    {| id := "context-menu"; name := "Context Menu";
       description := "Adding right-click context menus to nodes and the canvas.";
       tags := ["intermediate"; "context-menu"; "right-click"; "menu"] |};
    {| id := "touch-device"; name := "Touch Device Support";
       description := "Optimizing React Flow for touch devices and mobile.";
       tags := ["intermediate"; "touch"; "mobile"; "gestures"] |};
    {| id := "undo-redo"; name := "Undo/Redo";
       description := "Implementing undo and redo functionality for flow changes.";
       tags := ["advanced"; "undo"; "redo"; "history"; "state-management"] |} ].

(** [[name, description, ...tags].join(' ')], every piece in lower case *)
Definition searchableText (example : Example) : string :=
  Js.join " "
    (Js.toLowerCase (name example) :: Js.toLowerCase (description example) ::
     map Js.toLowerCase (tags example)).

Definition queryTerms (query : string) : list string :=
  Js.split_space (Js.toLowerCase query).

(** the predicate of [examples.filter] *)
Definition matches_query (query : string) (example : Example) : bool :=
  forallb (fun term => Js.includes (searchableText example) term) (queryTerms query).

Definition matches (query : string) : list Example :=
  List.filter (matches_query query) examples.

Definition result_block (example : Example) : string :=
  "## " +:+ name example +:+ Js.nl +:+
  "**ID:** `" +:+ id example +:+ "`" +:+ Js.nl +:+
  "**Description:** " +:+ description example +:+ Js.nl +:+
  "**Tags:** " +:+ Js.join ", " (tags example) +:+ Js.nl +:+ Js.nl.

Definition searchExamples (query : string) : Payload :=
  match matches query with
  | [] =>
      text_payload
        (Some ("No examples found for " +:+ Js.dquote +:+ query +:+ Js.dquote +:+
               ". Try searching for:" +:+ Js.nl +:+ Js.nl +:+
               "- **Concepts**: nodes, edges, custom, layout, drag-drop" +:+ Js.nl +:+
               "- **Features**: validation, resize, toolbar, minimap" +:+ Js.nl +:+
               "- **Levels**: beginner, intermediate, advanced" +:+ Js.nl +:+ Js.nl +:+
               "Or use `get_react_flow_example` with a specific example type."))
  | found =>
      text_payload
        (Some ("# Search Results for " +:+ Js.dquote +:+ query +:+ Js.dquote +:+
               Js.nl +:+ Js.nl +:+
               "Found " +:+ Js.nat_to_string (length found) +:+ " example(s):" +:+
               Js.nl +:+ Js.nl +:+
               concat_map result_block found +:+
               "---" +:+ Js.nl +:+ Js.nl +:+
               "Use `get_react_flow_example` with the example ID to get the full code." +:+
               Js.nl))
  end.

Definition handleSearchExamples (params : Js.JsObj) : M Payload :=
  let query := Js.obj_get params "query" in
  let! shown := lift (as_string query) in
  do! logInfo ("Searching React Flow examples for: " +:+ shown) in
  let! q := lift (string_receiver "query" query) in
  cached_lookup ("react-flow-example-search-" +:+ Js.toLowerCase q) (15 * 60 * 1000)
    (Return (searchExamples q)).

End Search.

Section Tools.

Variable cat : Catalogue.

(** tools/components/get-component.ts *)
Definition component_noise (c : ascii) : bool :=
  Ascii.eqb c "<" || Ascii.eqb c ">" || Ascii.eqb c "/" || Js.is_space c.

Definition getComponentInfo (componentName : string) : Payload :=
  let normalizedName := Js.remove_chars component_noise (Js.toLowerCase componentName) in
  match Js.js_get components normalizedName with
  | Js.Undefined =>
      text_payload
        (Some (not_found_text "Component" "components" componentName (map snd components)))
  | Js.OwnProp name =>
      text_payload (Some (render_component (Some name) (component_fields cat normalizedName)))
  | Js.Inherited m =>
      text_payload (Some (render_component (Js.proto_member_name m) no_component_fields))
  end.

Definition handleGetComponent (params : Js.JsObj) : M Payload :=
  let componentName := Js.obj_get params "componentName" in
  let! shown := lift (as_string componentName) in
  do! logInfo ("Getting React Flow component: " +:+ shown) in
  let! name := lift (string_receiver "componentName" componentName) in
  cached_lookup ("react-flow-component-" +:+ Js.toLowerCase name) (30 * 60 * 1000)
    (Return (getComponentInfo name)).

(** tools/hooks/get-hook.ts *)
Definition parentheses (c : ascii) : bool := Ascii.eqb c "(" || Ascii.eqb c ")".

Definition getHookInfo (hookName : string) : Payload :=
  let normalizedName := Js.remove_chars parentheses (Js.toLowerCase hookName) in
  match Js.js_get hooks normalizedName with
  | Js.Undefined =>
      text_payload (Some (not_found_text "Hook" "hooks" hookName (map snd hooks)))
  | Js.OwnProp name =>
      text_payload (Some (render_hook (Some name) (hook_fields cat normalizedName)))
  | Js.Inherited m =>
      text_payload (Some (render_hook (Js.proto_member_name m) no_hook_fields))
  end.

Definition handleGetHook (params : Js.JsObj) : M Payload :=
  let hookName := Js.obj_get params "hookName" in
  let! shown := lift (as_string hookName) in
  do! logInfo ("Getting React Flow hook: " +:+ shown) in
  let! name := lift (string_receiver "hookName" hookName) in
  cached_lookup ("react-flow-hook-" +:+ Js.toLowerCase name) (30 * 60 * 1000)
    (Return (getHookInfo name)).

(** tools/types/get-type.ts *)
Definition angle_brackets (c : ascii) : bool := Ascii.eqb c "<" || Ascii.eqb c ">".

(** tools/types/get-type.ts.  Of the fields the page reads, the inherited
    members have only [name], except that [Object] (found under
    [constructor]) has a function under [values]: its [length] is 1 and it
    has no [forEach], so the page for it throws. *)
Definition getTypeInfo (typeName : string) : Outcome Payload :=
  let normalizedName := Js.remove_chars angle_brackets (Js.toLowerCase typeName) in
  match Js.js_get types normalizedName with
  | Js.Undefined =>
      Return (text_payload (Some (not_found_text "Type" "types" typeName (map snd types))))
  | Js.OwnProp name =>
      Return (text_payload (Some (render_type (Some name) (type_fields cat normalizedName))))
  | Js.Inherited Js.P_constructor =>
      Throw (TypeError "typeData.values.forEach is not a function")
  | Js.Inherited m =>
      Return (text_payload (Some (render_type (Js.proto_member_name m) no_type_fields)))
  end.

Definition handleGetType (params : Js.JsObj) : M Payload :=
  let typeName := Js.obj_get params "typeName" in
  let! shown := lift (as_string typeName) in
  do! logInfo ("Getting React Flow type: " +:+ shown) in
  let! name := lift (string_receiver "typeName" typeName) in
  cached_lookup ("react-flow-type-" +:+ Js.toLowerCase name) (30 * 60 * 1000)
    (getTypeInfo name).

(** tools/utilities/get-utility.ts *)
Definition getUtilityInfo (utilityName : string) : Payload :=
  let normalizedName := Js.remove_chars parentheses (Js.toLowerCase utilityName) in
  match Js.js_get utilities normalizedName with
  | Js.Undefined =>
      text_payload (Some (not_found_text "Utility" "utilities" utilityName (map snd utilities)))
  | Js.OwnProp name =>
      text_payload (Some (render_utility (Some name) (utility_fields cat normalizedName)))
  | Js.Inherited m =>
      text_payload (Some (render_utility (Js.proto_member_name m) no_utility_fields))
  end.

Definition handleGetUtility (params : Js.JsObj) : M Payload :=
  let utilityName := Js.obj_get params "utilityName" in
  let! shown := lift (as_string utilityName) in
  do! logInfo ("Getting React Flow utility: " +:+ shown) in
  let! name := lift (string_receiver "utilityName" utilityName) in
  cached_lookup ("react-flow-utility-" +:+ Js.toLowerCase name) (30 * 60 * 1000)
    (Return (getUtilityInfo name)).

(** tools/examples/get-example.ts.  On an inherited member [example.tags]
    is undefined and [example.tags.join] throws. *)
Definition getExampleInfo (exampleType : string) : Outcome Payload :=
  let normalizedType := Js.replace_space_runs "-" false (Js.toLowerCase exampleType) in
  match Js.js_get example_codes normalizedType with
  | Js.Undefined =>
      Return
        (text_payload
           (Some ("Example " +:+ Js.dquote +:+ exampleType +:+ Js.dquote +:+
                  " not found. Available examples:" +:+ Js.nl +:+ Js.nl +:+
                  Js.join Js.nl
                    (map (fun e => "- **" +:+ fst e +:+ "**: " +:+ snd (snd e))
                       example_codes))))
  | Js.OwnProp (name, description) =>
      let f := example_fields cat normalizedType in
      Return
        (text_payload
           (Some ("# " +:+ name +:+ Js.nl +:+ Js.nl +:+
                  "**Description:** " +:+ description +:+ Js.nl +:+ Js.nl +:+
                  "**Tags:** " +:+ Js.join ", " (example_tags f) +:+ Js.nl +:+ Js.nl +:+
                  "## Code" +:+ Js.nl +:+ Js.nl +:+ "```tsx" +:+ Js.nl +:+
                  example_code f +:+ Js.nl +:+ "```" +:+ Js.nl)))
  | Js.Inherited _ =>
      Throw (TypeError "Cannot read properties of undefined (reading 'join')")
  end.

Definition handleGetExample (params : Js.JsObj) : M Payload :=
  let exampleType := Js.obj_get params "exampleType" in
  let! shown := lift (as_string exampleType) in
  do! logInfo ("Getting React Flow example: " +:+ shown) in
  let! name := lift (string_receiver "exampleType" exampleType) in
  cached_lookup ("react-flow-example-" +:+ Js.toLowerCase name) (30 * 60 * 1000)
    (getExampleInfo name).

(** tools/docs/get-docs.ts.  On an inherited member [doc.content] is
    undefined, and so is the text of the payload. *)
Definition getDocsInfo (topic : string) : Payload :=
  let normalizedTopic := Js.replace_space_runs "-" false (Js.toLowerCase topic) in
  match Js.js_get docs normalizedTopic with
  | Js.Undefined =>
      text_payload
        (Some ("Documentation topic " +:+ Js.dquote +:+ topic +:+ Js.dquote +:+
               " not found. Available topics:" +:+ Js.nl +:+ Js.nl +:+
               Js.join Js.nl (map (fun d => "- **" +:+ fst d +:+ "**: " +:+ snd d) docs) +:+
               Js.nl +:+ Js.nl +:+
               "Use `get_react_flow_docs` with one of these topic names."))
  | Js.OwnProp _ => text_payload (Some (doc_content cat normalizedTopic))
  | Js.Inherited _ => text_payload None
  end.

Definition handleGetDocs (params : Js.JsObj) : M Payload :=
  let topic := Js.obj_get params "topic" in
  let! shown := lift (as_string topic) in
  do! logInfo ("Getting React Flow docs: " +:+ shown) in
  let! name := lift (string_receiver "topic" topic) in
  cached_lookup ("react-flow-docs-" +:+ Js.toLowerCase name) (60 * 60 * 1000)
    (Return (getDocsInfo name)).

(** tools/index.ts *)
Definition toolHandlers : list (string * (Js.JsObj -> M Payload)) :=
  [ ("get_react_flow_component", handleGetComponent);
    ("list_react_flow_components", handleListComponents);
    ("get_react_flow_hook", handleGetHook);
    ("list_react_flow_hooks", handleListHooks);
    ("get_react_flow_type", handleGetType);
    ("list_react_flow_types", handleListTypes);
    ("get_react_flow_utility", handleGetUtility);
    ("list_react_flow_utilities", handleListUtilities);
    ("get_react_flow_example", handleGetExample);
    ("search_react_flow_examples", Search.handleSearchExamples);
    ("get_react_flow_docs", handleGetDocs) ].

(** ** handler.ts *)

(** [handler(arg)] when [handler] is a member inherited from
    [Object.prototype], called as a plain function ([this] is undefined):
    [Object(arg)] is [arg]; [toString] names its receiver;
    [isPrototypeOf] answers false for a primitive; [__proto__] is no
    function; the others fail to convert their receiver. *)
Definition call_inherited (m : Js.ProtoMember) (arg : Js.JsValue) : Outcome Js.JsValue :=
  match m with
  | Js.P_constructor => Return arg
  | Js.P_toString => Return (Js.JsString "[object Undefined]")
  | Js.P_proto => Throw (TypeError "handler is not a function")
  | Js.P_isPrototypeOf =>
      match arg with
      | Js.JsObject _ | Js.JsArray _ =>
          Throw (TypeError "Cannot convert undefined or null to object")
      | _ => Return (Js.JsBoolean false)
      end
  | _ => Throw (TypeError "Cannot convert undefined or null to object")
  end.

(** [params || {}] for the [arguments] of a tool call. *)
Definition or_empty_object (v : Js.JsValue) : Js.JsValue :=
  if Js.truthy v then v else Js.JsObject [].

(** The properties a tool handler can read from its argument: those of an
    object; a primitive or an array has none of the names read. *)
Definition properties (v : Js.JsValue) : Js.JsObj :=
  match v with
  | Js.JsObject o => o
  | _ => []
  end.

(** The body of the [try] block of [handleRequest].  The [emit] marks in
    the history the point where the handler is called. *)
Definition request_body {T : Type} (method : string) (params : option Js.JsObj)
    (handler : Js.JsObj -> M T) : M T :=
  let! validatedParams := validateAndSanitizeParams method params in
  let! result := execute (do! emit (HandlerCall method) in handler validatedParams) in
  ret result.

Definition handleRequest {T : Type} (method : string) (params : option Js.JsObj)
    (handler : Js.JsObj -> M T) : M T :=
  try_catch (request_body method params handler)
    (fun error =>
       do! logError ("Error in " +:+ method) error in
       throw error).

(** The closure the CallToolRequestSchema handler passes to
    [handleRequest].  The [emit] marks in the history the point where the
    tool handler is called. *)
Definition call_tool_handler (validatedParams : Js.JsObj) : M ToolResult :=
  let name := Js.obj_get validatedParams "name" in
  let params := Js.obj_get validatedParams "arguments" in
  match name with
  | Js.JsString n =>
      if negb (Js.truthy name) then throw (Error "Tool name is required")
      else
        match Js.js_get toolHandlers n with
        | Js.Undefined => throw (Error ("Tool not found: " +:+ n))
        | Js.OwnProp handler =>
            let! result :=
              execute (do! emit (ToolCall n) in
                       handler (properties (or_empty_object params))) in
            ret (ResultPayload result)
        | Js.Inherited m =>
            let! result := execute (lift (call_inherited m (or_empty_object params))) in
            ret (ResultValue result)
        end
  | _ => throw (Error "Tool name is required")
  end.

Definition call_tool (params : option Js.JsObj) : M ToolResult :=
  handleRequest "call_tool" params call_tool_handler.

End Tools.

(** A world at process start: the breaker as constructed, nothing cached,
    nothing logged. *)
Definition initial_world (threshold timeout : Z) (t : Z) : World :=
  {| now := t;
     breaker := CircuitBreaker.create threshold timeout;
     cache := ∅;
     log := [];
     trace := [] |}.

(** A tool call as the client sends it. *)
Definition tool_request (name : string) (arguments : Js.JsObj) : option Js.JsObj :=
  Some [("name", Js.JsString name); ("arguments", Js.JsObject arguments)].


(** ** utils/validation.ts: [sanitizeString] *)

(** [s.substring(0, n)] *)
Fixpoint take (n : nat) (s : string) : string :=
  match n, s with
  | S k, String c r => String c (take k r)
  | _, _ => EmptyString
  end.

(** [s.slice(n)] *)
Fixpoint drop (n : nat) (s : string) : string :=
  match n, s with
  | S k, String _ r => drop k r
  | _, _ => s
  end.

(** [p] is a prefix of [s], letter case ignored (the regex flag [i]). *)
Fixpoint prefix_ci (p s : string) : bool :=
  match p, s with
  | EmptyString, _ => true
  | String a p', String b s' =>
      Ascii.eqb (Js.lower_char a) (Js.lower_char b) && prefix_ci p' s'
  | String _ _, EmptyString => false
  end.

(** The characters the regex [.] does not match. *)
Definition is_line_terminator (c : ascii) : bool :=
  Ascii.eqb c "010" || Ascii.eqb c "013".

(** The index of the first [>], where [[^>]*>] ends. *)
Fixpoint index_of_gt (s : string) : option nat :=
  match s with
  | EmptyString => None
  | String c r => if Ascii.eqb c ">" then Some 0 else option_map S (index_of_gt r)
  end.

(** [.*?<\/script>]: the number of characters the lazy [.*?] takes before
    the closing tag; it stops at the first closing tag and fails at a line
    terminator or at the end. *)
Fixpoint lazy_close (s : string) : option nat :=
  if prefix_ci "</script>" s then Some 0
  else match s with
       | EmptyString => None
       | String c r => if is_line_terminator c then None else option_map S (lazy_close r)
       end.

(** The length of the match of [/<script[^>]*>.*?<\/script>/i] at the
    start of [s], if there is one. *)
Definition script_len (s : string) : option nat :=
  if prefix_ci "<script" s then
    match index_of_gt (drop 7 s) with
    | Some a =>
        match lazy_close (drop (7 + a + 1) s) with
        | Some b => Some (7 + a + 1 + b + 9)
        | None => None
        end
    | None => None
    end
  else None.

(** The length of the match of [/<[^>]*>/] at the start of [s]. *)
Definition tag_len (s : string) : option nat :=
  match s with
  | String c r =>
      if Ascii.eqb c "<" then option_map (fun j => S (S j)) (index_of_gt r) else None
  | EmptyString => None
  end.

(** [s.replace(re, '')] with the flag [g], for a regex given by the length
    of its match at a position: scan from the left, drop each match and
    resume after it.  [skip] counts the characters of the current match
    still to drop. *)
Fixpoint remove_matches (match_len : string -> option nat) (skip : nat) (s : string)
  : string :=
  match s with
  | EmptyString => EmptyString
  | String c r =>
      match skip with
      | S k => remove_matches match_len k r
      | O =>
          match match_len s with
          | Some (S k) => remove_matches match_len k r
          | _ => String c (remove_matches match_len 0 r)
          end
      end
  end.

Fixpoint trim_start (s : string) : string :=
  match s with
  | EmptyString => EmptyString
  | String c r => if Js.is_space c then trim_start r else s
  end.

Fixpoint trim_end (s : string) : string :=
  match s with
  | EmptyString => EmptyString
  | String c r =>
      match trim_end r with
      | EmptyString => if Js.is_space c then EmptyString else String c EmptyString
      | r' => String c r'
      end
  end.

(** [s.trim()] *)
Definition trim (s : string) : string := trim_end (trim_start s).

Definition sanitizeString (input : string) : string :=
  take 1000 (trim (remove_matches tag_len 0 (remove_matches script_len 0 input))).

(** [s] contains a [>]. *)
Fixpoint has_gt (s : string) : bool :=
  match s with
  | EmptyString => false
  | String c r => Ascii.eqb c ">" || has_gt r
  end.

(** Some [<] of [s] is followed, later, by a [>]. *)
Fixpoint has_tag (s : string) : bool :=
  match s with
  | EmptyString => false
  | String c r => (Ascii.eqb c "<" && has_gt r) || has_tag r
  end.

(** [s] contains a [<]. *)
Fixpoint has_lt (s : string) : bool :=
  match s with
  | EmptyString => false
  | String c r => Ascii.eqb c "<" || has_lt r
  end.


(** ** Groups of tools, for statements about several of them *)

(** The six get tools, each with the parameter it reads, the start of its
    log line, its handler, the prefix of its cache key, the lifetime of
    its cache entries and its lookup function. *)
Definition get_tools (cat : Catalogue)
  : list (string * string * (Js.JsObj -> M Payload) * string * Z *
          (string -> Outcome Payload)) :=
  [ ("componentName", "Getting React Flow component: ", handleGetComponent cat,
     "react-flow-component-", (30 * 60 * 1000)%Z,
     fun name => Return (getComponentInfo cat name));
    ("hookName", "Getting React Flow hook: ", handleGetHook cat,
     "react-flow-hook-", (30 * 60 * 1000)%Z, fun name => Return (getHookInfo cat name));
    ("typeName", "Getting React Flow type: ", handleGetType cat,
     "react-flow-type-", (30 * 60 * 1000)%Z, getTypeInfo cat);
    ("utilityName", "Getting React Flow utility: ", handleGetUtility cat,
     "react-flow-utility-", (30 * 60 * 1000)%Z,
     fun name => Return (getUtilityInfo cat name));
    ("exampleType", "Getting React Flow example: ", handleGetExample cat,
     "react-flow-example-", (30 * 60 * 1000)%Z, getExampleInfo cat);
    ("topic", "Getting React Flow docs: ", handleGetDocs cat,
     "react-flow-docs-", (60 * 60 * 1000)%Z, fun name => Return (getDocsInfo cat name)) ].

Definition info_entry (msg : string) : LogEntry :=
  {| level := LevelInfo; message := msg; detail := None |}.

(** The pieces of a split that are not empty. *)
Definition nonempty_terms (l : list string) : list string :=
  List.filter (fun t => negb (String.eqb t EmptyString)) l.

(** ** resources.ts *)

Module Resources.

Record Resource : Type :=
  { uri : string; name : string; description : string; mimeType : string }.

Definition resources : list Resource :=
  [ {| uri := "resource:get_react_flow_api";
       name := "React Flow API Reference";
       description := "Overview of all React Flow components, hooks, types, and utilities";
       mimeType := "text/plain" |} ].

(** What a resource handler returns. *)
Record ResourceContent : Type := { contentType : string; content : string }.

(** The object [resourceHandlers]: each handler takes no argument and
    returns a constant, which stands for it here. *)
Definition resourceHandlers : list (string * ResourceContent) :=
  [ ("resource:get_react_flow_api",
     {| contentType := "text/plain";
        content :=
          Js.join Js.nl
            [ "# React Flow API Reference";
              EmptyString;
              "## Components";
              EmptyString;
              "### Core Components";
              "- <ReactFlow /> - Main component for rendering interactive node-based graphs";
              "- <ReactFlowProvider /> - Context provider for using hooks outside the main component";
              EmptyString;
              "### Helper Components";
              "- <Background /> - Renders customizable background patterns (dots, lines, cross)";
              "- <Controls /> - Renders zoom and fit-view controls";
              "- <MiniMap /> - Renders a small overview map for navigation";
              "- <Panel /> - Helper component to render content at specific positions";
              "- <ViewportPortal /> - Renders content in the viewport coordinate system";
              "- <ControlButton /> - Custom button for the Controls panel";
              EmptyString;
              "### Node Components";
              "- <Handle /> - Connection point for edges on custom nodes";
              "- <NodeResizer /> - Adds resize handles to custom nodes";
              "- <NodeResizeControl /> - Individual resize control";
              "- <NodeToolbar /> - Toolbar that appears when a node is selected";
              EmptyString;
              "### Edge Components";
              "- <BaseEdge /> - Base component for creating custom edges";
              "- <EdgeLabelRenderer /> - Renders edge labels outside SVG for better styling";
              EmptyString;
              "## Hooks";
              EmptyString;
              "### State Hooks";
              "- useNodes() - Returns the current nodes array";
              "- useEdges() - Returns the current edges array";
              "- useNodesState() - Convenience hook for nodes state management";
              "- useEdgesState() - Convenience hook for edges state management";
              "- useNodesData() - Returns data of specified nodes";
              EmptyString;
              "### Viewport Hooks";
              "- useViewport() - Returns current viewport (x, y, zoom)";
              "- useOnViewportChange() - Register viewport change callbacks";
              EmptyString;
              "### Connection Hooks";
              "- useConnection() - Returns info about current connection being made";
              "- useHandleConnections() - Returns connections for a specific handle";
              "- useNodeConnections() - Returns all connections for the current node";
              EmptyString;
              "### Selection Hooks";
              "- useOnSelectionChange() - Register selection change callback";
              EmptyString;
              "### Store Hooks";
              "- useStore() - Access internal zustand store with selector";
              "- useStoreApi() - Returns store API for reading without subscribing";
              EmptyString;
              "### Utility Hooks";
              "- useReactFlow() - Returns React Flow instance with control methods";
              "- useNodeId() - Returns ID of current node (inside custom nodes)";
              "- useUpdateNodeInternals() - Function to update node handle positions";
              "- useNodesInitialized() - Returns true when all nodes are measured";
              "- useInternalNode() - Returns internal node data with dimensions";
              "- useKeyPress() - Returns whether a key is pressed";
              EmptyString;
              "## Types";
              EmptyString;
              "### Core Types";
              "- Node<T> - Represents a node in the flow";
              "- Edge<T> - Represents an edge connecting nodes";
              "- Connection - Represents a connection between handles";
              "- Viewport - Current view state (x, y, zoom)";
              EmptyString;
              "### Geometry Types";
              "- XYPosition - Simple x/y coordinate pair";
              "- Rect - Rectangle with position and dimensions";
              "- Dimensions - Width and height";
              "- CoordinateExtent - Bounding box";
              EmptyString;
              "### Change Types";
              "- NodeChange - Union type for all node changes";
              "- EdgeChange - Union type for all edge changes";
              EmptyString;
              "### Enum Types";
              "- Position - Handle positions (Top, Bottom, Left, Right)";
              "- MarkerType - Edge markers (Arrow, ArrowClosed)";
              "- ConnectionMode - Connection behavior (Strict, Loose)";
              "- PanelPosition - Panel positions";
              EmptyString;
              "### Callback Types";
              "- OnConnect - Connection created callback";
              "- OnNodesChange - Nodes changed callback";
              "- OnEdgesChange - Edges changed callback";
              EmptyString;
              "## Utility Functions";
              EmptyString;
              "### Edge Utilities";
              "- addEdge() - Add a new edge to an array";
              "- reconnectEdge() - Update an edge with new connection";
              EmptyString;
              "### Node/Edge Change Utilities";
              "- applyNodeChanges() - Apply changes to nodes array";
              "- applyEdgeChanges() - Apply changes to edges array";
              EmptyString;
              "### Path Utilities";
              "- getBezierPath() - Calculate bezier curve path";
              "- getSimpleBezierPath() - Calculate simple bezier path";
              "- getSmoothStepPath() - Calculate smooth step path";
              "- getStraightPath() - Calculate straight line path";
              EmptyString;
              "### Graph Utilities";
              "- getConnectedEdges() - Get edges connected to nodes";
              "- getIncomers() - Get nodes with edges to target";
              "- getOutgoers() - Get nodes target points to";
              EmptyString;
              "### Layout Utilities";
              "- getNodesBounds() - Calculate bounding box for nodes";
              "- getViewportForBounds() - Calculate viewport to fit bounds";
              EmptyString;
              "### Validation Utilities";
              "- isNode() - Type guard for Node";
              "- isEdge() - Type guard for Edge";
              EmptyString;
              "---";
              EmptyString;
              "For detailed information about any item, use the corresponding tool:";
              "- get_react_flow_component - Component details";
              "- get_react_flow_hook - Hook details";
              "- get_react_flow_type - Type details";
              "- get_react_flow_utility - Utility details";
              EmptyString;
              "For code examples:";
              "- get_react_flow_example - Get complete examples";
              "- search_react_flow_examples - Search examples";
              EmptyString;
              "For documentation:";
              "- get_react_flow_docs - Get guides and tutorials";
              EmptyString ] |}) ].

End Resources.

(** ** resource-templates.ts *)

Module Templates.

Record ResourceTemplate : Type :=
  { uriTemplate : string; name : string; description : string; mimeType : string }.

Definition resourceTemplates : list ResourceTemplate :=
  [ {| uriTemplate := "reactflow://component/{componentName}";
       name := "React Flow Component";
       description := "Get detailed information about a specific React Flow component";
       mimeType := "text/plain" |};
    {| uriTemplate := "reactflow://hook/{hookName}";
       name := "React Flow Hook";
       description := "Get detailed information about a specific React Flow hook";
       mimeType := "text/plain" |};
    {| uriTemplate := "reactflow://example/{exampleType}";
       name := "React Flow Example";
       description := "Get a complete code example for a specific use case";
       mimeType := "text/plain" |} ].

(** A line terminator occurs in [s]. *)
Fixpoint has_line_terminator (s : string) : bool :=
  match s with
  | EmptyString => false
  | String c r => is_line_terminator c || has_line_terminator r
  end.

(** The group captured by [/^prefix(.+)$/] in [uri]: what follows the
    prefix, when it is not empty and holds no line terminator. *)
Definition captured (prefix uri : string) : option string :=
  if String.prefix prefix uri then
    match drop (String.length prefix) uri with
    | EmptyString => None
    | rest => if has_line_terminator rest then None else Some rest
    end
  else None.

(** [s.replace(/-/g, ' ')] *)
Fixpoint dashes_to_spaces (s : string) : string :=
  match s with
  | EmptyString => EmptyString
  | String c r => String (if Ascii.eqb c "-" then " "%char else c) (dashes_to_spaces r)
  end.

Definition component_text (componentName : string) : string :=
  "# React Flow Component: " +:+ componentName +:+ Js.nl +:+ Js.nl +:+
  "Use the 'get_react_flow_component' tool with componentName=" +:+ Js.dquote +:+
  componentName +:+ Js.dquote +:+
  " to get detailed information about this component." +:+ Js.nl +:+ Js.nl +:+
  "Quick reference for " +:+ componentName +:+ ":" +:+ Js.nl +:+
  "- Import: import { " +:+ componentName +:+ " } from '@xyflow/react';" +:+ Js.nl +:+
  "- Usage: <" +:+ componentName +:+ " ... />" +:+ Js.nl +:+ Js.nl +:+
  "For full documentation including props, examples, and best practices, use the tool mentioned above.".

Definition hook_text (hookName : string) : string :=
  "# React Flow Hook: " +:+ hookName +:+ Js.nl +:+ Js.nl +:+
  "Use the 'get_react_flow_hook' tool with hookName=" +:+ Js.dquote +:+
  hookName +:+ Js.dquote +:+
  " to get detailed information about this hook." +:+ Js.nl +:+ Js.nl +:+
  "Quick reference for " +:+ hookName +:+ ":" +:+ Js.nl +:+
  "- Import: import { " +:+ hookName +:+ " } from '@xyflow/react';" +:+ Js.nl +:+
  "- Usage: const result = " +:+ hookName +:+ "();" +:+ Js.nl +:+ Js.nl +:+
  "For full documentation including parameters, return values, and examples, use the tool mentioned above.".

Definition example_text (exampleType : string) : string :=
  "# React Flow Example: " +:+ exampleType +:+ Js.nl +:+ Js.nl +:+
  "Use the 'get_react_flow_example' tool with exampleType=" +:+ Js.dquote +:+
  exampleType +:+ Js.dquote +:+
  " to get the complete code for this example." +:+ Js.nl +:+ Js.nl +:+
  "This example demonstrates: " +:+ dashes_to_spaces exampleType +:+ Js.nl +:+ Js.nl +:+
  "For the full implementation with code, styling, and explanations, use the tool mentioned above.".

Definition plain (text : string) : Resources.ResourceContent :=
  {| Resources.contentType := "text/plain"; Resources.content := text |}.

(** [getResourceTemplate(uri)]: the content its returned function yields,
    or [None] for [null]. *)
Definition getResourceTemplate (uri : string) : option Resources.ResourceContent :=
  match captured "reactflow://component/" uri with
  | Some componentName => Some (plain (component_text componentName))
  | None =>
      match captured "reactflow://hook/" uri with
      | Some hookName => Some (plain (hook_text hookName))
      | None =>
          match captured "reactflow://example/" uri with
          | Some exampleType => Some (plain (example_text exampleType))
          | None => None
          end
      end
  end.

End Templates.

(** ** prompts.ts *)

Module Prompts.

Record PromptArgument : Type :=
  { arg_name : string; arg_description : string; required : bool }.

Record Prompt : Type :=
  { name : string; description : string; arguments : list PromptArgument }.

(** The object [prompts], by key. *)
Definition prompts : list (string * Prompt) :=
  [ ("component_usage",
     {| name := "component_usage";
        description := "Get usage examples for a specific React Flow component or hook";
        arguments :=
          [ {| arg_name := "name";
               arg_description := "Name of the component or hook (e.g., 'ReactFlow', 'useReactFlow', 'Handle')";
               required := true |} ] |});
    ("flow_tutorial",
     {| name := "flow_tutorial";
        description := "Get a step-by-step tutorial for common React Flow tasks";
        arguments :=
          [ {| arg_name := "task";
               arg_description := "Task type (e.g., 'custom-node', 'drag-drop', 'layout', 'save-restore')";
               required := true |} ] |});
    ("best_practices",
     {| name := "best_practices";
        description := "Get best practices and tips for React Flow development";
        arguments :=
          [ {| arg_name := "topic";
               arg_description := "Topic (e.g., 'performance', 'state-management', 'typescript', 'accessibility')";
               required := true |} ] |}) ].

(** The table [tutorials] of [flow_tutorial]. *)
Definition tutorials : list (string * string) :=
  [ ("basic-setup",
     Js.join Js.nl
       [ "Create a step-by-step tutorial for setting up a basic React Flow application:";
         "1. Installing dependencies";
         "2. Creating the component structure";
         "3. Defining nodes and edges";
         "4. Adding interactivity (drag, connect, select)";
         "5. Styling the flow";
         EmptyString;
         "Include complete code examples." ]);
    ("custom-node",
     Js.join Js.nl
       [ "Create a step-by-step tutorial for creating custom nodes in React Flow:";
         "1. Creating the custom node component";
         "2. Using Handle components for connections";
         "3. Registering custom node types";
         "4. Styling custom nodes";
         "5. Adding interactivity to custom nodes";
         EmptyString;
         "Include complete code examples with TypeScript types." ]);
    ("drag-drop",
     Js.join Js.nl
       [ "Create a step-by-step tutorial for implementing drag-and-drop to add nodes:";
         "1. Setting up the sidebar with draggable items";
         "2. Handling drag events";
         "3. Converting screen coordinates to flow coordinates";
         "4. Creating nodes on drop";
         "5. Best practices for drag-and-drop UX";
         EmptyString;
         "Include complete code examples." ]);
    ("layout",
     Js.join Js.nl
       [ "Create a step-by-step tutorial for implementing automatic layout in React Flow:";
         "1. Understanding layout requirements";
         "2. Using elkjs or dagre for layout";
         "3. Calculating node positions";
         "4. Applying layout on demand";
         "5. Animating layout changes";
         EmptyString;
         "Include complete code examples." ]);
    ("save-restore",
     Js.join Js.nl
       [ "Create a step-by-step tutorial for saving and restoring flow state:";
         "1. Understanding the flow state structure";
         "2. Converting to/from JSON";
         "3. Saving to localStorage";
         "4. Saving to a backend API";
         "5. Restoring state including viewport";
         EmptyString;
         "Include complete code examples." ]);
    ("validation",
     Js.join Js.nl
       [ "Create a step-by-step tutorial for implementing connection validation:";
         "1. Understanding connection flow";
         "2. Using isValidConnection prop";
         "3. Validating by node types";
         "4. Preventing cycles";
         "5. Custom validation logic";
         EmptyString;
         "Include complete code examples." ]) ].

(** The table [practices] of [best_practices]. *)
Definition practices : list (string * string) :=
  [ ("performance",
     Js.join Js.nl
       [ "Explain React Flow performance best practices:";
         "1. Memoizing components and nodeTypes/edgeTypes";
         "2. Using selectors efficiently with useStore";
         "3. Handling large graphs (1000+ nodes)";
         "4. Optimizing custom nodes";
         "5. Profiling and debugging performance issues";
         EmptyString;
         "Include code examples for each practice." ]);
    ("state-management",
     Js.join Js.nl
       [ "Explain state management best practices for React Flow:";
         "1. Controlled vs uncontrolled mode";
         "2. Using useNodesState and useEdgesState";
         "3. Integrating with Zustand";
         "4. Integrating with Redux";
         "5. Managing complex state updates";
         EmptyString;
         "Include code examples for each approach." ]);
    ("typescript",
     Js.join Js.nl
       [ "Explain TypeScript best practices for React Flow:";
         "1. Typing node and edge data";
         "2. Creating typed custom nodes";
         "3. Using generic types effectively";
         "4. Typing callbacks and handlers";
         "5. Common TypeScript patterns";
         EmptyString;
         "Include code examples with proper types." ]);
    ("accessibility",
     Js.join Js.nl
       [ "Explain accessibility best practices for React Flow:";
         "1. Keyboard navigation";
         "2. ARIA labels and roles";
         "3. Focus management";
         "4. Screen reader support";
         "5. Reduced motion support";
         EmptyString;
         "Include code examples for accessible implementations." ]);
    ("general",
     Js.join Js.nl
       [ "Explain general best practices for React Flow development:";
         "1. Project structure and organization";
         "2. Error handling";
         "3. Testing strategies";
         "4. Code organization for custom nodes/edges";
         "5. Common pitfalls to avoid";
         EmptyString;
         "Include practical tips and examples." ]) ].

(** The text of [component_usage] before and after the name. *)
Definition usage_before : string := "Show me how to use the ".

Definition usage_after : string :=
  Js.join Js.nl
    [ " component/hook in React Flow. Include:";
      "1. Import statement";
      "2. Basic usage example";
      "3. Common props/parameters";
      "4. A practical example with code" ].

(** The [text] of a prompt message: a string, or what the code puts there
    when a table lookup finds an inherited member or nothing. *)
Inductive PromptText : Type :=
  | Text (s : string)
  | Member (m : Js.ProtoMember)
  | NoText.

Record Content : Type := { type : string; text : PromptText }.

Record Message : Type := { role : string; content : Content }.

Record Result : Type := { messages : list Message }.

Definition user_message (t : PromptText) : Result :=
  {| messages := [ {| role := "user"; content := {| type := "text"; text := t |} |} ] |}.

(** [args?.key || fallback] *)
Definition argument_or (args : Js.JsValue) (key fallback : string) : Js.JsValue :=
  let v := Js.obj_get (properties args) key in
  if Js.truthy v then v else Js.JsString fallback.

(** [table[key]] as a message text. *)
Definition entry_text (table : list (string * string)) (key : string) : PromptText :=
  match Js.js_get table key with
  | Js.OwnProp t => Text t
  | Js.Inherited m => Member m
  | Js.Undefined => NoText
  end.

(** [table[key] || table[fallback]] *)
Definition entry_or (table : list (string * string)) (key fallback : string) : PromptText :=
  match Js.js_get table key with
  | Js.OwnProp t =>
      if String.eqb t EmptyString then entry_text table fallback else Text t
  | Js.Inherited m => Member m
  | Js.Undefined => entry_text table fallback
  end.

(** The three handlers.  Each converts its argument to a string, in a
    template literal or as the key of its table, and throws where the
    argument has no string. *)
Definition component_usage (args : Js.JsValue) : Outcome Result :=
  let name := argument_or args "name" "ReactFlow" in
  match as_string name with
  | Return shown =>
      Return (user_message (Text (usage_before +:+ shown +:+ usage_after)))
  | Throw e => Throw e
  end.

Definition flow_tutorial (args : Js.JsValue) : Outcome Result :=
  let task := argument_or args "task" "basic-setup" in
  match as_string task with
  | Return key => Return (user_message (entry_or tutorials key "basic-setup"))
  | Throw e => Throw e
  end.

Definition best_practices (args : Js.JsValue) : Outcome Result :=
  let topic := argument_or args "topic" "general" in
  match as_string topic with
  | Return key => Return (user_message (entry_or practices key "general"))
  | Throw e => Throw e
  end.

Definition promptHandlers : list (string * (Js.JsValue -> Outcome Result)) :=
  [ ("component_usage", component_usage);
    ("flow_tutorial", flow_tutorial);
    ("best_practices", best_practices) ].

End Prompts.

(** ** tools/index.ts: the tool definitions *)

Module ToolList.

(** A tool as advertised: its input schema is an object schema given by
    its properties (name, type and description) and, where the source has
    the key, the list of required properties. *)
Record Tool : Type :=
  { name : string;
    description : string;
    properties : list (string * (string * string));
    required : option (list string) }.

Definition tools : list Tool :=
  [ {| name := "get_react_flow_component";
       description := "Get detailed information about a specific React Flow component";
       properties := [("componentName", ("string",
              ("Name of the React Flow component (e.g., " +:+ Js.dquote +:+ "ReactFlow" +:+ Js.dquote +:+ ", " +:+ Js.dquote +:+ "Handle" +:+ Js.dquote +:+ ", " +:+ Js.dquote +:+ "Background" +:+ Js.dquote +:+ ")")))];
       required := Some ["componentName"] |};
    {| name := "list_react_flow_components";
       description := "List all available React Flow components";
       properties := [("category", ("string",
              "Filter by category (core, helper, node, edge)"))];
       required := None |};
    {| name := "get_react_flow_hook";
       description := "Get detailed information about a specific React Flow hook";
       properties := [("hookName", ("string",
              ("Name of the React Flow hook (e.g., " +:+ Js.dquote +:+ "useReactFlow" +:+ Js.dquote +:+ ", " +:+ Js.dquote +:+ "useNodes" +:+ Js.dquote +:+ ", " +:+ Js.dquote +:+ "useEdges" +:+ Js.dquote +:+ ")")))];
       required := Some ["hookName"] |};
    {| name := "list_react_flow_hooks";
       description := "List all available React Flow hooks";
       properties := [("category", ("string",
              "Filter by category (state, viewport, connection, selection, store, utility)"))];
       required := None |};
    {| name := "get_react_flow_type";
       description := "Get detailed information about a specific React Flow type";
       properties := [("typeName", ("string",
              ("Name of the React Flow type (e.g., " +:+ Js.dquote +:+ "Node" +:+ Js.dquote +:+ ", " +:+ Js.dquote +:+ "Edge" +:+ Js.dquote +:+ ", " +:+ Js.dquote +:+ "Viewport" +:+ Js.dquote +:+ ")")))];
       required := Some ["typeName"] |};
    {| name := "list_react_flow_types";
       description := "List all available React Flow types";
       properties := [("category", ("string",
              "Filter by category (core, geometry, change, enum, configuration, callback)"))];
       required := None |};
    {| name := "get_react_flow_utility";
       description := "Get detailed information about a specific React Flow utility function";
       properties := [("utilityName", ("string",
              ("Name of the utility function (e.g., " +:+ Js.dquote +:+ "addEdge" +:+ Js.dquote +:+ ", " +:+ Js.dquote +:+ "applyNodeChanges" +:+ Js.dquote +:+ ", " +:+ Js.dquote +:+ "getBezierPath" +:+ Js.dquote +:+ ")")))];
       required := Some ["utilityName"] |};
    {| name := "list_react_flow_utilities";
       description := "List all available React Flow utility functions";
       properties := [];
       required := None |};
    {| name := "get_react_flow_example";
       description := "Get a complete code example for a specific React Flow use case";
       properties := [("exampleType", ("string",
              ("Type of example (e.g., " +:+ Js.dquote +:+ "basic-flow" +:+ Js.dquote +:+ ", " +:+ Js.dquote +:+ "custom-node" +:+ Js.dquote +:+ ", " +:+ Js.dquote +:+ "drag-and-drop" +:+ Js.dquote +:+ ")")))];
       required := Some ["exampleType"] |};
    {| name := "search_react_flow_examples";
       description := "Search React Flow examples by keyword";
       properties := [("query", ("string",
              ("Search query (e.g., " +:+ Js.dquote +:+ "drag" +:+ Js.dquote +:+ ", " +:+ Js.dquote +:+ "custom" +:+ Js.dquote +:+ ", " +:+ Js.dquote +:+ "layout" +:+ Js.dquote +:+ ")")))];
       required := Some ["query"] |};
    {| name := "get_react_flow_docs";
       description := "Get documentation for React Flow concepts and features";
       properties := [("topic", ("string",
              ("Documentation topic (e.g., " +:+ Js.dquote +:+ "getting-started" +:+ Js.dquote +:+ ", " +:+ Js.dquote +:+ "concepts" +:+ Js.dquote +:+ ", " +:+ Js.dquote +:+ "performance" +:+ Js.dquote +:+ ")")))];
       required := Some ["topic"] |} ].

End ToolList.


(** ** handler.ts: the other request handlers *)

(** [callee(arg)] for an inherited member and any argument: as
    [call_inherited], where [Object(undefined)] and [Object(null)] are a
    new empty object and the error for [__proto__] names the variable the
    call is made on. *)
Definition call_inherited_any (callee : string) (m : Js.ProtoMember) (arg : Js.JsValue)
  : Outcome Js.JsValue :=
  match m, arg with
  | Js.P_constructor, (Js.JsUndefined | Js.JsNull) => Return (Js.JsObject [])
  | Js.P_proto, _ => Throw (TypeError (callee +:+ " is not a function"))
  | _, _ => call_inherited m arg
  end.

(** The receiver check of [uri.match(...)]. *)
Definition match_receiver (v : Js.JsValue) : Outcome string :=
  match v with
  | Js.JsString s => Return s
  | Js.JsUndefined => Throw (TypeError "Cannot read properties of undefined (reading 'match')")
  | Js.JsNull => Throw (TypeError "Cannot read properties of null (reading 'match')")
  | _ => Throw (TypeError "uri.match is not a function")
  end.

Module Read.

Record Entry : Type := { uri : Js.JsValue; text : option string }.

(** The result of [read_resource]; a field is [None] where the code
    stores [undefined]. *)
Record Result : Type := { contentType : option string; contents : list Entry }.

End Read.

Definition resource_result (uri : Js.JsValue) (r : Resources.ResourceContent)
  : Read.Result :=
  {| Read.contentType := Some (Resources.contentType r);
     Read.contents := [ {| Read.uri := uri; Read.text := Some (Resources.content r) |} ] |}.

(** The closure of the ReadResourceRequestSchema handler. *)
Definition read_resource_handler (validatedParams : Js.JsObj) : M Read.Result :=
  let uri := Js.obj_get validatedParams "uri" in
  let! key := lift (as_string uri) in
  match Js.js_get Resources.resourceHandlers key with
  | Js.OwnProp r => ret (resource_result uri r)
  | Js.Inherited m =>
      (* the value the inherited function returns has neither field *)
      let! result := lift (call_inherited_any "resourceHandler" m Js.JsUndefined) in
      ret {| Read.contentType := None;
             Read.contents := [ {| Read.uri := uri; Read.text := None |} ] |}
  | Js.Undefined =>
      let! s := lift (match_receiver uri) in
      match Templates.getResourceTemplate s with
      | Some r => ret (resource_result uri r)
      | None => throw (Error ("Resource not found: " +:+ key))
      end
  end.

(** What [get_prompt] returns: the messages of a prompt handler, the
    value of an inherited function, or the wrapper object [Object] makes
    of a primitive. *)
Inductive PromptOutcome : Type :=
  | PromptMessages (r : Prompts.Result)
  | PromptValue (v : Js.JsValue)
  | PromptBoxed (v : Js.JsValue).

(** The closure of the GetPromptRequestSchema handler. *)
Definition get_prompt_handler (validatedParams : Js.JsObj) : M PromptOutcome :=
  let name := Js.obj_get validatedParams "name" in
  let args := Js.obj_get validatedParams "arguments" in
  let! key := lift (as_string name) in
  match Js.js_get Prompts.promptHandlers key with
  | Js.Undefined => throw (Error ("Prompt not found: " +:+ key))
  | Js.OwnProp promptHandler =>
      let! result := lift (promptHandler args) in
      ret (PromptMessages result)
  | Js.Inherited m =>
      let! result := lift (call_inherited_any "promptHandler" m args) in
      match m, args with
      | Js.P_constructor, (Js.JsBoolean _ | Js.JsNumber _ _ | Js.JsString _) =>
          ret (PromptBoxed result)
      | _, _ => ret (PromptValue result)
      end
  end.

Definition list_resources (params : option Js.JsObj) : M (list Resources.Resource) :=
  handleRequest "list_resources" params (fun _ => ret Resources.resources).

Definition list_resource_templates (params : option Js.JsObj)
  : M (list Templates.ResourceTemplate) :=
  handleRequest "list_resource_templates" params (fun _ => ret Templates.resourceTemplates).

Definition list_tools (params : option Js.JsObj) : M (list ToolList.Tool) :=
  handleRequest "list_tools" params (fun _ => ret ToolList.tools).

Definition read_resource (params : option Js.JsObj) : M Read.Result :=
  handleRequest "read_resource" params read_resource_handler.

(** [Object.values(prompts)] *)
Definition list_prompts (params : option Js.JsObj) : M (list Prompts.Prompt) :=
  handleRequest "list_prompts" params (fun _ => ret (map snd Prompts.prompts)).

Definition get_prompt (params : option Js.JsObj) : M PromptOutcome :=
  handleRequest "get_prompt" params get_prompt_handler.


(** ** index.ts: the command line *)

Module Cli.

(** What [parseArgs] does to the process: it prints and exits, or it
    returns and the server starts. *)
Inductive Startup : Type :=
  | Exit (code : Z) (printed : list string)
  | Proceed.

(** [args.includes(flag)] *)
Definition has_flag (args : list string) (flag : string) : bool :=
  existsb (String.eqb flag) args.

Definition help_text : string :=
  Js.join Js.nl
    [ EmptyString;
      "React Flow MCP Server";
      EmptyString;
      "Usage:";
      "  npx react-flow-mcp-server [options]";
      EmptyString;
      "Options:";
      "  --help, -h     Show this help message";
      "  --version, -v  Show version information";
      EmptyString;
      "Environment Variables:";
      "  LOG_LEVEL      Log level (debug, info, warn, error) - default: info";
      EmptyString;
      "Tools Available:";
      "  - get_react_flow_component    Get info about a React Flow component";
      "  - list_react_flow_components  List all React Flow components";
      "  - get_react_flow_hook         Get info about a React Flow hook";
      "  - list_react_flow_hooks       List all React Flow hooks";
      "  - get_react_flow_type         Get info about a React Flow type";
      "  - list_react_flow_types       List all React Flow types";
      "  - get_react_flow_utility      Get info about a utility function";
      "  - list_react_flow_utilities   List all utility functions";
      "  - get_react_flow_example      Get a complete code example";
      "  - search_react_flow_examples  Search examples by keyword";
      "  - get_react_flow_docs         Get documentation for a topic";
      EmptyString;
      "For more information, visit: https://reactflow.dev";
      EmptyString ].

(** The line the version flag prints.  [package] is the [version] of the
    parsed package.json, or [None] when reading or parsing it failed; then,
    and when the version has no string, the [catch] prints the fixed
    version. *)
Definition version_line (package : option Js.JsValue) : string :=
  match package with
  | Some version =>
      match Js.to_string version with
      | Some shown => "react-flow-mcp-server v" +:+ shown
      | None => "react-flow-mcp-server v1.0.0"
      end
  | None => "react-flow-mcp-server v1.0.0"
  end.

(** [parseArgs()] on [process.argv.slice(2)]. *)
Definition parseArgs (package : option Js.JsValue) (args : list string) : Startup :=
  if has_flag args "--help" || has_flag args "-h" then Exit 0 [help_text]
  else if has_flag args "--version" || has_flag args "-v"
       then Exit 0 [version_line package]
       else Proceed.

End Cli.

(** ** The words of the specification, for comparison with the code *)

(** A present value of the wrong primitive type for a string field. *)
Definition wrong_primitive_type (v : Js.JsValue) : Prop :=
  v <> Js.JsUndefined /\ forall s, v <> Js.JsString s.

(** A string that is empty or longer than 1000 characters. *)
Definition empty_or_too_long (v : Js.JsValue) : Prop :=
  exists s, v = Js.JsString s /\ (String.length s = 0 \/ 1000 < String.length s).

(** What the specification rejects in one field: a required field that
    is missing, a required string that is empty or too long, or a field of
    the wrong primitive type. *)
Definition field_violation (f : FieldSchema) (v : Js.JsValue) : Prop :=
  match f with
  | stringSchema => v = Js.JsUndefined \/ empty_or_too_long v \/ wrong_primitive_type v
  | optionalStringSchema => wrong_primitive_type v
  | anyOptional => False
  end.

Definition violation (shape : list (string * FieldSchema)) (data : Js.JsObj) : Prop :=
  exists key f, In (key, f) shape /\ field_violation f (Js.obj_get data key).

(** [t] occurs in [s] as a literal substring. *)
Definition substring_of (t s : string) : Prop :=
  exists before after, s = before +:+ t +:+ after.

(** *** Example search, in the words of the specification *)













(** ** Observations on computations *)

(** The entry the dispatcher writes for an error. *)
Definition error_entry (method : string) (e : JsError) : LogEntry :=
  {| level := LevelError; message := "Error in " +:+ method; detail := Some e |}.

Definition is_error_entry (e : LogEntry) : bool :=
  match level e with
  | LevelError => true
  | _ => false
  end.

Definition error_entries (l : list LogEntry) : list LogEntry :=
  List.filter is_error_entry l.

(** A computation that writes no error-level entry. *)
Definition error_silent {A : Type} (m : M A) : Prop :=
  forall w, error_entries (log (snd (m w))) = error_entries (log w).

(** A computation that leaves the breaker, the clock and the history as
    they are: it does not go through [execute]. *)
Definition quiet {A : Type} (m : M A) : Prop :=
  forall w,
    breaker (snd (m w)) = breaker w /\
    now (snd (m w)) = now w /\
    trace (snd (m w)) = trace w.

(** The events a computation appends to the history satisfy [S]. *)
Definition emits {A : Type} (m : M A) (S : list Event -> Prop) : Prop :=
  forall w, exists evs, trace (snd (m w)) = trace w ++ evs /\ S evs.

(** A computation that fails whatever the world is. *)
Definition fails {A : Type} (m : M A) : Prop :=
  forall w, exists e, fst (m w) = Throw e.

(** A sequence of invocations through the breaker, each at its own time. *)
Fixpoint invoke_all {A : Type} (runs : list (Z * M A)) (w : World) : World :=
  match runs with
  | [] => w
  | (t, work) :: rest => invoke_all rest (snd (execute work (set_now t w)))
  end.

(** No tool handler was called in this stretch of the history. *)
Definition tool_free (evs : list Event) : Prop :=
  forall n, ~ In (ToolCall n) evs.

(** ** Observations on requests *)

(** The events of one request whose handler ran without entering the
    breaker again. *)
Definition request_events (method : string) : list Event :=
  [ExecuteEnter; HandlerCall method; ExecuteExit].

(** The world after such a request when the handler itself changed
    nothing: the breaker is [b] and the history has grown by the events of
    the request. *)
Definition settled (method : string) (b : CircuitBreaker.CircuitBreakerState) (w : World)
  : World :=
  {| now := now w; breaker := b; cache := cache w; log := log w;
     trace := trace w ++ request_events method |}.

(** The world after a request the breaker rejected. *)
Definition rejected (method : string) (w : World) : World :=
  add_log (error_entry method CircuitOpenError)
    (add_event ExecuteExit (add_event ExecuteEnter w)).

(** A computation that neither reads nor changes the world. *)
Definition stateless {A : Type} (m : M A) : Prop :=
  forall w w', m w' = (fst (m w), w').

(** The keys of a rule that hold a required string. *)
Definition required_keys (shape : list (string * FieldSchema)) : list string :=
  map fst (List.filter (fun e => match snd e with stringSchema => true | _ => false end) shape).

(** The [required] list of an advertised tool, empty when it has none. *)
Definition required_list (t : ToolList.Tool) : list string :=
  match ToolList.required t with
  | Some l => l
  | None => []
  end.


(** The item names a list tool prints, in order. *)
Definition listed (l : Listing) : list string :=
  List.concat (map (fun e => map fst (snd e)) l).

(** The normal forms under which the get tools look a name up. *)
Definition component_key (name : string) : string :=
  Js.remove_chars component_noise (Js.toLowerCase name).

Definition call_key (name : string) : string :=
  Js.remove_chars parentheses (Js.toLowerCase name).

Definition type_key (name : string) : string :=
  Js.remove_chars angle_brackets (Js.toLowerCase name).

Definition dashed_key (name : string) : string :=
  Js.replace_space_runs "-" false (Js.toLowerCase name).

(** Requests served one after the other, each at its own time; the
    answers are dropped. *)
Fixpoint serve_all {A : Type} (requests : list (Z * M A)) (w : World) : World :=
  match requests with
  | [] => w
  | (t, request) :: rest => serve_all rest (snd (request (set_now t w)))
  end.

(** The parameters of a read request that passes validation and whose
    URI neither the static table nor a template serves. *)
Definition unserved (params : option Js.JsObj) : Prop :=
  exists uri,
    Js.obj_get (or_empty params) "uri" = Js.JsString uri /\
    1 <= String.length uri <= 1000 /\
    Js.js_get Resources.resourceHandlers uri = Js.Undefined /\
    Templates.getResourceTemplate uri = None.

Definition read_at (r : Z * option Js.JsObj) : Z * M Read.Result :=
  (fst r, read_resource (snd r)).

(** * Properties *)

(** ** Cache *)

(** C5. Reading a key right after [set(k, v, ttl)] with a positive [ttl]
    returns [v]; once the clock has reached [now + ttl] the read returns
    absent; a key that has no entry reads absent; and the read of the
    process-wide cache leaves the world as it was. *)
Theorem cache_set_get_ttl (V : Type) (store : gmap string (Cache.CacheEntry V))
    (k : string) (v : V) (t ttl : Z) :
  (0 < ttl)%Z ->
  Cache.get (Cache.set store t k v ttl) t k = Some v /\
  (forall later, (t + ttl <= later)%Z ->
     Cache.get (Cache.set store t k v ttl) later k = None) /\
  (forall (store0 : gmap string (Cache.CacheEntry V)) (t0 : Z) (k0 : string),
     store0 !! k0 = None -> Cache.get store0 t0 k0 = None) /\
  (forall (w0 : World) (k0 : string),
     cache w0 !! k0 = None -> cache_get k0 w0 = (Return None, w0)).
Proof.
  intros Httl. unfold cache_get, Cache.get, Cache.set. repeat split.
  - rewrite lookup_insert_eq. cbn.
    destruct (Z.ltb_spec t (t + ttl)); [reflexivity | lia].
  - intros later Hlater. rewrite lookup_insert_eq. cbn.
    destruct (Z.ltb_spec later (t + ttl)); [lia | reflexivity].
  - intros store0 t0 k0 Hnone. rewrite Hnone. reflexivity.
  - intros w0 k0 Hnone. rewrite Hnone. reflexivity.
Qed.

Lemma cache_set_get_ttl_witness :
  let store : gmap string (Cache.CacheEntry nat) := Cache.set ∅ 0 "k" 7 1800000 in
  Cache.get store 0 "k" = Some 7 /\
  Cache.get store 1800000 "k" = None /\
  Cache.get store 0 "other" = None /\
  cache_get "k" (initial_world 5 60000 0) = (Return None, initial_world 5 60000 0).
Proof.
  intros store.
  destruct (cache_set_get_ttl nat ∅ "k" 7 0 1800000 ltac:(lia))
    as (Hget & Hexp & Hmiss & Hworld).
  split; [exact Hget |].
  split; [apply Hexp; lia |].
  split; [apply Hmiss; reflexivity |].
  apply Hworld. reflexivity.
Defined.

(** ** Validation *)

Lemma assoc_js_get {A : Type} (table : list (string * A)) (key : string) (a : A) :
  Js.assoc table key = Some a -> Js.js_get table key = Js.OwnProp a.
Proof. intros H. unfold Js.js_get. rewrite H. reflexivity. Qed.





Lemma check_field_passes (f : FieldSchema) (v : Js.JsValue) :
  check_field f v = None <-> ~ field_violation f v.
Proof.
  unfold field_violation, empty_or_too_long, wrong_primitive_type.
  destruct f; cbv beta iota delta [check_field not_a_string].
  - destruct v;
      try (split; [discriminate | intros H; exfalso; apply H; auto]);
      try (split; [discriminate |
                   intros H; exfalso; apply H; right; right;
                   split; [discriminate | intros ?; discriminate]]).
    destruct (Nat.ltb_spec (String.length s) 1) as [Hlt | Hge].
    + split; [discriminate |].
      intros H; exfalso; apply H. right; left. exists s. split; [reflexivity | lia].
    + destruct (Nat.ltb_spec 1000 (String.length s)) as [Hbig | Hok].
      * split; [discriminate |].
        intros H; exfalso; apply H. right; left. exists s. split; [reflexivity | lia].
      * split; [| reflexivity]. intros _ [Hu | [(s' & Hs & Hlen) | (_ & Hns)]].
        -- discriminate.
        -- injection Hs as <-. lia.
        -- apply (Hns s). reflexivity.
  - destruct v;
      try (split; [discriminate |
                   intros H; exfalso; apply H;
                   split; [discriminate | intros ?; discriminate]]).
    + split; [| reflexivity]. intros _ (Hu & _). apply Hu. reflexivity.
    + split; [| reflexivity]. intros _ (_ & Hns). apply (Hns s). reflexivity.
  - split; [intros _ [] | reflexivity].
Qed.

Lemma issues_in (shape : list (string * FieldSchema)) (data : Js.JsObj)
    (path msg : string) :
  In (path, msg) (issues shape data) ->
  exists f, In (path, f) shape /\ check_field f (Js.obj_get data path) = Some msg.
Proof.
  induction shape as [| [key f] rest IH]; cbn; [intros [] |].
  destruct (check_field f (Js.obj_get data key)) eqn:Hc.
  - intros [Heq | Hin].
    + injection Heq as <- <-. exists f. split; [left; reflexivity | exact Hc].
    + destruct (IH Hin) as (g & Hg & Hcg). exists g. split; [right; exact Hg | exact Hcg].
  - intros Hin. destruct (IH Hin) as (g & Hg & Hcg).
    exists g. split; [right; exact Hg | exact Hcg].
Qed.

Lemma check_field_fails (f : FieldSchema) (v : Js.JsValue) (msg : string) :
  check_field f v = Some msg -> field_violation f v.
Proof.
  unfold field_violation, empty_or_too_long, wrong_primitive_type.
  destruct f; cbv beta iota delta [check_field not_a_string].
  - destruct v; intros H;
      try (left; reflexivity);
      try (right; right; split; [discriminate | intros ?; discriminate]).
    right; left. exists s. split; [reflexivity |].
    destruct (Nat.ltb_spec (String.length s) 1); [lia |].
    destruct (Nat.ltb_spec 1000 (String.length s)); [lia | discriminate].
  - destruct v; intros H; try discriminate;
      split; try discriminate; intros ?; discriminate.
  - discriminate.
Qed.

Lemma issues_nil (shape : list (string * FieldSchema)) (data : Js.JsObj) :
  issues shape data = [] <-> ~ violation shape data.
Proof.
  unfold violation. induction shape as [| [key f] rest IH]; cbn.
  - split; [intros _ (k & g & [] & _) | reflexivity].
  - destruct (check_field f (Js.obj_get data key)) eqn:Hc.
    + split; [discriminate |]. intros H. exfalso. apply H.
      exists key, f. split; [left; reflexivity |].
      apply (check_field_fails _ _ _ Hc).
    + rewrite IH. split.
      * intros Hrest (k & g & [Heq | Hin] & Hv).
        -- injection Heq as <- <-. apply check_field_passes in Hc. exact (Hc Hv).
        -- apply Hrest. exists k, g. split; assumption.
      * intros Hall (k & g & Hin & Hv). apply Hall. exists k, g.
        split; [right; exact Hin | exact Hv].
Qed.

(** C7. For a method that has a rule, the validator throws exactly when
    some field violates the rule (a required field missing, a required
    string empty or longer than 1000 characters, a field of the wrong
    primitive type); the message names the method and qualifies every
    issue with the field it is about; otherwise the normalized parameters
    are returned.  Nothing is logged either way. *)
Theorem validation_rejects_exactly (method : string) (shape : list (string * FieldSchema))
    (params : option Js.JsObj) (w : World) :
  Js.assoc methodSchemas method = Some shape ->
  let data := or_empty params in
  (violation shape data <->
   exists e, validateAndSanitizeParams method params w = (Throw e, w)) /\
  (violation shape data ->
   exists errs,
     errs <> [] /\
     validateAndSanitizeParams method params w =
       (Throw (Error ("Validation failed for " +:+ method +:+ ": " +:+
                      Js.join ", " (map (fun e => fst e +:+ ": " +:+ snd e) errs))), w) /\
     forall path msg, In (path, msg) errs ->
       exists f, In (path, f) shape /\ field_violation f (Js.obj_get data path)) /\
  (~ violation shape data ->
   validateAndSanitizeParams method params w = (Return (parsed shape data), w)).
Proof.
  intros Hrule data. unfold validateAndSanitizeParams.
  rewrite (assoc_js_get _ _ _ Hrule). fold data.
  destruct (issues shape data) as [| err errs] eqn:Hissues.
  - assert (Hok : ~ violation shape data) by (apply issues_nil; exact Hissues).
    split; [| split].
    + split; [intros Hv; contradiction | intros (e & He); discriminate].
    + intros Hv; contradiction.
    + intros _. reflexivity.
  - assert (Hbad : violation shape data).
    { destruct err as [path msg].
      destruct (issues_in shape data path msg) as (f & Hin & Hc).
      { rewrite Hissues. left. reflexivity. }
      exists path, f. split; [exact Hin | exact (check_field_fails _ _ _ Hc)]. }
    split; [| split].
    + split; [intros _; eexists; reflexivity | intros _; exact Hbad].
    + intros _. exists (err :: errs). split; [discriminate |]. split; [reflexivity |].
      intros path msg Hin. rewrite <- Hissues in Hin.
      destruct (issues_in shape data path msg Hin) as (f & Hf & Hc).
      exists f. split; [exact Hf | exact (check_field_fails _ _ _ Hc)].
    + intros Hno. contradiction.
Qed.

Lemma validation_rejects_exactly_witness :
  let w := initial_world 5 60000 0 in
  validateAndSanitizeParams "get_react_flow_component"
    (Some [("componentName", Js.JsString "Handle"); ("extra", Js.JsNumber 1 eq_refl)]) w =
  (Return [("componentName", Js.JsString "Handle")], w) /\
  exists e,
    validateAndSanitizeParams "get_react_flow_component"
      (Some [("componentName", Js.JsString EmptyString)]) w = (Throw e, w).
Proof.
  intros w. split.
  - destruct (validation_rejects_exactly "get_react_flow_component"
                [("componentName", stringSchema)]
                (Some [("componentName", Js.JsString "Handle"); ("extra", Js.JsNumber 1 eq_refl)])
                w eq_refl) as (_ & _ & Hok).
    apply Hok. apply issues_nil. reflexivity.
  - destruct (validation_rejects_exactly "get_react_flow_component"
                [("componentName", stringSchema)]
                (Some [("componentName", Js.JsString EmptyString)])
                w eq_refl) as (Hiff & _ & _).
    apply Hiff. exists "componentName", stringSchema.
    split; [left; reflexivity |].
    right; left. exists EmptyString. split; [reflexivity | left; reflexivity].
Defined.

(** ** Tool calls through the pipeline *)

(** C1. A tool call of [get_react_flow_component] with an empty
    [componentName] is not rejected: the dispatcher validates the request
    against the rule of [call_tool], whose [arguments] may be anything, the
    handler runs (its log line is written) and the caller receives the
    not-found text as a successful payload.  The rule of the tool itself,
    were it consulted, would reject the same parameters.  With
    [componentName = "Handle"] the call succeeds and the handler runs. *)
Theorem empty_component_name_reaches_handler (cat : Catalogue) :
  let w := initial_world 5 60000 0 in
  let empty := [("componentName", Js.JsString EmptyString)] in
  let '(r, w') := call_tool cat (tool_request "get_react_flow_component" empty) w in
  r = Return (ResultPayload
                (text_payload
                   (Some (not_found_text "Component" "components" EmptyString
                            (map snd components))))) /\
  log w' = [ {| level := LevelInfo; message := "Getting React Flow component: ";
                detail := None |} ] /\
  In (ToolCall "get_react_flow_component") (trace w') /\
  validateAndSanitizeParams "get_react_flow_component" (Some empty) w =
    (Throw (Error ("Validation failed for get_react_flow_component: " +:+
                   "componentName: String must contain at least 1 character(s)")), w) /\
  let '(r2, w2) :=
    call_tool cat
      (tool_request "get_react_flow_component" [("componentName", Js.JsString "Handle")]) w in
  r2 = Return (ResultPayload
                 (text_payload
                    (Some (render_component (Some "<Handle />")
                             (component_fields cat "handle"))))) /\
  In (ToolCall "get_react_flow_component") (trace w2).
Proof.
  cbv zeta. repeat split; cbn; auto 10.
Qed.

(** C2. A category that is no category of the table can still raise an
    error: for [constructor] the table lookup finds the member inherited
    from [Object.prototype], the not-found branch is skipped, and
    rendering fails with a [TypeError], which the dispatcher logs and
    rethrows.  The same lookup makes [get_react_flow_example] throw and
    [get_react_flow_docs] answer with no text at all. *)
Theorem unknown_category_raises (cat : Catalogue) :
  let w := initial_world 5 60000 0 in
  Js.assoc components_listing "constructor" = None /\
  getComponentsList (Js.JsString "constructor") =
    Throw (TypeError "comps.forEach is not a function") /\
  fst (call_tool cat
         (tool_request "list_react_flow_components"
            [("category", Js.JsString "constructor")]) w) =
    Throw (TypeError "comps.forEach is not a function") /\
  Js.assoc example_codes "constructor" = None /\
  getExampleInfo cat "constructor" =
    Throw (TypeError "Cannot read properties of undefined (reading 'join')") /\
  Js.assoc docs "constructor" = None /\
  getDocsInfo cat "constructor" = text_payload None.
Proof.
  cbv zeta. repeat split.
Qed.

(** ** Lookups *)

(** A name whose normal form is neither a key of the table nor inherited
    gets the not-found text, which lists the names of all components. *)
Lemma getComponentInfo_not_found (cat : Catalogue) (componentName : string) :
  Js.js_get components
    (Js.remove_chars component_noise (Js.toLowerCase componentName)) = Js.Undefined ->
  getComponentInfo cat componentName =
    text_payload
      (Some ("Component " +:+ Js.dquote +:+ componentName +:+ Js.dquote +:+
             " not found. Available components: " +:+
             Js.join ", " (map snd components))).
Proof. intros H. unfold getComponentInfo. rewrite H. reflexivity. Qed.


(** C9. Two component names with the same normal form (lower case, with
    every [<], [>], [/] and white-space character removed) that names a
    known component get the same payload; so do [ReactFlow], [reactflow]
    and [<ReactFlow />]. *)
Theorem getComponentInfo_decoration (cat : Catalogue) (a b : string) :
  Js.remove_chars component_noise (Js.toLowerCase a) =
  Js.remove_chars component_noise (Js.toLowerCase b) ->
  (exists name,
     Js.assoc components (Js.remove_chars component_noise (Js.toLowerCase a)) = Some name) ->
  getComponentInfo cat a = getComponentInfo cat b /\
  getComponentInfo cat "ReactFlow" = getComponentInfo cat "reactflow" /\
  getComponentInfo cat "ReactFlow" = getComponentInfo cat "<ReactFlow />".
Proof.
  intros Hsame (name & Hknown). split; [| split; reflexivity].
  unfold getComponentInfo. rewrite <- Hsame.
  rewrite (assoc_js_get _ _ _ Hknown). reflexivity.
Qed.

Lemma getComponentInfo_decoration_witness :
  getComponentInfo blank_catalogue "Mini Map" = getComponentInfo blank_catalogue "</MINIMAP>".
Proof.
  apply (getComponentInfo_decoration blank_catalogue "Mini Map" "</MINIMAP>").
  - reflexivity.
  - exists "<MiniMap />". reflexivity.
Defined.

(** ** Example search *)

Lemma prefix_spec (t s : string) :
  String.prefix t s = true <-> exists after, s = t +:+ after.
Proof.
  revert s. induction t as [| c t IH]; intros s; destruct s as [| d s]; cbn.
  - split; [intros _; exists EmptyString; reflexivity | reflexivity].
  - split; [intros _; exists (String d s); reflexivity | reflexivity].
  - split; [discriminate | intros (after & H); discriminate].
  - destruct (ascii_dec c d) as [-> | Hne].
    + rewrite IH. split.
      * intros (after & ->). exists after. reflexivity.
      * intros (after & H). injection H as ->. exists after. reflexivity.
    + split; [discriminate |]. intros (after & H). injection H as H _. congruence.
Qed.

Lemma includes_spec (s t : string) :
  Js.includes s t = true <-> substring_of t s.
Proof.
  unfold substring_of. induction s as [| c s IH]; cbn [Js.includes].
  - rewrite orb_false_r, prefix_spec. split.
    + intros (after & H). exists EmptyString, after. exact H.
    + intros ([| d before] & after & H); [exists after; exact H | discriminate].
  - rewrite orb_true_iff, prefix_spec, IH. split.
    + intros [(after & H) | (before & after & H)].
      * exists EmptyString, after. exact H.
      * exists (String c before), after. cbn. rewrite H. reflexivity.
    + intros ([| d before] & after & H).
      * left. exists after. exact H.
      * right. cbn in H. injection H as _ H. exists before, after. exact H.
Qed.

Lemma append_assoc (a b c : string) : a +:+ b +:+ c = (a +:+ b) +:+ c.
Proof.
  induction a as [| x a IH]; [reflexivity |].
  change (String x (a +:+ b +:+ c) = String x ((a +:+ b) +:+ c)). rewrite IH. reflexivity.
Qed.

Lemma append_empty_r (a : string) : a +:+ EmptyString = a.
Proof.
  induction a as [| x a IH]; [reflexivity |].
  change (String x (a +:+ EmptyString) = String x a). rewrite IH. reflexivity.
Qed.

Lemma split_gap_irrelevant (s : string) :
  nonempty_terms (Js.split_space_from true s) =
  nonempty_terms (Js.split_space_from false s).
Proof.
  destruct s as [| c r]; [reflexivity |]. cbn [Js.split_space_from].
  destruct (Js.is_space c); reflexivity.
Qed.

Lemma includes_empty (s : string) : Js.includes s EmptyString = true.
Proof. destruct s; reflexivity. Qed.

Lemma forallb_nonempty_terms (text : string) (l : list string) :
  forallb (fun term => Js.includes text term) l =
  forallb (fun term => Js.includes text term) (nonempty_terms l).
Proof.
  induction l as [| t l IH]; [reflexivity |].
  unfold nonempty_terms in *. cbn [forallb List.filter].
  destruct (String.eqb_spec t EmptyString) as [-> | _]; cbn [negb forallb].
  - rewrite includes_empty. exact IH.
  - rewrite IH. reflexivity.
Qed.

















(** ** The dispatcher *)

Lemma validate_throws_unchanged (method : string) (params : option Js.JsObj)
    (w w1 : World) (e : JsError) :
  validateAndSanitizeParams method params w = (Throw e, w1) -> w1 = w.
Proof.
  unfold validateAndSanitizeParams.
  destruct (Js.js_get methodSchemas method) as [shape | m |].
  - destruct (issues shape (or_empty params)); cbv [ret throw]; congruence.
  - cbv [throw]; congruence.
  - cbv [bind logWarning modify ret]. discriminate.
Qed.

Lemma validate_frame (method : string) (params : option Js.JsObj) (w : World) :
  let w1 := snd (validateAndSanitizeParams method params w) in
  error_entries (log w1) = error_entries (log w) /\
  breaker w1 = breaker w /\ now w1 = now w /\ trace w1 = trace w.
Proof.
  unfold validateAndSanitizeParams.
  destruct (Js.js_get methodSchemas method) as [shape | m |].
  - destruct (issues shape (or_empty params)); cbn; auto.
  - cbn; auto.
  - cbn. unfold error_entries. rewrite List.filter_app. cbn. rewrite app_nil_r. auto.
Qed.

Lemma error_entries_add_other (e : LogEntry) (l : list LogEntry) :
  is_error_entry e = false -> error_entries (l ++ [e]) = error_entries l.
Proof.
  intros H. unfold error_entries. rewrite List.filter_app. cbn. rewrite H. apply app_nil_r.
Qed.

Lemma error_entries_add_error (method : string) (e : JsError) (l : list LogEntry) :
  error_entries (l ++ [error_entry method e]) = error_entries l ++ [error_entry method e].
Proof. unfold error_entries. rewrite List.filter_app. reflexivity. Qed.

Lemma execute_error_silent {A : Type} (work : M A) :
  error_silent work -> error_silent (execute work).
Proof.
  intros Hwork w. unfold execute.
  destruct (CircuitBreaker.attempt _ _) as [b |]; [| reflexivity].
  specialize (Hwork (set_breaker b (add_event ExecuteEnter w))).
  destruct (work _) as [[a | e] w']; cbn in *; exact Hwork.
Qed.

Lemma emit_then_error_silent {A : Type} (ev : Event) (m : M A) :
  error_silent m -> error_silent (do! emit ev in m).
Proof. intros Hm w. cbv [bind emit modify]. apply (Hm (add_event ev w)). Qed.

(** C3. The dispatcher validates first: when validation throws, the
    outcome is that error and the world differs only by the one log entry,
    whatever the handler is, so neither the breaker nor the handler ran.
    An error of the guarded handler is rethrown unchanged after one log
    entry that names the method, a result is returned with no entry, and
    with a handler that logs no error itself a failed request adds exactly
    one error entry to the log. *)
Theorem dispatcher_validates_first_logs_once (T : Type) (method : string)
    (params : option Js.JsObj) (handler : Js.JsObj -> M T) (w : World) :
  (forall e w1,
     validateAndSanitizeParams method params w = (Throw e, w1) ->
     handleRequest method params handler w =
       (Throw e, add_log (error_entry method e) w)) /\
  (forall validatedParams w1 e w2,
     validateAndSanitizeParams method params w = (Return validatedParams, w1) ->
     execute (do! emit (HandlerCall method) in handler validatedParams) w1 = (Throw e, w2) ->
     handleRequest method params handler w =
       (Throw e, add_log (error_entry method e) w2)) /\
  (forall validatedParams w1 r w2,
     validateAndSanitizeParams method params w = (Return validatedParams, w1) ->
     execute (do! emit (HandlerCall method) in handler validatedParams) w1 = (Return r, w2) ->
     handleRequest method params handler w = (Return r, w2)) /\
  ((forall validatedParams, error_silent (handler validatedParams)) ->
   forall e w',
     handleRequest method params handler w = (Throw e, w') ->
     error_entries (log w') = error_entries (log w) ++ [error_entry method e]).
Proof.
  unfold handleRequest, try_catch, request_body, bind.
  split; [| split; [| split]].
  - intros e w1 Hv. rewrite Hv.
    rewrite (validate_throws_unchanged _ _ _ _ _ Hv). reflexivity.
  - intros vp w1 e w2 Hv Hx. rewrite Hv, Hx. reflexivity.
  - intros vp w1 r w2 Hv Hx. rewrite Hv, Hx. reflexivity.
  - intros Hsilent e w'.
    pose proof (validate_frame method params w) as (Hlog & _).
    destruct (validateAndSanitizeParams method params w) as [[vp | e0] w1] eqn:Hv.
    + pose proof (execute_error_silent _
                    (emit_then_error_silent (HandlerCall method) _ (Hsilent vp)) w1) as Hx.
      destruct (execute _ w1) as [[r | e1] w2]; [discriminate |].
      cbv [logError throw modify ret snd] in *.
      intros H. injection H as <- <-.
      etransitivity; [apply (error_entries_add_error method e1 (log w2)) |].
      rewrite Hx, Hlog. reflexivity.
    + cbv [logError throw modify ret snd] in *.
      intros H. injection H as <- <-.
      etransitivity; [apply (error_entries_add_error method e0 (log w1)) |].
      rewrite Hlog. reflexivity.
Qed.

Lemma dispatcher_validates_first_logs_once_witness :
  let w := initial_world 5 60000 0 in
  let failing : Js.JsObj -> M unit := fun _ => throw (Error "boom") in
  handleRequest "read_resource" (Some []) failing w =
    (Throw (Error "Validation failed for read_resource: uri: Required"),
     add_log (error_entry "read_resource"
                (Error "Validation failed for read_resource: uri: Required")) w) /\
  error_entries (log (snd (handleRequest "list_tools" None failing w))) =
    [error_entry "list_tools" (Error "boom")].
Proof.
  intros w failing. split.
  - destruct (dispatcher_validates_first_logs_once unit "read_resource" (Some []) failing w)
      as (Hfirst & _).
    apply (Hfirst _ w). reflexivity.
  - destruct (dispatcher_validates_first_logs_once unit "list_tools" None failing w)
      as (_ & _ & _ & Honce).
    apply (Honce (fun _ _ => eq_refl) (Error "boom")). reflexivity.
Defined.

(** ** Circuit breaker *)

Lemma execute_rejects {A : Type} (work : M A) (w : World) (tl : Z) :
  CircuitBreaker.state (breaker w) = CircuitBreaker.open ->
  CircuitBreaker.lastFailureTime (breaker w) = Some tl ->
  (now w - tl < CircuitBreaker.resetTimeoutMs (breaker w))%Z ->
  execute work w =
    (Throw CircuitOpenError, add_event ExecuteExit (add_event ExecuteEnter w)).
Proof.
  intros Hopen Hlast Hearly. unfold execute, CircuitBreaker.attempt. cbn.
  rewrite Hopen, Hlast.
  destruct (Z.leb_spec (CircuitBreaker.resetTimeoutMs (breaker w)) (now w - tl));
    [lia | reflexivity].
Qed.

Lemma execute_failure_closed {A : Type} (work : M A) (w : World) :
  quiet work -> fails work ->
  CircuitBreaker.state (breaker w) = CircuitBreaker.closed ->
  breaker (snd (execute work w)) = CircuitBreaker.on_failure (now w) (breaker w) /\
  now (snd (execute work w)) = now w.
Proof.
  intros Hquiet Hfails Hclosed. unfold execute, CircuitBreaker.attempt. cbn.
  rewrite Hclosed.
  destruct (Hquiet (set_breaker (breaker w) (add_event ExecuteEnter w))) as (Hb & Hn & _).
  destruct (Hfails (set_breaker (breaker w) (add_event ExecuteEnter w))) as (e & He).
  destruct (work _) as [[a | e'] w']; cbn in *; [discriminate |].
  rewrite Hb, Hn. split; reflexivity.
Qed.

Lemma invoke_all_opens {A : Type} (N : Z) (runs : list (Z * M A)) :
  forall (w : World) (c : Z),
    Forall (fun r => quiet (snd r) /\ fails (snd r)) runs ->
    runs <> [] ->
    CircuitBreaker.state (breaker w) = CircuitBreaker.closed ->
    CircuitBreaker.consecutiveFailures (breaker w) = c ->
    CircuitBreaker.failureThreshold (breaker w) = N ->
    (c + Z.of_nat (length runs) = N)%Z ->
    let w' := invoke_all runs w in
    CircuitBreaker.state (breaker w') = CircuitBreaker.open /\
    CircuitBreaker.consecutiveFailures (breaker w') = N /\
    CircuitBreaker.resetTimeoutMs (breaker w') = CircuitBreaker.resetTimeoutMs (breaker w) /\
    CircuitBreaker.lastFailureTime (breaker w') = Some (List.last (map fst runs) 0%Z).
Proof.
  induction runs as [| [t work] rest IH]; intros w c Hall Hne Hclosed Hc HN Hlen;
    [contradiction |].
  inversion Hall as [| ? ? (Hquiet & Hfails) Hrest]; subst.
  cbn [invoke_all].
  destruct (execute_failure_closed work (set_now t w) Hquiet Hfails Hclosed) as (Hb & Hn).
  cbn [set_now breaker now] in Hb, Hn.
  set (w1 := snd (execute work (set_now t w))) in *.
  unfold CircuitBreaker.on_failure in Hb. rewrite Hclosed in Hb.
  destruct rest as [| r rest'].
  - cbn [invoke_all]. cbn [length] in Hlen.
    destruct (Z.leb_spec (CircuitBreaker.failureThreshold (breaker w))
                (CircuitBreaker.consecutiveFailures (breaker w) + 1)); [| lia].
    rewrite Hb. cbn. repeat split. lia.
  - destruct (Z.leb_spec (CircuitBreaker.failureThreshold (breaker w))
                (CircuitBreaker.consecutiveFailures (breaker w) + 1)).
    { cbn [length] in Hlen. lia. }
    destruct (IH w1 (CircuitBreaker.consecutiveFailures (breaker w) + 1)%Z Hrest)
      as (Ho & Hcount & Ht & Hl).
    + discriminate.
    + rewrite Hb. reflexivity.
    + rewrite Hb. reflexivity.
    + rewrite Hb. reflexivity.
    + cbn [length] in *. lia.
    + repeat split; try assumption. rewrite Ht, Hb. reflexivity.
Qed.

(** C4. With threshold [N >= 1]: after [N] consecutive failing
    invocations of a closed breaker it is open and the time it recorded is
    the time of the last of them, so an invocation made from then on
    before the cooldown [T] has elapsed, the next one at that same time
    included, is rejected with [CircuitOpenError] whatever the work is
    (the work is not run).  On an open breaker whose cooldown has elapsed
    the invocation runs the work with the breaker half-open; if the work
    succeeds the breaker is closed with no failure counted, and if it
    fails the breaker is open again. *)
Theorem breaker_opens_and_recovers (A : Type) (N T : Z) :
  (1 <= N)%Z ->
  (forall (w0 : World) (runs : list (Z * M A)),
     CircuitBreaker.state (breaker w0) = CircuitBreaker.closed ->
     CircuitBreaker.consecutiveFailures (breaker w0) = 0%Z ->
     CircuitBreaker.failureThreshold (breaker w0) = N ->
     CircuitBreaker.resetTimeoutMs (breaker w0) = T ->
     length runs = Z.to_nat N ->
     Forall (fun r => quiet (snd r) /\ fails (snd r)) runs ->
     let w := invoke_all runs w0 in
     let last_failure := List.last (map fst runs) 0%Z in
     CircuitBreaker.state (breaker w) = CircuitBreaker.open /\
     CircuitBreaker.lastFailureTime (breaker w) = Some last_failure /\
     (forall (t : Z) (work : M A),
        (t - last_failure < T)%Z ->
        execute work (set_now t w) =
          (Throw CircuitOpenError,
           add_event ExecuteExit (add_event ExecuteEnter (set_now t w)))) /\
     ((0 < T)%Z ->
      forall work : M A,
        execute work (set_now last_failure w) =
          (Throw CircuitOpenError,
           add_event ExecuteExit (add_event ExecuteEnter (set_now last_failure w))))) /\
  (forall (w : World) (tl : Z) (work : M A),
     CircuitBreaker.state (breaker w) = CircuitBreaker.open ->
     CircuitBreaker.lastFailureTime (breaker w) = Some tl ->
     CircuitBreaker.resetTimeoutMs (breaker w) = T ->
     (T <= now w - tl)%Z ->
     quiet work ->
     let trial :=
       set_breaker
         (CircuitBreaker.with_state (breaker w) CircuitBreaker.half_open
            (CircuitBreaker.consecutiveFailures (breaker w)) (Some tl))
         (add_event ExecuteEnter w) in
     fst (execute work w) = fst (work trial) /\
     (forall a, fst (work trial) = Return a ->
        CircuitBreaker.state (breaker (snd (execute work w))) = CircuitBreaker.closed /\
        CircuitBreaker.consecutiveFailures (breaker (snd (execute work w))) = 0%Z) /\
     (forall e, fst (work trial) = Throw e ->
        CircuitBreaker.state (breaker (snd (execute work w))) = CircuitBreaker.open /\
        CircuitBreaker.lastFailureTime (breaker (snd (execute work w))) =
          Some (now w))).
Proof.
  intros HN. split.
  - intros w0 runs Hclosed Hzero Hthreshold Htimeout Hlen Hall w last_failure.
    destruct (invoke_all_opens N runs w0 0%Z Hall) as (Hopen & _ & Htime & Hlast);
      try assumption.
    + intros ->. cbn in Hlen. lia.
    + rewrite Hlen. lia.
    + fold w in Hopen, Htime, Hlast. fold last_failure in Hlast.
      assert (Hrejects : forall (t : Z) (work : M A),
                 (t - last_failure < T)%Z ->
                 execute work (set_now t w) =
                   (Throw CircuitOpenError,
                    add_event ExecuteExit (add_event ExecuteEnter (set_now t w)))).
      { intros t work Hearly. apply (execute_rejects work (set_now t w) last_failure).
        - exact Hopen.
        - exact Hlast.
        - cbn. rewrite Htime, Htimeout. exact Hearly. }
      split; [exact Hopen |]. split; [exact Hlast |]. split; [exact Hrejects |].
      intros HT work. apply Hrejects. lia.
  - intros w tl work Hopen Hlast Htimeout Hlate Hquiet trial.
    unfold execute, CircuitBreaker.attempt. cbn [add_event breaker now].
    rewrite Hopen, Hlast, Htimeout.
    destruct (Z.leb_spec T (now w - tl)); [| lia].
    fold trial. destruct (Hquiet trial) as (Hb & Hn & _).
    destruct (work trial) as [[a | e] w'] eqn:Hwork; cbn [fst snd] in *.
    + split; [reflexivity |]. split; [| discriminate].
      intros _ _. rewrite Hb. cbn. split; reflexivity.
    + split; [reflexivity |]. split; [discriminate |].
      intros _ _. rewrite Hb, Hn. split; reflexivity.
Qed.

Lemma breaker_opens_and_recovers_witness :
  let boom : M unit := throw (Error "boom") in
  let w := invoke_all [(0%Z, boom); (10%Z, boom)] (initial_world 2 100 0) in
  CircuitBreaker.state (breaker w) = CircuitBreaker.open /\
  CircuitBreaker.lastFailureTime (breaker w) = Some 10%Z /\
  fst (execute (ret tt) (set_now 10 w)) = Throw CircuitOpenError /\
  fst (execute (ret tt) (set_now 50 w)) = Throw CircuitOpenError /\
  CircuitBreaker.state (breaker (snd (execute (ret tt) (set_now 110 w)))) =
    CircuitBreaker.closed /\
  CircuitBreaker.state (breaker (snd (execute boom (set_now 110 w)))) =
    CircuitBreaker.open.
Proof.
  cbv zeta.
  destruct (breaker_opens_and_recovers unit 2 100 ltac:(lia)) as (Hopens & Hrecovers).
  assert (Hquiet : forall m : M unit,
             (m = throw (Error "boom") \/ m = ret tt) -> quiet m).
  { intros m [-> | ->] w0; repeat split. }
  destruct (Hopens (initial_world 2 100 0)
              [(0%Z, throw (Error "boom")); (10%Z, throw (Error "boom"))])
    as (Hopen & Hlast & Hreject & Hnext); try reflexivity.
  { repeat constructor; cbn; try (apply Hquiet; auto); intros w0; eexists; reflexivity. }
  split; [exact Hopen |]. split; [exact Hlast |].
  split; [exact (f_equal fst (Hnext ltac:(lia) (ret tt))) |].
  split.
  - pose proof (Hreject 50%Z (ret tt) ltac:(cbn; lia)) as Hr. rewrite Hr. reflexivity.
  - destruct (Hrecovers
                (set_now 110
                   (@invoke_all unit
                      [(0%Z, throw (Error "boom")); (10%Z, throw (Error "boom"))]
                      (initial_world 2 100 0)))
                10%Z (ret tt)) as (_ & Hsuccess & _);
      try reflexivity; [apply Hquiet; auto |].
    destruct (Hrecovers
                (set_now 110
                   (@invoke_all unit
                      [(0%Z, throw (Error "boom")); (10%Z, throw (Error "boom"))]
                      (initial_world 2 100 0)))
                10%Z (throw (Error "boom"))) as (_ & _ & Hfailure);
      try reflexivity; [apply Hquiet; auto |].
    split.
    + apply (Hsuccess tt). reflexivity.
    + apply (Hfailure (Error "boom")). reflexivity.
Defined.

(** ** Quiet computations and the history *)

Lemma quiet_ret {A : Type} (a : A) : quiet (ret a).
Proof. intros w. repeat split. Qed.

Lemma quiet_throw {A : Type} (e : JsError) : quiet (@throw A e).
Proof. intros w. repeat split. Qed.

Lemma quiet_lift {A : Type} (o : Outcome A) : quiet (lift o).
Proof. intros w. repeat split. Qed.

Lemma quiet_logInfo (msg : string) : quiet (logInfo msg).
Proof. intros w. repeat split. Qed.

Lemma quiet_logError (msg : string) (e : JsError) : quiet (logError msg e).
Proof. intros w. repeat split. Qed.

Lemma quiet_cache_get (key : string) : quiet (cache_get key).
Proof. intros w. repeat split. Qed.

Lemma quiet_cache_set (key : string) (v : Payload) (ttl : Z) : quiet (cache_set key v ttl).
Proof. intros w. repeat split. Qed.

Lemma quiet_bind {A B : Type} (m : M A) (k : A -> M B) :
  quiet m -> (forall a, quiet (k a)) -> quiet (bind m k).
Proof.
  intros Hm Hk w. unfold bind.
  destruct (Hm w) as (Hb & Hn & Ht).
  destruct (m w) as [[a | e] w1]; cbn [snd] in *.
  - destruct (Hk a w1) as (Hb' & Hn' & Ht'). repeat split; congruence.
  - repeat split; assumption.
Qed.

Lemma quiet_validate (method : string) (params : option Js.JsObj) :
  quiet (validateAndSanitizeParams method params).
Proof.
  intros w. pose proof (validate_frame method params w) as (_ & Hb & Hn & Ht).
  repeat split; assumption.
Qed.

Lemma quiet_cached_lookup (cacheKey : string) (ttl : Z) (compute : Outcome Payload) :
  quiet (cached_lookup cacheKey ttl compute).
Proof.
  unfold cached_lookup. apply quiet_bind; [apply quiet_cache_get |].
  intros [p |]; [apply quiet_ret |].
  apply quiet_bind; [apply quiet_lift |]. intros result.
  apply quiet_bind; [apply quiet_cache_set |]. intros _. apply quiet_ret.
Qed.

Create HintDb quiet.

#[local] Hint Resolve quiet_ret quiet_throw quiet_lift quiet_logInfo quiet_cache_get
  quiet_cache_set quiet_cached_lookup quiet_validate quiet_logError : quiet.

Ltac quiet_steps :=
  repeat first
    [ apply quiet_cached_lookup
    | apply quiet_bind; [solve [auto with quiet] | intros ? ]
    | solve [auto with quiet] ].

(** None of the eleven tool handlers goes through the breaker: each only
    logs, reads the clock through the cache and updates the cache. *)
Lemma tool_handlers_quiet (cat : Catalogue) (n : string) (handler : Js.JsObj -> M Payload) :
  Js.assoc (toolHandlers cat) n = Some handler ->
  forall params, quiet (handler params).
Proof.
  unfold toolHandlers. cbn [Js.assoc].
  repeat match goal with
         | |- context [String.eqb ?a n] => destruct (String.eqb a n)
         end;
    intros H params; try discriminate; injection H as <-;
    cbv beta delta [handleGetComponent handleListComponents handleGetHook handleListHooks
                    handleGetType handleListTypes handleGetUtility handleListUtilities
                    handleGetExample Search.handleSearchExamples handleGetDocs];
    quiet_steps.
Qed.

Lemma emits_weaken {A : Type} (m : M A) (S S' : list Event -> Prop) :
  emits m S -> (forall evs, S evs -> S' evs) -> emits m S'.
Proof.
  intros Hm Himp w. destruct (Hm w) as (evs & Ht & HS).
  exists evs. split; [exact Ht | apply Himp, HS].
Qed.

Lemma emits_quiet {A : Type} (m : M A) : quiet m -> emits m (eq []).
Proof.
  intros Hm w. destruct (Hm w) as (_ & _ & Ht).
  exists []. rewrite app_nil_r. split; [exact Ht | reflexivity].
Qed.

Lemma emits_bind {A B : Type} (m : M A) (k : A -> M B) (S1 S2 : list Event -> Prop) :
  emits m S1 -> (forall a, emits (k a) S2) ->
  emits (bind m k)
    (fun evs => S1 evs \/ exists e1 e2, S1 e1 /\ S2 e2 /\ evs = e1 ++ e2).
Proof.
  intros Hm Hk w. unfold bind.
  destruct (Hm w) as (e1 & Ht1 & HS1).
  destruct (m w) as [[a | e] w1]; cbn [snd] in *.
  - destruct (Hk a w1) as (e2 & Ht2 & HS2).
    exists (e1 ++ e2). split.
    + rewrite Ht2, Ht1, app_assoc. reflexivity.
    + right. exists e1, e2. auto.
  - exists e1. auto.
Qed.

Lemma emits_emit_then {A : Type} (ev : Event) (m : M A) (S : list Event -> Prop) :
  emits m S -> emits (do! emit ev in m) (fun evs => exists e, S e /\ evs = ev :: e).
Proof.
  intros Hm w. cbv [bind emit modify].
  destruct (Hm (add_event ev w)) as (e & Ht & HS).
  exists (ev :: e). split; [| exists e; auto].
  rewrite Ht. cbn. rewrite <- app_assoc. reflexivity.
Qed.

Lemma emits_execute {A : Type} (work : M A) (S : list Event -> Prop) :
  emits work S ->
  emits (execute work)
    (fun evs => evs = [ExecuteEnter; ExecuteExit] \/
                exists e, S e /\ evs = ExecuteEnter :: e ++ [ExecuteExit]).
Proof.
  intros Hwork w. unfold execute.
  destruct (CircuitBreaker.attempt _ _) as [b |].
  - destruct (Hwork (set_breaker b (add_event ExecuteEnter w))) as (e & Ht & HS).
    exists (ExecuteEnter :: e ++ [ExecuteExit]). split; [| right; exists e; auto].
    destruct (work _) as [[a | err] w']; cbn in *; rewrite Ht;
      rewrite <- !app_assoc; reflexivity.
  - exists [ExecuteEnter; ExecuteExit]. split; [| left; reflexivity].
    cbn. rewrite <- app_assoc. reflexivity.
Qed.

Lemma emits_log_and_rethrow {A : Type} (body : M A) (msg : string)
    (S : list Event -> Prop) :
  emits body S ->
  emits (try_catch body (fun error => do! logError msg error in throw error)) S.
Proof.
  intros Hbody w. unfold try_catch.
  destruct (Hbody w) as (evs & Ht & HS).
  destruct (body w) as [[a | e] w1]; cbn in *; exists evs; auto.
Qed.

Lemma js_get_own {A : Type} (table : list (string * A)) (key : string) (a : A) :
  Js.js_get table key = Js.OwnProp a -> Js.assoc table key = Some a.
Proof.
  unfold Js.js_get. destruct (Js.assoc table key).
  - intros H. injection H as ->. reflexivity.
  - destruct (Js.assoc Js.object_prototype key); discriminate.
Qed.

Ltac no_tool_call :=
  let n := fresh "n" in
  let H := fresh "H" in
  intros n H; cbn in H; intuition discriminate.

Lemma call_tool_handler_emits (cat : Catalogue) (validatedParams : Js.JsObj) :
  emits (call_tool_handler cat validatedParams)
    (fun evs => tool_free evs \/ exists n, evs = [ExecuteEnter; ToolCall n; ExecuteExit]).
Proof.
  unfold call_tool_handler.
  destruct (Js.obj_get validatedParams "name") as [| | b | z | n | items | props];
    try (eapply emits_weaken; [apply emits_quiet, quiet_throw |];
         intros evs <-; left; no_tool_call).
  destruct (negb (Js.truthy (Js.JsString n))).
  { eapply emits_weaken; [apply emits_quiet, quiet_throw |].
    intros evs <-. left. no_tool_call. }
  destruct (Js.js_get (toolHandlers cat) n) as [handler | m |] eqn:Hget.
  - eapply emits_weaken.
    + apply emits_bind.
      * apply emits_execute, emits_emit_then, emits_quiet.
        apply (tool_handlers_quiet cat n handler (js_get_own _ _ _ Hget)).
      * intros result. apply emits_quiet, quiet_ret.
    + cbv beta.
      intros evs [[-> | (e & (e0 & <- & ->) & ->)]
                 | (e1 & e2 & [-> | (e & (e0 & <- & ->) & ->)] & <- & ->)].
      * left. no_tool_call.
      * right. exists n. reflexivity.
      * left. no_tool_call.
      * right. exists n. reflexivity.
  - eapply emits_weaken.
    + apply emits_bind.
      * apply emits_execute, emits_quiet, quiet_lift.
      * intros result. apply emits_quiet, quiet_ret.
    + cbv beta.
      intros evs [[-> | (e & <- & ->)] | (e1 & e2 & [-> | (e & <- & ->)] & <- & ->)];
        left; no_tool_call.
  - eapply emits_weaken; [apply emits_quiet, quiet_throw |].
    intros evs <-. left. no_tool_call.
Qed.

Lemma call_tool_emits (cat : Catalogue) (params : option Js.JsObj) :
  emits (call_tool cat params)
    (fun evs =>
       tool_free evs \/
       exists n, evs = [ExecuteEnter; HandlerCall "call_tool"; ExecuteEnter; ToolCall n;
                        ExecuteExit; ExecuteExit]).
Proof.
  unfold call_tool, handleRequest. apply emits_log_and_rethrow.
  unfold request_body. eapply emits_weaken.
  - apply emits_bind; [apply emits_quiet, quiet_validate |].
    intros validatedParams. apply emits_bind.
    + apply emits_execute, emits_emit_then, (call_tool_handler_emits cat validatedParams).
    + intros result. apply emits_quiet, quiet_ret.
  - cbv beta.
    assert (Hinner : forall evs,
               (evs = [ExecuteEnter; ExecuteExit] \/
                exists e,
                  (exists e0,
                     (tool_free e0 \/
                      exists n, e0 = [ExecuteEnter; ToolCall n; ExecuteExit]) /\
                     e = HandlerCall "call_tool" :: e0) /\
                  evs = ExecuteEnter :: e ++ [ExecuteExit]) ->
               tool_free evs \/
               exists n, evs = [ExecuteEnter; HandlerCall "call_tool"; ExecuteEnter;
                                ToolCall n; ExecuteExit; ExecuteExit]).
    { intros evs [-> | (e & (e0 & [Hfree | (n & ->)] & ->) & ->)].
      - left. no_tool_call.
      - left. intros n Hin. cbn in Hin. destruct Hin as [Hin | [Hin | Hin]];
          try discriminate.
        apply in_app_or in Hin. destruct Hin as [Hin | Hin].
        + exact (Hfree n Hin).
        + cbn in Hin. intuition discriminate.
      - right. exists n. reflexivity. }
    intros evs [<- | (e1 & e2 & <- & Hrest & ->)].
    + left. no_tool_call.
    + cbn [app]. destruct Hrest as [Hx | (e3 & e4 & Hx & <- & ->)].
      * apply Hinner, Hx.
      * rewrite app_nil_r. apply Hinner, Hx.
Qed.

(** C10. Whenever a tool call reaches a tool handler, what the request
    adds to the history is: entry of the breaker for the request handler,
    entry of the breaker again for the tool handler, the tool handler, and
    the two exits, so the single breaker is entered twice, one execution
    inside the other.  A tool call whose handler fails is therefore
    counted as two failures. *)
Theorem tool_call_enters_breaker_twice (cat : Catalogue) (params : option Js.JsObj)
    (w : World) :
  (exists evs,
     trace (snd (call_tool cat params w)) = trace w ++ evs /\
     forall n, In (ToolCall n) evs ->
       evs = [ExecuteEnter; HandlerCall "call_tool"; ExecuteEnter; ToolCall n;
              ExecuteExit; ExecuteExit]) /\
  trace (snd (call_tool cat
                (tool_request "get_react_flow_component"
                   [("componentName", Js.JsString "Handle")])
                (initial_world 5 60000 0))) =
    [ExecuteEnter; HandlerCall "call_tool"; ExecuteEnter;
     ToolCall "get_react_flow_component"; ExecuteExit; ExecuteExit] /\
  CircuitBreaker.consecutiveFailures
    (breaker (snd (call_tool cat
                     (tool_request "get_react_flow_component" [])
                     (initial_world 5 60000 0)))) = 2%Z.
Proof.
  split; [| split; reflexivity].
  destruct (call_tool_emits cat params w) as (evs & Ht & [Hfree | (n' & ->)]).
  - exists evs. split; [exact Ht |]. intros n Hin. destruct (Hfree n Hin).
  - eexists. split; [exact Ht |]. intros n Hin. cbn in Hin.
    destruct Hin as [Hin | [Hin | [Hin | [Hin | [Hin | [Hin | []]]]]]];
      try discriminate.
    injection Hin as ->. reflexivity.
Qed.

(** ** Scenarios *)

(** An unknown documentation topic gets a successful payload that names
    every topic. *)
Example unknown_topic_lists_topics (cat : Catalogue) :
  exists text,
    getDocsInfo cat "unknown-topic-xyz" = text_payload (Some text) /\
    forallb (fun d => Js.includes text ("**" +:+ fst d +:+ "**")) docs = true.
Proof. eexists. split; [reflexivity | vm_compute; reflexivity]. Qed.

(** Listing the hooks of the viewport category shows its two hooks and no
    hook of another category. *)
Example viewport_hooks_only :
  exists text,
    getHooksList (Js.JsString "viewport") = Return (text_payload (Some text)) /\
    forallb
      (fun entry =>
         forallb
           (fun item =>
              Bool.eqb (Js.includes text ("**" +:+ fst item +:+ "**"))
                (String.eqb (fst entry) "viewport"))
           (snd entry))
      hooks_listing = true.
Proof. eexists. split; vm_compute; reflexivity. Qed.

(** A second identical call is answered from the cache with the same
    payload. *)
Example repeated_call_same_payload :
  let request := tool_request "get_react_flow_component"
                   [("componentName", Js.JsString "Handle")] in
  let first := call_tool blank_catalogue request (initial_world 5 60000 0) in
  let second := call_tool blank_catalogue request (set_now 1000 (snd first)) in
  fst second = fst first /\
  fst (cache_get "react-flow-component-handle" (set_now 1000 (snd first))) =
    Return (Some (getComponentInfo blank_catalogue "Handle")).
Proof. cbv zeta. split; vm_compute; reflexivity. Qed.

(** * Further properties of the code *)

(** ** [sanitizeString] *)

Lemma take_length (n : nat) (s : string) : String.length (take n s) <= n.
Proof.
  revert s. induction n as [| n IH]; intros [| c r]; cbn; try lia.
  specialize (IH r). lia.
Qed.

Lemma has_tag_complete (a b c : string) :
  has_tag (a +:+ "<" +:+ b +:+ ">" +:+ c) = true.
Proof.
  assert (Hgt : forall b', has_gt (b' +:+ String ">" c) = true).
  { induction b' as [| x b' IH]; [reflexivity |].
    change (has_gt (String x (b' +:+ String ">" c)) = true).
    cbn [has_gt]. rewrite IH. apply orb_true_r. }
  change (has_tag (a +:+ String "<" (b +:+ String ">" c)) = true).
  induction a as [| x a IH].
  - change (has_tag (String "<" (b +:+ String ">" c)) = true).
    cbn [has_tag]. rewrite Hgt. reflexivity.
  - change (has_tag (String x (a +:+ String "<" (b +:+ String ">" c))) = true).
    cbn [has_tag]. rewrite IH. apply orb_true_r.
Qed.

Lemma index_of_gt_none (s : string) : index_of_gt s = None <-> has_gt s = false.
Proof.
  induction s as [| c r IH]; cbn; [tauto |].
  destruct (Ascii.eqb c ">"); cbn; [split; discriminate |].
  destruct (index_of_gt r); cbn; [| tauto].
  split; [discriminate |]. intros H. apply IH in H. discriminate.
Qed.

Lemma remove_matches_has_gt (f : string -> option nat) (s : string) :
  forall skip, has_gt (remove_matches f skip s) = true -> has_gt s = true.
Proof.
  induction s as [| c r IH]; intros skip; cbn [remove_matches]; [trivial |].
  cbn [has_gt]. intros H. apply orb_true_iff.
  destruct skip as [| k]; [| right; exact (IH _ H)].
  destruct (f (String c r)) as [[| k] |]; try (right; exact (IH _ H));
    cbn [has_gt] in H; apply orb_true_iff in H; destruct H as [H | H]; auto;
    right; exact (IH _ H).
Qed.

Lemma remove_tags_no_tag (s : string) :
  forall skip, has_tag (remove_matches tag_len skip s) = false.
Proof.
  induction s as [| c r IH]; intros skip; cbn [remove_matches]; [reflexivity |].
  destruct skip as [| k]; [| apply IH].
  destruct (tag_len (String c r)) as [[| k] |] eqn:Hlen; try apply IH.
  - cbn in Hlen. destruct (Ascii.eqb c "<"); [| discriminate].
    destruct (index_of_gt r); discriminate.
  - cbn [has_tag]. rewrite IH, orb_false_r.
    cbn in Hlen. destruct (Ascii.eqb c "<"); [| reflexivity].
    destruct (index_of_gt r) eqn:Hi; [discriminate |].
    apply index_of_gt_none in Hi.
    destruct (has_gt (remove_matches tag_len 0 r)) eqn:Hg; [| reflexivity].
    apply remove_matches_has_gt in Hg. congruence.
Qed.

Lemma trim_start_no_tag (s : string) : has_tag s = false -> has_tag (trim_start s) = false.
Proof.
  induction s as [| c r IH]; cbn [trim_start]; [trivial |].
  destruct (Js.is_space c); [| trivial].
  cbn [has_tag]. intros H. apply orb_false_iff in H. apply IH, H.
Qed.

Lemma trim_end_has_gt (s : string) : has_gt (trim_end s) = true -> has_gt s = true.
Proof.
  induction s as [| c r IH]; cbn [trim_end has_gt]; [trivial |].
  destruct (trim_end r) as [| d r'] eqn:Hr.
  - destruct (Js.is_space c); cbn [has_gt]; [discriminate |].
    rewrite orb_false_r. intros ->. reflexivity.
  - cbn [has_gt] in *. intros H. apply orb_true_iff in H. apply orb_true_iff.
    destruct H as [H | H]; [left; exact H | right; apply IH, H].
Qed.

Lemma trim_end_no_tag (s : string) : has_tag s = false -> has_tag (trim_end s) = false.
Proof.
  induction s as [| c r IH]; cbn [trim_end has_tag]; [trivial |].
  intros H. apply orb_false_iff in H. destruct H as (Hc & Hr). specialize (IH Hr).
  pose proof (trim_end_has_gt r) as Hgt.
  destruct (trim_end r) as [| d r'] eqn:Ht.
  - destruct (Js.is_space c); cbn; [reflexivity |]. rewrite andb_false_r. reflexivity.
  - cbn [has_tag] in *. rewrite IH, orb_false_r.
    destruct (Ascii.eqb c "<"); [| reflexivity]. cbn in Hc |- *.
    destruct (has_gt (String d r')) eqn:Hg; [| exact Hg].
    rewrite (Hgt eq_refl) in Hc. discriminate.
Qed.

Lemma take_has_gt (n : nat) (s : string) : has_gt (take n s) = true -> has_gt s = true.
Proof.
  revert s. induction n as [| n IH]; intros [| c r]; cbn; try discriminate.
  intros H. apply orb_true_iff in H. apply orb_true_iff.
  destruct H as [H | H]; [left; exact H | right; apply IH, H].
Qed.

Lemma take_no_tag (n : nat) (s : string) : has_tag s = false -> has_tag (take n s) = false.
Proof.
  revert s. induction n as [| n IH]; intros [| c r]; cbn; try reflexivity.
  intros H. apply orb_false_iff in H. destruct H as (Hc & Hr).
  rewrite (IH r Hr), orb_false_r.
  destruct (Ascii.eqb c "<"); [| reflexivity]. cbn in Hc |- *.
  destruct (has_gt (take n r)) eqn:Hg; [| reflexivity].
  rewrite (take_has_gt _ _ Hg) in Hc. discriminate.
Qed.

Lemma lower_char_lt (c : ascii) : Ascii.eqb "<" (Js.lower_char c) = Ascii.eqb c "<".
Proof.
  destruct c as [[] [] [] [] [] [] [] []]; reflexivity.
Qed.

Lemma remove_matches_without_lt (f : string -> option nat) (s : string) :
  (forall t, has_lt t = false -> f t = None) ->
  has_lt s = false -> remove_matches f 0 s = s.
Proof.
  intros Hf. induction s as [| c r IH]; cbn [remove_matches has_lt]; [reflexivity |].
  intros H. rewrite (Hf (String c r) H).
  apply orb_false_iff in H. rewrite (IH (proj2 H)). reflexivity.
Qed.

Lemma script_len_without_lt (t : string) : has_lt t = false -> script_len t = None.
Proof.
  unfold script_len. destruct t as [| c r]; [reflexivity |].
  cbn [has_lt prefix_ci]. intros H. apply orb_false_iff in H.
  change (Js.lower_char "<") with "<"%char.
  rewrite lower_char_lt, (proj1 H). reflexivity.
Qed.

Lemma tag_len_without_lt (t : string) : has_lt t = false -> tag_len t = None.
Proof.
  destruct t as [| c r]; [reflexivity |]. cbn. intros H.
  apply orb_false_iff in H. rewrite (proj1 H). reflexivity.
Qed.

(** The result of [sanitizeString] has at most 1000 characters and
    contains no [<] that is followed, anywhere later, by a [>]; an input
    without any [<] is only trimmed and cut. *)
Theorem sanitizeString_no_markup (input : string) :
  String.length (sanitizeString input) <= 1000 /\
  (forall a b c, sanitizeString input <> a +:+ "<" +:+ b +:+ ">" +:+ c) /\
  (has_lt input = false -> sanitizeString input = take 1000 (trim input)).
Proof.
  unfold sanitizeString, trim. split; [apply take_length |]. split.
  - intros a b c Heq.
    pose proof (has_tag_complete a b c) as Hyes. rewrite <- Heq in Hyes.
    rewrite take_no_tag in Hyes; [discriminate |].
    apply trim_end_no_tag, trim_start_no_tag, remove_tags_no_tag.
  - intros Hno.
    rewrite (remove_matches_without_lt script_len input script_len_without_lt Hno).
    rewrite (remove_matches_without_lt tag_len input tag_len_without_lt Hno).
    reflexivity.
Qed.

(** ** Validated parameters *)

Lemma assoc_in_keys {A : Type} (l : list (string * A)) (k : string) (a : A) :
  Js.assoc l k = Some a -> In k (map fst l).
Proof.
  induction l as [| [k0 a0] l IH]; cbn; [discriminate |].
  destruct (String.eqb_spec k0 k) as [-> | Hne]; [intros _; left; reflexivity |].
  intros H. right. apply IH, H.
Qed.

Lemma assoc_parsed_missing (shape : list (string * FieldSchema)) (data : Js.JsObj)
    (k : string) :
  Js.assoc data k = None -> Js.assoc (parsed shape data) k = None.
Proof.
  intros Hk. induction shape as [| [key f] rest IH]; cbn [parsed]; [reflexivity |].
  unfold Js.obj_has, Js.obj_get.
  destruct (Js.assoc data key) as [v |] eqn:Hkey; [| exact IH].
  cbn [Js.assoc]. destruct (String.eqb_spec key k) as [-> | _]; [congruence | exact IH].
Qed.

Lemma assoc_parsed (shape : list (string * FieldSchema)) (data : Js.JsObj) (k : string) :
  In k (map fst shape) -> Js.assoc (parsed shape data) k = Js.assoc data k.
Proof.
  induction shape as [| [key f] rest IH]; cbn [parsed map fst In]; [intros [] |].
  intros Hin. unfold Js.obj_has, Js.obj_get.
  destruct (String.eqb_spec key k) as [-> | Hne].
  - destruct (Js.assoc data k) as [v |] eqn:Hk.
    + cbn [Js.assoc]. rewrite String.eqb_refl. reflexivity.
    + apply assoc_parsed_missing, Hk.
  - destruct Hin as [Heq | Hin]; [congruence |].
    destruct (Js.assoc data key) as [v |].
    + cbn [Js.assoc]. destruct (String.eqb_spec key k); [congruence |]. apply IH, Hin.
    + apply IH, Hin.
Qed.

Lemma parsed_again (shape sub : list (string * FieldSchema)) (data : Js.JsObj) :
  (forall k, In k (map fst sub) -> In k (map fst shape)) ->
  parsed sub (parsed shape data) = parsed sub data /\
  issues sub (parsed shape data) = issues sub data.
Proof.
  induction sub as [| [key f] rest IH]; intros Hsub; cbn [parsed issues]; [auto |].
  destruct IH as (IHp & IHi); [intros k Hk; apply Hsub; right; exact Hk |].
  unfold Js.obj_has, Js.obj_get.
  rewrite (assoc_parsed shape data key) by (apply Hsub; left; reflexivity).
  fold (Js.obj_get data key). rewrite IHp, IHi. auto.
Qed.

Lemma parsed_keys (shape : list (string * FieldSchema)) (data : Js.JsObj) (k : string) :
  In k (map fst (parsed shape data)) -> In k (map fst shape) /\ Js.obj_has data k = true.
Proof.
  induction shape as [| [key f] rest IH]; cbn [parsed map fst In]; [intros [] |].
  destruct (Js.obj_has data key) eqn:Hhas.
  - cbn [map fst In]. intros [<- | Hin]; [auto |].
    destruct (IH Hin). auto.
  - intros Hin. destruct (IH Hin). auto.
Qed.

Lemma issues_nil_field (shape : list (string * FieldSchema)) (data : Js.JsObj)
    (k : string) (f : FieldSchema) :
  issues shape data = [] -> In (k, f) shape -> check_field f (Js.obj_get data k) = None.
Proof.
  induction shape as [| [key g] rest IH]; cbn [issues In]; [intros _ [] |].
  destruct (check_field g (Js.obj_get data key)) eqn:Hc; [discriminate |].
  intros Hnil [Heq | Hin]; [injection Heq as <- <-; exact Hc | apply IH; assumption].
Qed.

(** What a successful validation returns: only keys of the rule, all of
    them keys of the request; under every required key a string of 1 to
    1000 characters; and an object that validates again to itself. *)
Theorem validated_params_normal (method : string) (shape : list (string * FieldSchema))
    (params : option Js.JsObj) (validated : Js.JsObj) (w w1 : World) :
  Js.assoc methodSchemas method = Some shape ->
  validateAndSanitizeParams method params w = (Return validated, w1) ->
  (forall k, In k (map fst validated) ->
     In k (map fst shape) /\ Js.obj_has (or_empty params) k = true) /\
  (forall k, In (k, stringSchema) shape ->
     exists s, Js.obj_get validated k = Js.JsString s /\
               1 <= String.length s <= 1000) /\
  validateAndSanitizeParams method (Some validated) w = (Return validated, w).
Proof.
  intros Hrule. unfold validateAndSanitizeParams.
  rewrite (assoc_js_get _ _ _ Hrule).
  destruct (issues shape (or_empty params)) as [| err errs] eqn:Hissues;
    [| discriminate].
  intros H. injection H as <- <-.
  destruct (parsed_again shape shape (or_empty params) (fun k H => H)) as (Hp & Hi).
  split; [| split].
  - intros k Hin. apply parsed_keys, Hin.
  - intros k Hin.
    pose proof (issues_nil_field _ _ _ _ Hissues Hin) as Hc.
    unfold Js.obj_get.
    rewrite (assoc_parsed shape (or_empty params) k)
      by (apply (in_map fst) in Hin; exact Hin).
    fold (Js.obj_get (or_empty params) k).
    cbv beta iota delta [check_field not_a_string] in Hc.
    destruct (Js.obj_get (or_empty params) k); try discriminate.
    exists s. split; [reflexivity |].
    destruct (Nat.ltb_spec (String.length s) 1); [discriminate |].
    destruct (Nat.ltb_spec 1000 (String.length s)); [discriminate | lia].
  - cbn [or_empty]. rewrite Hi, Hissues, Hp. reflexivity.
Qed.

Lemma validated_params_normal_witness :
  let w := initial_world 5 60000 0 in
  let validated := [("name", Js.JsString "list_react_flow_hooks")] in
  validateAndSanitizeParams "call_tool" (Some validated) w = (Return validated, w).
Proof.
  intros w validated.
  apply (validated_params_normal "call_tool"
           [("name", stringSchema); ("arguments", anyOptional)]
           (Some [("_meta", Js.JsNull); ("name", Js.JsString "list_react_flow_hooks")])
           validated w w eq_refl eq_refl).
Defined.

(** ** The get tools *)

Lemma includes_refl_app (before t after : string) :
  Js.includes (before +:+ t +:+ after) t = true.
Proof. apply includes_spec. exists before, after. reflexivity. Qed.

Lemma substring_of_app_l (t s after : string) :
  substring_of t s -> substring_of t (s +:+ after).
Proof.
  intros (a & b & ->). exists a, (b +:+ after).
  rewrite <- !append_assoc. reflexivity.
Qed.

Lemma substring_of_app_r (t before s : string) :
  substring_of t s -> substring_of t (before +:+ s).
Proof.
  intros (a & b & ->). exists (before +:+ a), b.
  rewrite <- !append_assoc. reflexivity.
Qed.

Lemma substring_of_refl (t : string) : substring_of t t.
Proof.
  exists EmptyString, EmptyString.
  change (t = t +:+ EmptyString). symmetry. apply append_empty_r.
Qed.

Lemma substring_of_trans (a b c : string) :
  substring_of a b -> substring_of b c -> substring_of a c.
Proof.
  intros (p & q & ->) (p' & q' & ->). exists (p' +:+ p), (q +:+ q').
  rewrite <- !append_assoc. reflexivity.
Qed.

Lemma substring_of_join (sep x : string) (l : list string) :
  In x l -> substring_of x (Js.join sep l).
Proof.
  unfold Js.join. induction l as [| y l IH]; [intros [] |].
  intros [-> | Hin].
  - destruct l as [| z l]; cbn [String.concat]; [apply substring_of_refl |].
    apply substring_of_app_l, substring_of_refl.
  - destruct l as [| z l]; [destruct Hin |]. cbn [String.concat].
    apply substring_of_app_r, substring_of_app_r, IH, Hin.
Qed.

Lemma not_found_text_names (kind plural given : string) (names : list string) :
  substring_of given (not_found_text kind plural given names) /\
  forall n, In n names -> substring_of n (not_found_text kind plural given names).
Proof.
  unfold not_found_text. split.
  - do 3 apply substring_of_app_r. apply substring_of_app_l, substring_of_refl.
  - intros n Hin. do 8 apply substring_of_app_r. apply substring_of_join, Hin.
Qed.

Lemma cached_lookup_returns (key : string) (ttl : Z) (p : Payload) (w : World) :
  exists q, fst (cached_lookup key ttl (Return p) w) = Return q.
Proof.
  unfold cached_lookup, bind, cache_get.
  destruct (Cache.get (cache w) (now w) key) as [q |]; eexists; reflexivity.
Qed.

Lemma get_handler_outcome (prefix what key : string) (ttl : Z)
    (info : string -> Outcome Payload) (v : Js.JsValue) (w : World) :
  let handler :=
    (let! shown := lift (as_string v) in
     do! logInfo (prefix +:+ shown) in
     let! name := lift (string_receiver what v) in
     cached_lookup (key +:+ Js.toLowerCase name) ttl (info name)) in
  (forall s, v = Js.JsString s ->
     log (snd (handler w)) = log w ++ [info_entry (prefix +:+ s)] /\
     match Cache.get (cache w) (now w) (key +:+ Js.toLowerCase s) with
     | Some p => fst (handler w) = Return p
     | None => fst (handler w) = info s
     end) /\
  (forall shown,
     (forall s, v <> Js.JsString s) -> Js.to_string v = Some shown ->
     exists msg,
       handler w = (Throw (TypeError msg), add_log (info_entry (prefix +:+ shown)) w)) /\
  (Js.to_string v = None ->
   handler w = (Throw (TypeError "Cannot convert object to primitive value"), w)).
Proof.
  cbv zeta. split; [| split].
  - intros s ->.
    cbv [bind logInfo modify lift string_receiver as_string Js.to_string cached_lookup
         cache_get cache_set ret].
    cbn [cache now add_log].
    destruct (Cache.get (cache w) (now w) (key +:+ Js.toLowerCase s)) as [p |].
    + split; reflexivity.
    + destruct (info s) as [r | e]; split; reflexivity.
  - intros shown Hns Hshown. unfold as_string. rewrite Hshown.
    cbv [bind logInfo modify lift string_receiver].
    destruct v; try (eexists; reflexivity). destruct (Hns s eq_refl).
  - intros Hnone. unfold as_string. rewrite Hnone. reflexivity.
Qed.

Lemma inherited_constructor (key : string) :
  Js.assoc Js.object_prototype key = Some Js.P_constructor -> key = "constructor".
Proof.
  cbn [Js.assoc Js.object_prototype].
  repeat match goal with
         | |- context [String.eqb ?k key] =>
             destruct (String.eqb_spec k key) as [<- | _];
             [intros H; first [reflexivity | discriminate] |]
         end.
  discriminate.
Qed.

(** The six get tools read one parameter.  When it is a string, the tool
    writes its log line and answers from the cache, or else with what its
    lookup gives; the lookup throws only in the type tool, for a name
    whose normal form is [constructor], and in the example tool, for a
    name whose normal form is inherited.  When it is no string (missing,
    null, a number, ...), the tool fails with a [TypeError]: after its log
    line and before the cache is consulted when the value has a string
    form, and before the log line when it has none. *)
Theorem get_tools_fail_on_non_string (cat : Catalogue) (field prefix : string)
    (handler : Js.JsObj -> M Payload) (key : string) (ttl : Z)
    (info : string -> Outcome Payload) (params : Js.JsObj) (w : World) :
  In (field, prefix, handler, key, ttl, info) (get_tools cat) ->
  (forall s, Js.obj_get params field = Js.JsString s ->
     log (snd (handler params w)) = log w ++ [info_entry (prefix +:+ s)] /\
     match Cache.get (cache w) (now w) (key +:+ Js.toLowerCase s) with
     | Some p => fst (handler params w) = Return p
     | None => fst (handler params w) = info s
     end) /\
  (forall s e, info s = Throw e ->
     (exists msg, e = TypeError msg) /\
     (field = "typeName" /\ type_key s = "constructor" \/
      field = "exampleType" /\
      exists m, Js.js_get example_codes (dashed_key s) = Js.Inherited m)) /\
  (forall shown,
     (forall s, Js.obj_get params field <> Js.JsString s) ->
     Js.to_string (Js.obj_get params field) = Some shown ->
     exists msg,
       handler params w =
         (Throw (TypeError msg), add_log (info_entry (prefix +:+ shown)) w)) /\
  (Js.to_string (Js.obj_get params field) = None ->
   handler params w =
     (Throw (TypeError "Cannot convert object to primitive value"), w)).
Proof.
  intros Hin. cbn in Hin.
  destruct Hin as [H | [H | [H | [H | [H | [H | []]]]]]];
    injection H as <- <- <- <- <- <-.
  - destruct (get_handler_outcome "Getting React Flow component: " "componentName"
                "react-flow-component-" (30 * 60 * 1000)
                (fun name => Return (getComponentInfo cat name))
                (Js.obj_get params "componentName") w) as (H1 & H2 & H3).
    repeat split; try assumption; try discriminate; apply H1; assumption.
  - destruct (get_handler_outcome "Getting React Flow hook: " "hookName"
                "react-flow-hook-" (30 * 60 * 1000)
                (fun name => Return (getHookInfo cat name))
                (Js.obj_get params "hookName") w) as (H1 & H2 & H3).
    repeat split; try assumption; try discriminate; apply H1; assumption.
  - destruct (get_handler_outcome "Getting React Flow type: " "typeName"
                "react-flow-type-" (30 * 60 * 1000) (getTypeInfo cat)
                (Js.obj_get params "typeName") w) as (H1 & H2 & H3).
    split; [exact H1 |]. split; [| split; assumption].
    intros s e. unfold getTypeInfo, type_key.
    destruct (Js.js_get types _) as [name | m |] eqn:Hget; try discriminate.
    destruct m; try discriminate.
    intros He. injection He as <-. split; [eexists; reflexivity |]. left.
    split; [reflexivity |].
    unfold Js.js_get in Hget.
    destruct (Js.assoc types _); [discriminate |].
    destruct (Js.assoc Js.object_prototype _) as [m |] eqn:Hm; [| discriminate].
    injection Hget as ->. apply inherited_constructor, Hm.
  - destruct (get_handler_outcome "Getting React Flow utility: " "utilityName"
                "react-flow-utility-" (30 * 60 * 1000)
                (fun name => Return (getUtilityInfo cat name))
                (Js.obj_get params "utilityName") w) as (H1 & H2 & H3).
    repeat split; try assumption; try discriminate; apply H1; assumption.
  - destruct (get_handler_outcome "Getting React Flow example: " "exampleType"
                "react-flow-example-" (30 * 60 * 1000) (getExampleInfo cat)
                (Js.obj_get params "exampleType") w) as (H1 & H2 & H3).
    split; [exact H1 |]. split; [| split; assumption].
    intros s e. unfold getExampleInfo, dashed_key.
    destruct (Js.js_get example_codes _) as [[name description] | m |] eqn:Hget;
      try discriminate.
    intros He. injection He as <-. split; [eexists; reflexivity |]. right.
    split; [reflexivity |]. exists m. reflexivity.
  - destruct (get_handler_outcome "Getting React Flow docs: " "topic"
                "react-flow-docs-" (60 * 60 * 1000)
                (fun name => Return (getDocsInfo cat name))
                (Js.obj_get params "topic") w) as (H1 & H2 & H3).
    repeat split; try assumption; try discriminate; apply H1; assumption.
Qed.

Lemma get_tools_fail_on_non_string_witness :
  let w := initial_world 5 60000 0 in
  (exists msg,
     handleGetHook blank_catalogue [("hookName", Js.JsNumber 7 eq_refl)] w =
       (Throw (TypeError msg), add_log (info_entry "Getting React Flow hook: 7") w)) /\
  handleGetHook blank_catalogue
    [("hookName", Js.JsObject [("toString", Js.JsNumber 1 eq_refl)])] w =
    (Throw (TypeError "Cannot convert object to primitive value"), w) /\
  fst (handleGetType blank_catalogue [("typeName", Js.JsString "constructor")] w) =
    Throw (TypeError "typeData.values.forEach is not a function").
Proof.
  intros w.
  destruct (get_tools_fail_on_non_string blank_catalogue "hookName"
              "Getting React Flow hook: " (handleGetHook blank_catalogue)
              "react-flow-hook-" (30 * 60 * 1000)
              (fun name => Return (getHookInfo blank_catalogue name))
              [("hookName", Js.JsNumber 7 eq_refl)] w) as (_ & _ & Hfail & _).
  { right. left. reflexivity. }
  destruct (get_tools_fail_on_non_string blank_catalogue "hookName"
              "Getting React Flow hook: " (handleGetHook blank_catalogue)
              "react-flow-hook-" (30 * 60 * 1000)
              (fun name => Return (getHookInfo blank_catalogue name))
              [("hookName", Js.JsObject [("toString", Js.JsNumber 1 eq_refl)])] w)
    as (_ & _ & _ & Hnone).
  { right. left. reflexivity. }
  destruct (get_tools_fail_on_non_string blank_catalogue "typeName"
              "Getting React Flow type: " (handleGetType blank_catalogue)
              "react-flow-type-" (30 * 60 * 1000) (getTypeInfo blank_catalogue)
              [("typeName", Js.JsString "constructor")] w) as (Hstring & _).
  { right. right. left. reflexivity. }
  split; [| split].
  - apply (Hfail "7"); [intros s; discriminate | reflexivity].
  - apply Hnone. reflexivity.
  - destruct (Hstring "constructor" eq_refl) as (_ & Hmiss). exact Hmiss.
Defined.

(** For a name whose normal form is neither a key of the table nor a name
    inherited from [Object.prototype], each get tool answers with a text
    that repeats the name as given and names every entry of its table. *)
Theorem unknown_name_lists_alternatives (cat : Catalogue) (given : string) :
  (Js.js_get components
     (Js.remove_chars component_noise (Js.toLowerCase given)) = Js.Undefined ->
   exists text,
     getComponentInfo cat given = text_payload (Some text) /\
     substring_of given text /\
     forall e, In e components -> substring_of (snd e) text) /\
  (Js.js_get hooks (Js.remove_chars parentheses (Js.toLowerCase given)) = Js.Undefined ->
   exists text,
     getHookInfo cat given = text_payload (Some text) /\
     substring_of given text /\
     forall e, In e hooks -> substring_of (snd e) text) /\
  (Js.js_get types (Js.remove_chars angle_brackets (Js.toLowerCase given)) = Js.Undefined ->
   exists text,
     getTypeInfo cat given = Return (text_payload (Some text)) /\
     substring_of given text /\
     forall e, In e types -> substring_of (snd e) text) /\
  (Js.js_get utilities
     (Js.remove_chars parentheses (Js.toLowerCase given)) = Js.Undefined ->
   exists text,
     getUtilityInfo cat given = text_payload (Some text) /\
     substring_of given text /\
     forall e, In e utilities -> substring_of (snd e) text) /\
  (Js.js_get docs
     (Js.replace_space_runs "-" false (Js.toLowerCase given)) = Js.Undefined ->
   exists text,
     getDocsInfo cat given = text_payload (Some text) /\
     substring_of given text /\
     forall e, In e docs -> substring_of (fst e) text) /\
  (Js.js_get example_codes
     (Js.replace_space_runs "-" false (Js.toLowerCase given)) = Js.Undefined ->
   exists text,
     getExampleInfo cat given = Return (text_payload (Some text)) /\
     substring_of given text /\
     forall e, In e example_codes -> substring_of (fst e) text).
Proof.
  repeat split.
  - intros H. unfold getComponentInfo. rewrite H. eexists. split; [reflexivity |].
    destruct (not_found_text_names "Component" "components" given (map snd components))
      as (Hg & Hn).
    split; [exact Hg |]. intros e He. apply Hn, in_map, He.
  - intros H. unfold getHookInfo. rewrite H. eexists. split; [reflexivity |].
    destruct (not_found_text_names "Hook" "hooks" given (map snd hooks)) as (Hg & Hn).
    split; [exact Hg |]. intros e He. apply Hn, in_map, He.
  - intros H. unfold getTypeInfo. rewrite H. eexists. split; [reflexivity |].
    destruct (not_found_text_names "Type" "types" given (map snd types)) as (Hg & Hn).
    split; [exact Hg |]. intros e He. apply Hn, in_map, He.
  - intros H. unfold getUtilityInfo. rewrite H. eexists. split; [reflexivity |].
    destruct (not_found_text_names "Utility" "utilities" given (map snd utilities))
      as (Hg & Hn).
    split; [exact Hg |]. intros e He. apply Hn, in_map, He.
  - intros H. unfold getDocsInfo. rewrite H. eexists. split; [reflexivity |]. split.
    + do 2 apply substring_of_app_r. apply substring_of_app_l, substring_of_refl.
    + intros e He. do 7 apply substring_of_app_r. apply substring_of_app_l.
      apply (substring_of_trans _ ("- **" +:+ fst e +:+ "**: " +:+ snd e)).
      * apply substring_of_app_r, substring_of_app_l, substring_of_refl.
      * apply substring_of_join.
        apply (in_map (fun d => "- **" +:+ fst d +:+ "**: " +:+ snd d)), He.
  - intros H. unfold getExampleInfo. rewrite H. eexists. split; [reflexivity |]. split.
    + do 2 apply substring_of_app_r. apply substring_of_app_l, substring_of_refl.
    + intros e He. do 7 apply substring_of_app_r.
      apply (substring_of_trans _ ("- **" +:+ fst e +:+ "**: " +:+ snd (snd e))).
      * apply substring_of_app_r, substring_of_app_l, substring_of_refl.
      * apply substring_of_join.
        apply (in_map (fun x => "- **" +:+ fst x +:+ "**: " +:+ snd (snd x))), He.
Qed.

Lemma unknown_name_lists_alternatives_witness :
  exists text,
    getHookInfo blank_catalogue "useNothing" = text_payload (Some text) /\
    substring_of "useNothing" text /\
    substring_of "useViewport()" text.
Proof.
  destruct (unknown_name_lists_alternatives blank_catalogue "useNothing")
    as (_ & Hhooks & _).
  destruct (Hhooks eq_refl) as (text & Heq & Hgiven & Hall).
  exists text. split; [exact Heq |]. split; [exact Hgiven |].
  apply (Hall ("useviewport", "useViewport()")). cbn. auto 20.
Defined.

(** ** The tools and the cache *)

Lemma cache_get_after_set {V : Type} (store : gmap string (Cache.CacheEntry V))
    (t0 t ttl : Z) (key : string) (v : V) :
  (t < t0 + ttl)%Z -> Cache.get (Cache.set store t0 key v ttl) t key = Some v.
Proof.
  intros Hlt. unfold Cache.get, Cache.set. rewrite lookup_insert_eq. cbn.
  destruct (Z.ltb_spec t (t0 + ttl)); [reflexivity | lia].
Qed.

Lemma get_handler_second_call (prefix what key : string) (ttl : Z)
    (info : string -> Outcome Payload) (a b : string) (w : World) (t : Z) :
  let handler v :=
    (let! shown := lift (as_string v) in
     do! logInfo (prefix +:+ shown) in
     let! name := lift (string_receiver what v) in
     cached_lookup (key +:+ Js.toLowerCase name) ttl (info name)) in
  Js.toLowerCase a = Js.toLowerCase b ->
  Cache.get (cache w) (now w) (key +:+ Js.toLowerCase a) = None ->
  (t < now w + ttl)%Z ->
  (forall p, info a = Return p ->
     fst (handler (Js.JsString b) (set_now t (snd (handler (Js.JsString a) w)))) =
       Return p) /\
  (forall e, info a = Throw e ->
     fst (handler (Js.JsString a) w) = Throw e /\
     cache (snd (handler (Js.JsString a) w)) = cache w).
Proof.
  cbv zeta. intros Hcase Hmiss Hlt.
  cbv [bind logInfo modify lift string_receiver as_string Js.to_string cached_lookup
       cache_get cache_set ret].
  cbn [cache now add_log set_now set_cache]. rewrite Hmiss. split.
  - intros p ->.
    cbn [cache now add_log set_now set_cache snd fst]. rewrite <- Hcase.
    rewrite (cache_get_after_set _ _ _ _ _ _ Hlt). reflexivity.
  - intros e ->. split; reflexivity.
Qed.

Lemma append_length (a b : string) :
  String.length (a +:+ b) = String.length a + String.length b.
Proof.
  induction a as [| x a IH]; [reflexivity |].
  change (S (String.length (a +:+ b)) = S (String.length a + String.length b)).
  rewrite IH. reflexivity.
Qed.

Lemma append_inj_r (a b r : string) : a +:+ r = b +:+ r -> a = b.
Proof.
  revert b. induction a as [| x a IH]; intros [| y b] H.
  - reflexivity.
  - apply (f_equal String.length) in H.
    change (String.length r = S (String.length (b +:+ r))) in H.
    rewrite append_length in H. lia.
  - apply (f_equal String.length) in H.
    change (S (String.length (a +:+ r)) = String.length r) in H.
    rewrite append_length in H. lia.
  - change (String x (a +:+ r) = String y (b +:+ r)) in H.
    injection H as -> H. rewrite (IH b H). reflexivity.
Qed.

Lemma not_found_text_inj (kind plural : string) (names : list string) (a b : string) :
  not_found_text kind plural a names = not_found_text kind plural b names -> a = b.
Proof.
  unfold not_found_text. intros H.
  apply (String.app_inj kind) in H.
  apply (String.app_inj " ") in H.
  apply (String.app_inj Js.dquote) in H.
  apply append_inj_r in H. exact H.
Qed.

(** The cache key of a get tool is built from the lower-cased name only.
    After a call with the name [a] that missed the cache and whose lookup
    gave a payload, a call within the lifetime of the entry with a name
    [b] that differs from [a] only in letter case is answered with the
    payload computed for [a]; for unknown component names that payload
    quotes [a], not [b].  A call whose lookup throws stores nothing. *)
Theorem cache_shared_across_letter_case (cat : Catalogue) (field prefix : string)
    (handler : Js.JsObj -> M Payload) (key : string) (ttl : Z)
    (info : string -> Outcome Payload) (a b : string) (w : World) (t : Z) :
  In (field, prefix, handler, key, ttl, info) (get_tools cat) ->
  Js.toLowerCase a = Js.toLowerCase b ->
  Cache.get (cache w) (now w) (key +:+ Js.toLowerCase a) = None ->
  (t < now w + ttl)%Z ->
  (forall p, info a = Return p ->
     fst (handler [(field, Js.JsString b)]
            (set_now t (snd (handler [(field, Js.JsString a)] w)))) = Return p) /\
  (forall e, info a = Throw e ->
     fst (handler [(field, Js.JsString a)] w) = Throw e /\
     cache (snd (handler [(field, Js.JsString a)] w)) = cache w) /\
  (a <> b ->
   Js.js_get components
     (Js.remove_chars component_noise (Js.toLowerCase a)) = Js.Undefined ->
   getComponentInfo cat a <> getComponentInfo cat b).
Proof.
  intros Hin Hcase Hmiss Hlt.
  assert (Hcalls :
            (forall p, info a = Return p ->
               fst (handler [(field, Js.JsString b)]
                      (set_now t (snd (handler [(field, Js.JsString a)] w)))) =
                 Return p) /\
            (forall e, info a = Throw e ->
               fst (handler [(field, Js.JsString a)] w) = Throw e /\
               cache (snd (handler [(field, Js.JsString a)] w)) = cache w)).
  { cbn in Hin.
    destruct Hin as [H | [H | [H | [H | [H | [H | []]]]]]];
      injection H as <- <- <- <- <- <-;
      unfold handleGetComponent, handleGetHook, handleGetType, handleGetUtility,
        handleGetExample, handleGetDocs, Js.obj_get;
      cbn [Js.assoc]; rewrite String.eqb_refl.
    - apply (get_handler_second_call "Getting React Flow component: " "componentName"
               "react-flow-component-" _ (fun name => Return (getComponentInfo cat name))
               a b w t Hcase Hmiss Hlt).
    - apply (get_handler_second_call "Getting React Flow hook: " "hookName"
               "react-flow-hook-" _ (fun name => Return (getHookInfo cat name))
               a b w t Hcase Hmiss Hlt).
    - apply (get_handler_second_call "Getting React Flow type: " "typeName"
               "react-flow-type-" _ (getTypeInfo cat) a b w t Hcase Hmiss Hlt).
    - apply (get_handler_second_call "Getting React Flow utility: " "utilityName"
               "react-flow-utility-" _ (fun name => Return (getUtilityInfo cat name))
               a b w t Hcase Hmiss Hlt).
    - apply (get_handler_second_call "Getting React Flow example: " "exampleType"
               "react-flow-example-" _ (getExampleInfo cat) a b w t Hcase Hmiss Hlt).
    - apply (get_handler_second_call "Getting React Flow docs: " "topic"
               "react-flow-docs-" _ (fun name => Return (getDocsInfo cat name))
               a b w t Hcase Hmiss Hlt). }
  destruct Hcalls as (Hreturn & Hthrow).
  split; [exact Hreturn |]. split; [exact Hthrow |].
  intros Hne Ha Heq. unfold getComponentInfo in Heq.
  rewrite <- Hcase, Ha in Heq. unfold text_payload in Heq.
  apply Hne, (not_found_text_inj "Component" "components" (map snd components)).
  congruence.
Qed.

Lemma cache_shared_across_letter_case_witness :
  let w := initial_world 5 60000 0 in
  let first := handleGetComponent blank_catalogue [("componentName", Js.JsString "FOO")] w in
  let thrown := handleGetType blank_catalogue [("typeName", Js.JsString "Constructor")] w in
  fst (handleGetComponent blank_catalogue [("componentName", Js.JsString "foo")]
         (set_now 1000 (snd first))) = Return (getComponentInfo blank_catalogue "FOO") /\
  getComponentInfo blank_catalogue "FOO" <> getComponentInfo blank_catalogue "foo" /\
  fst thrown = Throw (TypeError "typeData.values.forEach is not a function") /\
  cache (snd thrown) = cache w.
Proof.
  intros w first thrown.
  destruct (cache_shared_across_letter_case blank_catalogue "componentName"
              "Getting React Flow component: "
              (handleGetComponent blank_catalogue) "react-flow-component-"
              (30 * 60 * 1000)%Z (fun name => Return (getComponentInfo blank_catalogue name))
              "FOO" "foo" w 1000%Z)
    as (Hsecond & _ & Hdiffer).
  { left. reflexivity. }
  { reflexivity. }
  { reflexivity. }
  { cbn. lia. }
  destruct (cache_shared_across_letter_case blank_catalogue "typeName"
              "Getting React Flow type: "
              (handleGetType blank_catalogue) "react-flow-type-"
              (30 * 60 * 1000)%Z (getTypeInfo blank_catalogue)
              "Constructor" "constructor" w 1000%Z)
    as (_ & Hthrown & _).
  { right. right. left. reflexivity. }
  { reflexivity. }
  { reflexivity. }
  { cbn. lia. }
  split; [apply Hsecond; reflexivity |].
  split; [apply Hdiffer; [discriminate | reflexivity] |].
  apply (Hthrown (TypeError "typeData.values.forEach is not a function")).
  reflexivity.
Defined.

(** The cache keys of [get_react_flow_example] and
    [search_react_flow_examples] overlap: after a search for [q] that
    missed the cache, a request within 15 minutes for the example named
    [search-] followed by [q] is answered with the search results for
    [q]. *)
Theorem example_key_collides_with_search (cat : Catalogue) (q : string) (w : World)
    (t : Z) :
  Cache.get (cache w) (now w) ("react-flow-example-search-" +:+ Js.toLowerCase q) = None ->
  (t < now w + 15 * 60 * 1000)%Z ->
  fst (handleGetExample cat [("exampleType", Js.JsString ("search-" +:+ q))]
         (set_now t (snd (Search.handleSearchExamples [("query", Js.JsString q)] w)))) =
    Return (Search.searchExamples q).
Proof.
  intros Hmiss Hlt.
  unfold handleGetExample, Search.handleSearchExamples.
  cbv [bind logInfo modify lift string_receiver as_string Js.to_string cached_lookup
       cache_get cache_set ret snd fst Js.obj_get].
  cbn [Js.assoc String.eqb Ascii.eqb Bool.eqb].
  cbn [cache now add_log set_now set_cache].
  rewrite Hmiss. cbn [cache now add_log set_now set_cache].
  change ("react-flow-example-" +:+ Js.toLowerCase ("search-" +:+ q))
    with ("react-flow-example-search-" +:+ Js.toLowerCase q).
  rewrite (cache_get_after_set _ _ _ _ _ _ Hlt). reflexivity.
Qed.

Lemma example_key_collides_with_search_witness :
  let w := initial_world 5 60000 0 in
  fst (handleGetExample blank_catalogue [("exampleType", Js.JsString "search-drag")]
         (set_now 60000
            (snd (Search.handleSearchExamples [("query", Js.JsString "drag")] w)))) =
    Return (Search.searchExamples "drag").
Proof.
  intros w.
  apply (example_key_collides_with_search blank_catalogue "drag" w 60000%Z).
  - reflexivity.
  - cbn. lia.
Defined.

(** ** Example search: how queries compose *)

Lemma toLowerCase_app (a b : string) :
  Js.toLowerCase (a +:+ b) = Js.toLowerCase a +:+ Js.toLowerCase b.
Proof.
  induction a as [| c a IH]; [reflexivity |].
  change (String (Js.lower_char c) (Js.toLowerCase (a +:+ b)) =
          String (Js.lower_char c) (Js.toLowerCase a +:+ Js.toLowerCase b)).
  rewrite IH. reflexivity.
Qed.

Lemma lower_char_idem (c : ascii) : Js.lower_char (Js.lower_char c) = Js.lower_char c.
Proof. destruct c as [[] [] [] [] [] [] [] []]; reflexivity. Qed.

Lemma toLowerCase_idem (s : string) : Js.toLowerCase (Js.toLowerCase s) = Js.toLowerCase s.
Proof.
  induction s as [| c s IH]; cbn [Js.toLowerCase]; [reflexivity |].
  rewrite lower_char_idem, IH. reflexivity.
Qed.


Lemma split_nonempty_list (g : bool) (s : string) : Js.split_space_from g s <> [].
Proof.
  revert g. induction s as [| c r IH]; intros g; cbn [Js.split_space_from]; [discriminate |].
  destruct (Js.is_space c).
  - destruct g; [apply IH | discriminate].
  - destruct (Js.split_space_from false r); discriminate.
Qed.

Lemma split_app_space (b : string) (a : string) :
  (exists t ts ts',
     Js.split_space_from false a = t :: ts /\
     Js.split_space_from false (a +:+ " " +:+ b) = t :: ts' /\
     nonempty_terms ts' = nonempty_terms ts ++ nonempty_terms (Js.split_space b)) /\
  nonempty_terms (Js.split_space_from true (a +:+ " " +:+ b)) =
    nonempty_terms (Js.split_space_from true a) ++ nonempty_terms (Js.split_space b).
Proof.
  unfold Js.split_space. induction a as [| c r (IHhead & IHgap)].
  - change (EmptyString +:+ " " +:+ b) with (String " " b). split.
    + exists EmptyString, [], (Js.split_space_from true b).
      repeat split. apply split_gap_irrelevant.
    + change (nonempty_terms (Js.split_space_from true b) =
              nonempty_terms (Js.split_space_from false b)).
      apply split_gap_irrelevant.
  - change (String c r +:+ " " +:+ b) with (String c (r +:+ " " +:+ b)).
    cbn [Js.split_space_from].
    destruct IHhead as (t & ts & ts' & Ha & Hab & Hne).
    destruct (Js.is_space c).
    + split; [| exact IHgap].
      exists EmptyString, (Js.split_space_from true r),
        (Js.split_space_from true (r +:+ " " +:+ b)).
      repeat split. exact IHgap.
    + rewrite Ha, Hab. split.
      * exists (String c t), ts, ts'. repeat split. exact Hne.
      * cbn [nonempty_terms List.filter String.eqb negb].
        fold (nonempty_terms ts'). fold (nonempty_terms ts). rewrite Hne. reflexivity.
Qed.

Lemma nonempty_terms_app_space (a b : string) :
  nonempty_terms (Js.split_space (a +:+ " " +:+ b)) =
  nonempty_terms (Js.split_space a) ++ nonempty_terms (Js.split_space b).
Proof.
  destruct (split_app_space b a) as ((t & ts & ts' & Ha & Hab & Hne) & _).
  unfold Js.split_space. rewrite Ha, Hab. unfold nonempty_terms in *.
  cbn [List.filter]. rewrite Hne. destruct (negb (t =? EmptyString)%string); reflexivity.
Qed.



(** A query made of two queries joined by a space matches an example
    exactly when both do, so its results are the results of the first
    query filtered by the second. *)
Theorem search_joined_queries_intersect (q1 q2 : string) :
  (forall example,
     Search.matches_query (q1 +:+ " " +:+ q2) example =
     Search.matches_query q1 example && Search.matches_query q2 example) /\
  Search.matches (q1 +:+ " " +:+ q2) =
    List.filter (Search.matches_query q2) (Search.matches q1).
Proof.
  assert (Hone : forall example,
             Search.matches_query (q1 +:+ " " +:+ q2) example =
             Search.matches_query q1 example && Search.matches_query q2 example).
  { intros example. unfold Search.matches_query, Search.queryTerms.
    rewrite !toLowerCase_app.
    change (Js.toLowerCase " ") with " ".
    rewrite (forallb_nonempty_terms _ (Js.split_space _)), nonempty_terms_app_space.
    rewrite forallb_app, <- !forallb_nonempty_terms. reflexivity. }
  split; [exact Hone |].
  unfold Search.matches. induction Search.examples as [| e l IH]; [reflexivity |].
  cbn [List.filter]. rewrite Hone.
  destruct (Search.matches_query q1 e); cbn [andb List.filter];
    [destruct (Search.matches_query q2 e) |]; rewrite IH; reflexivity.
Qed.

Lemma blank_terms (g : bool) (s : string) :
  Js.remove_chars Js.is_space s = EmptyString ->
  nonempty_terms (Js.split_space_from g s) = [].
Proof.
  revert g. induction s as [| c r IH]; intros g; cbn [Js.remove_chars Js.split_space_from];
    [reflexivity |].
  destruct (Js.is_space c); [| discriminate].
  intros H. destruct g; [apply IH, H |].
  unfold nonempty_terms in *. cbn [List.filter String.eqb negb]. apply (IH true H).
Qed.

Lemma remove_spaces_lower (s : string) :
  Js.remove_chars Js.is_space s = EmptyString ->
  Js.remove_chars Js.is_space (Js.toLowerCase s) = EmptyString.
Proof.
  induction s as [| c r IH]; cbn [Js.remove_chars Js.toLowerCase]; [reflexivity |].
  destruct (Js.is_space c) eqn:Hc; [| discriminate].
  assert (Hl : Js.lower_char c = c).
  { revert Hc. destruct c as [[] [] [] [] [] [] [] []]; cbn; try discriminate; reflexivity. }
  rewrite Hl, Hc. exact IH.
Qed.

(** A query that is empty or all white space matches every example, and
    the letter case of a query does not change what it matches. *)
Theorem search_blank_query_matches_all (q : string) :
  (Js.remove_chars Js.is_space q = EmptyString -> Search.matches q = Search.examples) /\
  Search.matches (Js.toLowerCase q) = Search.matches q.
Proof.
  split.
  - intros Hblank. unfold Search.matches.
    assert (Hall : forall example, Search.matches_query q example = true).
    { intros example. unfold Search.matches_query, Search.queryTerms, Js.split_space.
      rewrite forallb_nonempty_terms, (blank_terms false _ (remove_spaces_lower q Hblank)).
      reflexivity. }
    induction Search.examples as [| e l IH]; [reflexivity |].
    cbn [List.filter]. rewrite Hall, IH. reflexivity.
  - unfold Search.matches, Search.matches_query, Search.queryTerms.
    rewrite toLowerCase_idem. reflexivity.
Qed.

(** ** The request wrapper on handlers that leave the world alone *)

Lemma validate_ok (method : string) (shape : list (string * FieldSchema))
    (params : option Js.JsObj) (w : World) :
  Js.assoc methodSchemas method = Some shape ->
  issues shape (or_empty params) = [] ->
  validateAndSanitizeParams method params w =
    (Return (parsed shape (or_empty params)), w).
Proof.
  intros Hrule Hnone. unfold validateAndSanitizeParams.
  rewrite (assoc_js_get _ _ _ Hrule), Hnone. reflexivity.
Qed.

Lemma obj_get_parsed (shape : list (string * FieldSchema)) (data : Js.JsObj) (k : string) :
  In k (map fst shape) -> Js.obj_get (parsed shape data) k = Js.obj_get data k.
Proof. intros Hin. unfold Js.obj_get. rewrite (assoc_parsed _ _ _ Hin). reflexivity. Qed.

Lemma check_string_ok (s : string) :
  1 <= String.length s <= 1000 -> check_field stringSchema (Js.JsString s) = None.
Proof.
  intros Hlen. cbv beta iota delta [check_field].
  destruct (Nat.ltb_spec (String.length s) 1); [lia |].
  destruct (Nat.ltb_spec 1000 (String.length s)); [lia | reflexivity].
Qed.

Lemma handleRequest_stateless {T : Type} (method : string) (params : option Js.JsObj)
    (handler : Js.JsObj -> M T) (validated : Js.JsObj)
    (b : CircuitBreaker.CircuitBreakerState) (w : World) :
  validateAndSanitizeParams method params w = (Return validated, w) ->
  CircuitBreaker.attempt (now w) (breaker w) = Some b ->
  stateless (handler validated) ->
  handleRequest method params handler w =
    match fst (handler validated w) with
    | Return r => (Return r, settled method (CircuitBreaker.on_success b) w)
    | Throw e =>
        (Throw e,
         add_log (error_entry method e)
           (settled method (CircuitBreaker.on_failure (now w) b) w))
    end.
Proof.
  intros Hv Hb Hs.
  unfold handleRequest, try_catch, request_body, bind. rewrite Hv.
  unfold execute. cbn [now breaker add_event]. rewrite Hb.
  unfold emit, modify.
  rewrite (Hs w). destruct (fst (handler validated w)) as [r | e].
  - unfold ret, settled, request_events, add_event, set_breaker. cbn.
    rewrite <- !app_assoc. reflexivity.
  - unfold logError, throw, modify, settled, request_events, add_event, set_breaker,
      add_log, error_entry. cbn.
    rewrite <- !app_assoc. reflexivity.
Qed.

Lemma handleRequest_rejected {T : Type} (method : string) (params : option Js.JsObj)
    (handler : Js.JsObj -> M T) (validated : Js.JsObj) (w : World) :
  validateAndSanitizeParams method params w = (Return validated, w) ->
  CircuitBreaker.attempt (now w) (breaker w) = None ->
  handleRequest method params handler w = (Throw CircuitOpenError, rejected method w).
Proof.
  intros Hv Hb.
  unfold handleRequest, try_catch, request_body, bind. rewrite Hv.
  unfold execute. cbn [now breaker add_event]. rewrite Hb. reflexivity.
Qed.

Lemma bind_lift_return {A B : Type} (a : A) (k : A -> M B) :
  bind (lift (Return a)) k = k a.
Proof. reflexivity. Qed.

Lemma stateless_ret {A : Type} (a : A) : stateless (ret a).
Proof. intros w w'. reflexivity. Qed.

Lemma stateless_throw {A : Type} (e : JsError) : stateless (@throw A e).
Proof. intros w w'. reflexivity. Qed.

Lemma stateless_lift_then {A B : Type} (o : Outcome A) (k : A -> M B) :
  (forall a, stateless (k a)) -> stateless (let! a := lift o in k a).
Proof.
  intros Hk w w'. unfold bind, lift. destruct o as [a | e]; [apply Hk | reflexivity].
Qed.

(** ** The listing requests *)

(** The four listing requests take no parameter into account: whatever
    the client sends validates, and the answer is the table of the source
    whenever the breaker lets the request through; otherwise it is the
    breaker's rejection, logged against the method. *)
Theorem listing_requests_ignore_params (params : option Js.JsObj) (w : World) :
  (forall b, CircuitBreaker.attempt (now w) (breaker w) = Some b ->
     list_resources params w =
       (Return Resources.resources, settled "list_resources" (CircuitBreaker.on_success b) w) /\
     list_resource_templates params w =
       (Return Templates.resourceTemplates,
        settled "list_resource_templates" (CircuitBreaker.on_success b) w) /\
     list_tools params w =
       (Return ToolList.tools, settled "list_tools" (CircuitBreaker.on_success b) w) /\
     list_prompts params w =
       (Return (map snd Prompts.prompts),
        settled "list_prompts" (CircuitBreaker.on_success b) w)) /\
  (CircuitBreaker.attempt (now w) (breaker w) = None ->
     list_resources params w = (Throw CircuitOpenError, rejected "list_resources" w) /\
     list_resource_templates params w =
       (Throw CircuitOpenError, rejected "list_resource_templates" w) /\
     list_tools params w = (Throw CircuitOpenError, rejected "list_tools" w) /\
     list_prompts params w = (Throw CircuitOpenError, rejected "list_prompts" w)).
Proof.
  split.
  - intros b Hb. repeat split;
      (etransitivity;
       [ eapply (handleRequest_stateless _ params _ [] b w);
         [ reflexivity | exact Hb | apply stateless_ret ]
       | reflexivity ]).
  - intros Hb. repeat split;
      (eapply (handleRequest_rejected _ params _ [] w); [reflexivity | exact Hb]).
Qed.

(** ** resource-templates.ts *)

Lemma drop_app (p s : string) : drop (String.length p) (p +:+ s) = s.
Proof. induction p as [| c p IH]; [destruct s; reflexivity | exact IH]. Qed.

Lemma captured_spec (p uri name : string) :
  Templates.captured p uri = Some name <->
  uri = p +:+ name /\ name <> EmptyString /\ Templates.has_line_terminator name = false.
Proof.
  unfold Templates.captured. split.
  - destruct (String.prefix p uri) eqn:Hp; [| discriminate].
    apply prefix_spec in Hp as (after & ->). rewrite drop_app.
    destruct after as [| c after]; [discriminate |].
    destruct (Templates.has_line_terminator (String c after)) eqn:Hlt; [discriminate |].
    intros H. injection H as <-. repeat split; [discriminate | exact Hlt].
  - intros (-> & Hne & Hlt).
    assert (Hp : String.prefix p (p +:+ name) = true) by (apply prefix_spec; eauto).
    rewrite Hp, drop_app. destruct name as [| c name]; [contradiction |].
    rewrite Hlt. reflexivity.
Qed.

Lemma captured_other (p q name : string) :
  String.prefix q (p +:+ name) = false -> Templates.captured q (p +:+ name) = None.
Proof. intros H. unfold Templates.captured. rewrite H. reflexivity. Qed.

Lemma template_some_inv (uri : string) (r : Resources.ResourceContent) :
  Templates.getResourceTemplate uri = Some r ->
  exists name,
    name <> EmptyString /\ Templates.has_line_terminator name = false /\
    (uri = "reactflow://component/" +:+ name /\
     r = Templates.plain (Templates.component_text name) \/
     uri = "reactflow://hook/" +:+ name /\
     r = Templates.plain (Templates.hook_text name) \/
     uri = "reactflow://example/" +:+ name /\
     r = Templates.plain (Templates.example_text name)).
Proof.
  unfold Templates.getResourceTemplate.
  destruct (Templates.captured "reactflow://component/" uri) as [n |] eqn:Hc;
    [| destruct (Templates.captured "reactflow://hook/" uri) as [n |] eqn:Hh;
       [| destruct (Templates.captured "reactflow://example/" uri) as [n |] eqn:He;
          [| discriminate]]];
    intros H; injection H as <-; exists n;
    [ apply captured_spec in Hc as (-> & Hne & Hlt)
    | apply captured_spec in Hh as (-> & Hne & Hlt)
    | apply captured_spec in He as (-> & Hne & Hlt) ];
    auto 10.
Qed.

(** [getResourceTemplate] answers for exactly the URIs made of one of the
    three prefixes and a name that is not empty and has no line break; the
    name is not looked up anywhere, and the text it returns is plain text
    that repeats the name. *)
Theorem resource_template_accepts_exactly (uri : string) :
  (forall name,
     name <> EmptyString -> Templates.has_line_terminator name = false ->
     Templates.getResourceTemplate ("reactflow://component/" +:+ name) =
       Some (Templates.plain (Templates.component_text name)) /\
     Templates.getResourceTemplate ("reactflow://hook/" +:+ name) =
       Some (Templates.plain (Templates.hook_text name)) /\
     Templates.getResourceTemplate ("reactflow://example/" +:+ name) =
       Some (Templates.plain (Templates.example_text name))) /\
  (forall r,
     Templates.getResourceTemplate uri = Some r ->
     Resources.contentType r = "text/plain" /\
     exists name,
       name <> EmptyString /\ Templates.has_line_terminator name = false /\
       substring_of name (Resources.content r) /\
       (uri = "reactflow://component/" +:+ name \/
        uri = "reactflow://hook/" +:+ name \/
        uri = "reactflow://example/" +:+ name)) /\
  (Templates.getResourceTemplate uri = None ->
   forall kind name,
     In kind ["component"; "hook"; "example"] ->
     uri = "reactflow://" +:+ kind +:+ "/" +:+ name ->
     name = EmptyString \/ Templates.has_line_terminator name = true).
Proof.
  split; [| split].
  - intros name Hne Hlt. unfold Templates.getResourceTemplate. repeat split.
    + rewrite (proj2 (captured_spec "reactflow://component/" _ name)) by auto.
      reflexivity.
    + rewrite (captured_other "reactflow://hook/" "reactflow://component/" name)
        by reflexivity.
      rewrite (proj2 (captured_spec "reactflow://hook/" _ name)) by auto.
      reflexivity.
    + rewrite (captured_other "reactflow://example/" "reactflow://component/" name)
        by reflexivity.
      rewrite (captured_other "reactflow://example/" "reactflow://hook/" name)
        by reflexivity.
      rewrite (proj2 (captured_spec "reactflow://example/" _ name)) by auto.
      reflexivity.
  - intros r Hr.
    destruct (template_some_inv uri r Hr)
      as (name & Hne & Hlt & [(-> & ->) | [(-> & ->) | (-> & ->)]]);
      (split; [reflexivity |]); exists name;
      (split; [exact Hne |]); (split; [exact Hlt |]); (split; [| auto]);
      cbn [Resources.content Templates.plain];
      unfold Templates.component_text, Templates.hook_text, Templates.example_text;
      apply substring_of_app_r, substring_of_app_l, substring_of_refl.
  - unfold Templates.getResourceTemplate.
    destruct (Templates.captured "reactflow://component/" uri) as [n |] eqn:Hc;
      [discriminate |].
    destruct (Templates.captured "reactflow://hook/" uri) as [n |] eqn:Hh; [discriminate |].
    destruct (Templates.captured "reactflow://example/" uri) as [n |] eqn:He;
      [discriminate |].
    intros _ kind name Hkind ->.
    destruct name as [| c name]; [left; reflexivity |]. right.
    destruct (Templates.has_line_terminator (String c name)) eqn:Hlt; [reflexivity |].
    exfalso.
    destruct Hkind as [<- | [<- | [<- | []]]].
    + rewrite (proj2 (captured_spec "reactflow://component/" _ (String c name))) in Hc;
        [discriminate |]. repeat split; [discriminate | exact Hlt].
    + rewrite (proj2 (captured_spec "reactflow://hook/" _ (String c name))) in Hh;
        [discriminate |]. repeat split; [discriminate | exact Hlt].
    + rewrite (proj2 (captured_spec "reactflow://example/" _ (String c name))) in He;
        [discriminate |]. repeat split; [discriminate | exact Hlt].
Qed.

(** ** handler.ts: reading a resource *)

Lemma read_resource_valid (params : option Js.JsObj) (uri : string) (w : World) :
  Js.obj_get (or_empty params) "uri" = Js.JsString uri ->
  1 <= String.length uri <= 1000 ->
  exists validated,
    validateAndSanitizeParams "read_resource" params w = (Return validated, w) /\
    Js.obj_get validated "uri" = Js.JsString uri.
Proof.
  intros Huri Hlen. exists (parsed [("uri", stringSchema)] (or_empty params)). split.
  - apply validate_ok; [reflexivity |].
    cbn [issues]. rewrite Huri, (check_string_ok uri Hlen). reflexivity.
  - rewrite obj_get_parsed by (left; reflexivity). exact Huri.
Qed.

Lemma read_resource_handler_stateless (validated : Js.JsObj) :
  stateless (read_resource_handler validated).
Proof.
  unfold read_resource_handler. apply stateless_lift_then. intros key.
  destruct (Js.js_get Resources.resourceHandlers key) as [r | m |].
  - apply stateless_ret.
  - apply stateless_lift_then. intros _. apply stateless_ret.
  - apply stateless_lift_then. intros s.
    destruct (Templates.getResourceTemplate s); [apply stateless_ret | apply stateless_throw].
Qed.

Lemma template_uri_not_static (uri : string) (r : Resources.ResourceContent) :
  Templates.getResourceTemplate uri = Some r ->
  Js.js_get Resources.resourceHandlers uri = Js.Undefined.
Proof.
  intros H.
  destruct (template_some_inv uri r H)
    as (name & _ & _ & [(-> & _) | [(-> & _) | (-> & _)]]); reflexivity.
Qed.

Lemma read_resource_refused (params : option Js.JsObj) (uri : string)
    (b : CircuitBreaker.CircuitBreakerState) (w : World) :
  Js.obj_get (or_empty params) "uri" = Js.JsString uri ->
  1 <= String.length uri <= 1000 ->
  CircuitBreaker.attempt (now w) (breaker w) = Some b ->
  Js.js_get Resources.resourceHandlers uri = Js.Undefined ->
  Templates.getResourceTemplate uri = None ->
  read_resource params w =
    (Throw (Error ("Resource not found: " +:+ uri)),
     add_log (error_entry "read_resource" (Error ("Resource not found: " +:+ uri)))
       (settled "read_resource" (CircuitBreaker.on_failure (now w) b) w)).
Proof.
  intros Huri Hlen Hb Hnone Ht.
  destruct (read_resource_valid params uri w Huri Hlen) as (validated & Hv & Hget).
  pose proof (handleRequest_stateless "read_resource" params read_resource_handler
                validated b w Hv Hb (read_resource_handler_stateless validated)) as Hrun.
  fold (read_resource params) in Hrun. rewrite Hrun. clear Hrun.
  unfold read_resource_handler. rewrite Hget. cbn [as_string Js.to_string].
  unfold bind, lift. rewrite Hnone.
  unfold match_receiver. rewrite Ht. reflexivity.
Qed.

(** Reading a resource whose URI is a string of 1 to 1000 characters,
    while the breaker lets the request through.  The advertised resource
    is served from the static table with the advertised MIME type; a URI
    that fits a template is served from the template, whatever name it
    carries; a URI that is neither (and no inherited name) is refused with
    an error that names it, logged once, and the refusal counts as a
    failure of the breaker. *)
Theorem read_resource_serves_or_refuses (params : option Js.JsObj) (uri : string)
    (b : CircuitBreaker.CircuitBreakerState) (w : World) :
  Js.obj_get (or_empty params) "uri" = Js.JsString uri ->
  1 <= String.length uri <= 1000 ->
  CircuitBreaker.attempt (now w) (breaker w) = Some b ->
  (forall res,
     In res Resources.resources -> uri = Resources.uri res ->
     exists r,
       Js.assoc Resources.resourceHandlers uri = Some r /\
       Resources.contentType r = Resources.mimeType res /\
       read_resource params w =
         (Return (resource_result (Js.JsString uri) r),
          settled "read_resource" (CircuitBreaker.on_success b) w)) /\
  (forall r,
     Templates.getResourceTemplate uri = Some r ->
     read_resource params w =
       (Return (resource_result (Js.JsString uri) r),
        settled "read_resource" (CircuitBreaker.on_success b) w)) /\
  (Js.js_get Resources.resourceHandlers uri = Js.Undefined ->
   Templates.getResourceTemplate uri = None ->
   read_resource params w =
     (Throw (Error ("Resource not found: " +:+ uri)),
      add_log (error_entry "read_resource" (Error ("Resource not found: " +:+ uri)))
        (settled "read_resource" (CircuitBreaker.on_failure (now w) b) w))).
Proof.
  intros Huri Hlen Hb.
  split; [| split]; [| | apply read_resource_refused; assumption].
  all: destruct (read_resource_valid params uri w Huri Hlen) as (validated & Hv & Hget).
  all: pose proof (handleRequest_stateless "read_resource" params read_resource_handler
                     validated b w Hv Hb (read_resource_handler_stateless validated))
         as Hrun.
  all: fold (read_resource params) in Hrun; rewrite Hrun; clear Hrun.
  all: unfold read_resource_handler; rewrite Hget; cbn [as_string Js.to_string].
  all: unfold bind, lift.
  - intros res [<- | []] ->.
    eexists. split; [reflexivity |]. split; reflexivity.
  - intros r Hr. rewrite (template_uri_not_static uri r Hr).
    unfold match_receiver. rewrite Hr. reflexivity.
Qed.

Lemma read_resource_serves_or_refuses_witness :
  let w := initial_world 5 60000 0 in
  let uri := "reactflow://hook/useNoSuchHook" in
  read_resource (Some [("uri", Js.JsString uri)]) w =
    (Return (resource_result (Js.JsString uri)
               (Templates.plain (Templates.hook_text "useNoSuchHook"))),
     settled "read_resource"
       (CircuitBreaker.on_success (CircuitBreaker.create 5 60000)) w).
Proof.
  intros w uri.
  destruct (read_resource_serves_or_refuses (Some [("uri", Js.JsString uri)]) uri
              (CircuitBreaker.create 5 60000) w eq_refl) as (_ & Htemplate & _).
  - cbn. lia.
  - reflexivity.
  - apply Htemplate. reflexivity.
Defined.

(** A URI that names a member every object inherits is looked up in the
    static table with success: the member is called as if it were a
    resource handler.  Where the call returns, the answer has neither a
    content type nor a text; where it throws, the error is a [TypeError];
    the request is never answered with "Resource not found". *)
Theorem read_resource_inherited_name (params : option Js.JsObj) (uri : string)
    (m : Js.ProtoMember) (b : CircuitBreaker.CircuitBreakerState) (w : World) :
  Js.obj_get (or_empty params) "uri" = Js.JsString uri ->
  CircuitBreaker.attempt (now w) (breaker w) = Some b ->
  Js.js_get Resources.resourceHandlers uri = Js.Inherited m ->
  (In m [Js.P_constructor; Js.P_toString; Js.P_isPrototypeOf] ->
   read_resource params w =
     (Return {| Read.contentType := None;
                Read.contents := [ {| Read.uri := Js.JsString uri; Read.text := None |} ] |},
      settled "read_resource" (CircuitBreaker.on_success b) w)) /\
  (~ In m [Js.P_constructor; Js.P_toString; Js.P_isPrototypeOf] ->
   exists msg,
     read_resource params w =
       (Throw (TypeError msg),
        add_log (error_entry "read_resource" (TypeError msg))
          (settled "read_resource" (CircuitBreaker.on_failure (now w) b) w))).
Proof.
  intros Huri Hb Hm.
  assert (Hlen : 1 <= String.length uri <= 1000).
  { unfold Js.js_get in Hm.
    destruct (Js.assoc Resources.resourceHandlers uri); [discriminate |].
    cbn [Js.assoc Js.object_prototype] in Hm.
    repeat match type of Hm with
           | context [String.eqb ?k uri] =>
               destruct (String.eqb_spec k uri) as [<- | _]; [cbn; lia |]
           end.
    discriminate. }
  destruct (read_resource_valid params uri w Huri Hlen) as (validated & Hv & Hget).
  pose proof (handleRequest_stateless "read_resource" params read_resource_handler
                validated b w Hv Hb (read_resource_handler_stateless validated)) as Hrun.
  fold (read_resource params) in Hrun. rewrite Hrun. clear Hrun.
  unfold read_resource_handler. rewrite Hget. cbn [as_string Js.to_string].
  unfold bind, lift. rewrite Hm. split.
  - intros [<- | [<- | [<- | []]]]; reflexivity.
  - intros Hnot. destruct m; try (eexists; reflexivity);
      exfalso; apply Hnot; cbn; auto.
Qed.

Lemma read_resource_inherited_name_witness :
  let w := initial_world 5 60000 0 in
  read_resource (Some [("uri", Js.JsString "constructor")]) w =
    (Return {| Read.contentType := None;
               Read.contents :=
                 [ {| Read.uri := Js.JsString "constructor"; Read.text := None |} ] |},
     settled "read_resource"
       (CircuitBreaker.on_success (CircuitBreaker.create 5 60000)) w).
Proof.
  intros w.
  destruct (read_resource_inherited_name (Some [("uri", Js.JsString "constructor")])
              "constructor" Js.P_constructor (CircuitBreaker.create 5 60000) w
              eq_refl eq_refl eq_refl) as (Hreturns & _).
  apply Hreturns. left. reflexivity.
Defined.

(** ** handler.ts: tool calls and the breaker *)

Lemma named_request_valid (method : string) (params : option Js.JsObj) (n : string)
    (w : World) :
  Js.assoc methodSchemas method = Some [("name", stringSchema); ("arguments", anyOptional)] ->
  Js.obj_get (or_empty params) "name" = Js.JsString n ->
  1 <= String.length n <= 1000 ->
  exists validated,
    validateAndSanitizeParams method params w = (Return validated, w) /\
    Js.obj_get validated "name" = Js.JsString n /\
    Js.obj_get validated "arguments" = Js.obj_get (or_empty params) "arguments".
Proof.
  intros Hrule Hname Hlen.
  exists (parsed [("name", stringSchema); ("arguments", anyOptional)] (or_empty params)).
  split; [| split].
  - apply validate_ok; [exact Hrule |].
    cbn [issues]. rewrite Hname, (check_string_ok n Hlen). reflexivity.
  - rewrite obj_get_parsed by (left; reflexivity). exact Hname.
  - apply obj_get_parsed. right. left. reflexivity.
Qed.

Lemma nonempty_truthy (n : string) :
  1 <= String.length n -> Js.truthy (Js.JsString n) = true.
Proof. destruct n; cbn; [lia | reflexivity]. Qed.

(** A tool call whose name is a string of 1 to 1000 characters that is no
    key of the registry (and no inherited name), while the breaker lets
    the request through: the error names the tool as it was sent, it is
    logged once, no tool handler runs, and the breaker counts one failure.
    The name is matched as sent: a registered name in another letter case
    is unknown. *)
Theorem unknown_tool_refused (cat : Catalogue) (params : option Js.JsObj) (n : string)
    (b : CircuitBreaker.CircuitBreakerState) (w : World) :
  Js.obj_get (or_empty params) "name" = Js.JsString n ->
  1 <= String.length n <= 1000 ->
  Js.js_get (toolHandlers cat) n = Js.Undefined ->
  CircuitBreaker.attempt (now w) (breaker w) = Some b ->
  call_tool cat params w =
    (Throw (Error ("Tool not found: " +:+ n)),
     add_log (error_entry "call_tool" (Error ("Tool not found: " +:+ n)))
       (settled "call_tool" (CircuitBreaker.on_failure (now w) b) w)).
Proof.
  intros Hname Hlen Hnone Hb.
  destruct (named_request_valid "call_tool" params n w eq_refl Hname Hlen)
    as (validated & Hv & Hget & _).
  assert (Hbody : forall w', call_tool_handler cat validated w' =
                             (Throw (Error ("Tool not found: " +:+ n)), w')).
  { intros w'. unfold call_tool_handler. rewrite Hget, Hnone.
    rewrite nonempty_truthy by lia. reflexivity. }
  pose proof (handleRequest_stateless "call_tool" params (call_tool_handler cat)
                validated b w Hv Hb) as Hrun.
  fold (call_tool cat params) in Hrun. rewrite Hrun.
  - rewrite Hbody. reflexivity.
  - intros w1 w2. rewrite !Hbody. reflexivity.
Qed.

Lemma unknown_tool_refused_witness :
  let w := initial_world 5 60000 0 in
  let n := "Get_React_Flow_Component" in
  fst (call_tool blank_catalogue
         (tool_request n [("componentName", Js.JsString "Handle")]) w) =
    Throw (Error ("Tool not found: " +:+ n)) /\
  Js.js_get (toolHandlers blank_catalogue) (Js.toLowerCase n) <> Js.Undefined.
Proof.
  intros w n. split; [| discriminate].
  rewrite (unknown_tool_refused blank_catalogue
             (tool_request n [("componentName", Js.JsString "Handle")]) n
             (CircuitBreaker.create 5 60000) w eq_refl).
  - reflexivity.
  - cbn. lia.
  - reflexivity.
  - reflexivity.
Defined.

Lemma execute_throws_closed {A : Type} (work : M A) (e : JsError) (w : World) :
  (forall w', breaker (snd (work w')) = breaker w' /\ now (snd (work w')) = now w') ->
  (forall w', fst (work w') = Throw e) ->
  CircuitBreaker.state (breaker w) = CircuitBreaker.closed ->
  exists w1,
    execute work w = (Throw e, w1) /\
    breaker w1 = CircuitBreaker.on_failure (now w) (breaker w) /\
    now w1 = now w.
Proof.
  intros Hkeeps Hthrows Hclosed.
  unfold execute, CircuitBreaker.attempt. cbn [now breaker add_event]. rewrite Hclosed.
  specialize (Hthrows (set_breaker (breaker w) (add_event ExecuteEnter w))).
  destruct (Hkeeps (set_breaker (breaker w) (add_event ExecuteEnter w))) as (Hb & Hn).
  destruct (work _) as [[a | e'] w']; cbn [fst snd] in *; [discriminate |].
  injection Hthrows as ->. eexists. split; [reflexivity |].
  cbn [breaker now add_event set_breaker]. rewrite Hb, Hn. split; reflexivity.
Qed.

Lemma handleRequest_closed_throw {T : Type} (method : string) (params : option Js.JsObj)
    (handler : Js.JsObj -> M T) (validated : Js.JsObj) (e : JsError) (w w4 : World) :
  validateAndSanitizeParams method params w = (Return validated, w) ->
  CircuitBreaker.state (breaker w) = CircuitBreaker.closed ->
  handler validated
    (add_event (HandlerCall method) (set_breaker (breaker w) (add_event ExecuteEnter w))) =
    (Throw e, w4) ->
  handleRequest method params handler w =
    (Throw e,
     add_log (error_entry method e)
       (add_event ExecuteExit
          (set_breaker (CircuitBreaker.on_failure (now w4) (breaker w4)) w4))).
Proof.
  intros Hv Hclosed Hrun.
  unfold handleRequest, try_catch, request_body, bind. rewrite Hv.
  unfold execute, CircuitBreaker.attempt. cbn [now breaker add_event]. rewrite Hclosed.
  unfold emit, modify. cbn [add_event] in Hrun. rewrite Hrun. reflexivity.
Qed.

Lemma on_failure_twice (t : Z) (b : CircuitBreaker.CircuitBreakerState) :
  CircuitBreaker.state b = CircuitBreaker.closed ->
  let b2 := CircuitBreaker.on_failure t (CircuitBreaker.on_failure t b) in
  ((CircuitBreaker.consecutiveFailures b + 2 < CircuitBreaker.failureThreshold b)%Z ->
   CircuitBreaker.state b2 = CircuitBreaker.closed /\
   CircuitBreaker.consecutiveFailures b2 = (CircuitBreaker.consecutiveFailures b + 2)%Z) /\
  ((CircuitBreaker.failureThreshold b <= CircuitBreaker.consecutiveFailures b + 2)%Z ->
   CircuitBreaker.state b2 = CircuitBreaker.open).
Proof.
  intros Hclosed. cbv zeta. unfold CircuitBreaker.on_failure at 2 4 6. rewrite Hclosed.
  destruct (Z.leb_spec (CircuitBreaker.failureThreshold b)
              (CircuitBreaker.consecutiveFailures b + 1)) as [Hopen | Hstay].
  - cbn. split; [lia | reflexivity].
  - unfold CircuitBreaker.on_failure. cbn.
    destruct (Z.leb_spec (CircuitBreaker.failureThreshold b)
                (CircuitBreaker.consecutiveFailures b + 1 + 1)); cbn.
    + split; [lia | reflexivity].
    + split; [intros _; split; [reflexivity | lia] | lia].
Qed.

(** A tool call that reaches a registered handler which throws, on a
    closed breaker: the error is rethrown, and the one breaker records the
    failure twice, once for the tool handler and once for the request
    handler around it.  Two failures short of the threshold the count has
    grown by two; otherwise the breaker is open. *)
Theorem failing_tool_call_counts_twice (cat : Catalogue) (params : option Js.JsObj)
    (n : string) (handler : Js.JsObj -> M Payload) (e : JsError) (w : World) :
  Js.obj_get (or_empty params) "name" = Js.JsString n ->
  Js.assoc (toolHandlers cat) n = Some handler ->
  (forall w',
     fst (handler (properties (or_empty_object (Js.obj_get (or_empty params) "arguments")))
            w') = Throw e) ->
  CircuitBreaker.state (breaker w) = CircuitBreaker.closed ->
  let w1 := snd (call_tool cat params w) in
  let c := CircuitBreaker.consecutiveFailures (breaker w) in
  let N := CircuitBreaker.failureThreshold (breaker w) in
  fst (call_tool cat params w) = Throw e /\
  breaker w1 =
    CircuitBreaker.on_failure (now w) (CircuitBreaker.on_failure (now w) (breaker w)) /\
  ((c + 2 < N)%Z ->
   CircuitBreaker.state (breaker w1) = CircuitBreaker.closed /\
   CircuitBreaker.consecutiveFailures (breaker w1) = (c + 2)%Z) /\
  ((N <= c + 2)%Z -> CircuitBreaker.state (breaker w1) = CircuitBreaker.open).
Proof.
  intros Hname Hhandler Hthrows Hclosed w1 c N.
  assert (Hlen : 1 <= String.length n <= 1000).
  { unfold toolHandlers in Hhandler. cbn [Js.assoc] in Hhandler.
    repeat match type of Hhandler with
           | context [String.eqb ?k n] =>
               destruct (String.eqb_spec k n) as [<- | _]; [cbn; lia |]
           end.
    discriminate. }
  destruct (named_request_valid "call_tool" params n w eq_refl Hname Hlen)
    as (validated & Hv & Hget & Hargs).
  set (w3 := add_event (HandlerCall "call_tool")
               (set_breaker (breaker w) (add_event ExecuteEnter w))).
  destruct (execute_throws_closed
              (do! emit (ToolCall n) in
               handler (properties (or_empty_object (Js.obj_get validated "arguments"))))
              e w3) as (w4 & Hinner & Hb4 & Hn4).
  { intros w'. unfold bind, emit, modify.
    destruct (tool_handlers_quiet cat n handler Hhandler
                (properties (or_empty_object (Js.obj_get validated "arguments")))
                (add_event (ToolCall n) w')) as (Hb & Hn & _).
    split; assumption. }
  { intros w'. unfold bind, emit, modify. rewrite Hargs. apply Hthrows. }
  { exact Hclosed. }
  assert (Hbody : call_tool_handler cat validated w3 = (Throw e, w4)).
  { unfold call_tool_handler. rewrite Hget.
    rewrite (nonempty_truthy n) by lia. cbn [negb].
    rewrite (assoc_js_get _ _ _ Hhandler). unfold bind at 1.
    rewrite Hinner. reflexivity. }
  pose proof (handleRequest_closed_throw "call_tool" params (call_tool_handler cat)
                validated e w w4 Hv Hclosed Hbody) as Hrun.
  fold (call_tool cat params) in Hrun.
  assert (Hb1 : breaker w1 =
                CircuitBreaker.on_failure (now w)
                  (CircuitBreaker.on_failure (now w) (breaker w))).
  { unfold w1. rewrite Hrun. cbn [snd breaker add_log add_event set_breaker].
    rewrite Hn4, Hb4. reflexivity. }
  split; [rewrite Hrun; reflexivity |]. split; [exact Hb1 |].
  rewrite Hb1. exact (on_failure_twice (now w) (breaker w) Hclosed).
Qed.

Lemma failing_tool_call_counts_twice_witness :
  let w := initial_world 5 60000 0 in
  let call := call_tool blank_catalogue
                (tool_request "get_react_flow_hook" [("hookName", Js.JsNumber 7 eq_refl)]) in
  fst (call w) = Throw (TypeError "hookName.toLowerCase is not a function") /\
  CircuitBreaker.consecutiveFailures (breaker (snd (call w))) = 2%Z.
Proof.
  intros w call.
  destruct (failing_tool_call_counts_twice blank_catalogue
              (tool_request "get_react_flow_hook" [("hookName", Js.JsNumber 7 eq_refl)])
              "get_react_flow_hook" (handleGetHook blank_catalogue)
              (TypeError "hookName.toLowerCase is not a function") w
              eq_refl eq_refl (fun _ => eq_refl) eq_refl)
    as (Hfst & _ & Hfar & _).
  split; [exact Hfst |]. apply Hfar. reflexivity.
Defined.

(** ** prompts.ts and the prompt requests *)

Lemma get_prompt_handler_stateless (validated : Js.JsObj) :
  stateless (get_prompt_handler validated).
Proof.
  unfold get_prompt_handler. apply stateless_lift_then. intros key.
  destruct (Js.js_get Prompts.promptHandlers key) as [h | m |].
  - apply stateless_lift_then. intros result. apply stateless_ret.
  - apply stateless_lift_then. intros v.
    destruct m, (Js.obj_get validated "arguments"); apply stateless_ret.
  - apply stateless_throw.
Qed.

(** Every prompt declares its one argument as required, yet no handler
    insists on it: an argument that is missing or falsy is replaced by a
    default ([ReactFlow], [basic-setup], [general]), and a task or topic
    whose string is no key of the table (and no inherited name) gets the
    text of the default key as well.  A handler fails only on an argument
    that has no string, with the [TypeError] of the conversion. *)
Theorem prompt_arguments_fall_back (args : Js.JsValue) :
  let name := Js.obj_get (properties args) "name" in
  let task := Js.obj_get (properties args) "task" in
  let topic := Js.obj_get (properties args) "topic" in
  let no_string := TypeError "Cannot convert object to primitive value" in
  Forall (fun p => Forall (fun a => Prompts.required a = true)
                     (Prompts.arguments (snd p))) Prompts.prompts /\
  ((Js.truthy name = false ->
    Prompts.component_usage args =
      Return (Prompts.user_message
                (Prompts.Text (Prompts.usage_before +:+ "ReactFlow" +:+
                               Prompts.usage_after)))) /\
   (forall shown, Js.truthy name = true -> Js.to_string name = Some shown ->
      Prompts.component_usage args =
        Return (Prompts.user_message
                  (Prompts.Text (Prompts.usage_before +:+ shown +:+
                                 Prompts.usage_after)))) /\
   (Js.to_string name = None -> Prompts.component_usage args = Throw no_string)) /\
  ((Js.truthy task = false \/
    (exists key, Js.to_string task = Some key /\
                 Js.js_get Prompts.tutorials key = Js.Undefined) ->
    exists t,
      Js.assoc Prompts.tutorials "basic-setup" = Some t /\
      Prompts.flow_tutorial args = Return (Prompts.user_message (Prompts.Text t))) /\
   (Js.to_string task = None -> Prompts.flow_tutorial args = Throw no_string)) /\
  ((Js.truthy topic = false \/
    (exists key, Js.to_string topic = Some key /\
                 Js.js_get Prompts.practices key = Js.Undefined) ->
    exists t,
      Js.assoc Prompts.practices "general" = Some t /\
      Prompts.best_practices args = Return (Prompts.user_message (Prompts.Text t))) /\
   (Js.to_string topic = None -> Prompts.best_practices args = Throw no_string)).
Proof.
  assert (Htruthy : forall v, Js.to_string v = None -> Js.truthy v = true).
  { intros v. destruct v; try discriminate; reflexivity. }
  cbv zeta. split; [repeat constructor |].
  unfold Prompts.component_usage, Prompts.flow_tutorial, Prompts.best_practices,
    Prompts.argument_or, as_string.
  split; [| split].
  - split; [| split].
    + intros Hfalsy. rewrite Hfalsy. reflexivity.
    + intros shown Ht Hshown. rewrite Ht, Hshown. reflexivity.
    + intros Hnone. rewrite (Htruthy _ Hnone), Hnone. reflexivity.
  - split.
    + intros H. eexists. split; [reflexivity |].
      destruct (Js.truthy (Js.obj_get (properties args) "task")) eqn:Ht.
      * destruct H as [H | (key & Hkey & Hnone)]; [discriminate |].
        rewrite Hkey. unfold Prompts.entry_or. rewrite Hnone. reflexivity.
      * reflexivity.
    + intros Hnone. rewrite (Htruthy _ Hnone), Hnone. reflexivity.
  - split.
    + intros H. eexists. split; [reflexivity |].
      destruct (Js.truthy (Js.obj_get (properties args) "topic")) eqn:Ht.
      * destruct H as [H | (key & Hkey & Hnone)]; [discriminate |].
        rewrite Hkey. unfold Prompts.entry_or. rewrite Hnone. reflexivity.
      * reflexivity.
    + intros Hnone. rewrite (Htruthy _ Hnone), Hnone. reflexivity.
Qed.

Lemma prompt_handlers_messages (name : string)
    (handler : Js.JsValue -> Outcome Prompts.Result) (args : Js.JsValue) :
  Js.assoc Prompts.promptHandlers name = Some handler ->
  match handler args with
  | Return r => exists t, r = Prompts.user_message t
  | Throw e => e = TypeError "Cannot convert object to primitive value"
  end.
Proof.
  unfold Prompts.promptHandlers. cbn [Js.assoc].
  repeat match goal with
         | |- context [String.eqb ?k name] => destruct (String.eqb k name)
         end;
    intros H; try discriminate; injection H as <-;
    unfold Prompts.component_usage, Prompts.flow_tutorial, Prompts.best_practices,
      as_string;
    match goal with
    | |- context [Js.to_string ?v] => destruct (Js.to_string v)
    end; first [eexists; reflexivity | reflexivity].
Qed.

(** A prompt request whose name is a string of 1 to 1000 characters,
    while the breaker lets it through.  The advertised prompts are the
    keys of the handler table.  For each of them the arguments are passed
    on as they come (they are not validated): where the handler returns,
    the answer is its one user message of type text; where it throws, on
    an argument that has no string, the [TypeError] is logged once and
    counted by the breaker.  A name that is no key of the table (and no
    inherited name) is refused with an error that names it, logged once
    and counted by the breaker. *)
Theorem get_prompt_answers_or_refuses (params : option Js.JsObj) (name : string)
    (b : CircuitBreaker.CircuitBreakerState) (w : World) :
  Js.obj_get (or_empty params) "name" = Js.JsString name ->
  1 <= String.length name <= 1000 ->
  CircuitBreaker.attempt (now w) (breaker w) = Some b ->
  (In name (map fst Prompts.prompts) <->
   exists handler, Js.assoc Prompts.promptHandlers name = Some handler) /\
  (forall handler,
     Js.assoc Prompts.promptHandlers name = Some handler ->
     match handler (Js.obj_get (or_empty params) "arguments") with
     | Return r =>
         (exists t, r = Prompts.user_message t) /\
         get_prompt params w =
           (Return (PromptMessages r),
            settled "get_prompt" (CircuitBreaker.on_success b) w)
     | Throw e =>
         e = TypeError "Cannot convert object to primitive value" /\
         get_prompt params w =
           (Throw e,
            add_log (error_entry "get_prompt" e)
              (settled "get_prompt" (CircuitBreaker.on_failure (now w) b) w))
     end) /\
  (Js.js_get Prompts.promptHandlers name = Js.Undefined ->
   ~ In name (map fst Prompts.prompts) /\
   get_prompt params w =
     (Throw (Error ("Prompt not found: " +:+ name)),
      add_log (error_entry "get_prompt" (Error ("Prompt not found: " +:+ name)))
        (settled "get_prompt" (CircuitBreaker.on_failure (now w) b) w))).
Proof.
  intros Hname Hlen Hb.
  destruct (named_request_valid "get_prompt" params name w eq_refl Hname Hlen)
    as (validated & Hv & Hget & Hargs).
  pose proof (handleRequest_stateless "get_prompt" params get_prompt_handler
                validated b w Hv Hb (get_prompt_handler_stateless validated)) as Hrun.
  fold (get_prompt params) in Hrun. rewrite Hrun. clear Hrun.
  unfold get_prompt_handler. rewrite Hget, Hargs. cbn [as_string Js.to_string].
  rewrite !bind_lift_return.
  split; [| split].
  - split.
    + intros [<- | [<- | [<- | []]]]; eexists; reflexivity.
    + intros (handler & Hh). unfold Prompts.promptHandlers in Hh. cbn [Js.assoc] in Hh.
      cbn [map fst Prompts.prompts In].
      repeat match type of Hh with
             | context [String.eqb ?k name] =>
                 destruct (String.eqb_spec k name) as [<- | _]; [auto |]
             end.
      discriminate.
  - intros handler Hh. rewrite (assoc_js_get _ _ _ Hh).
    pose proof (prompt_handlers_messages name handler
                  (Js.obj_get (or_empty params) "arguments") Hh) as Hm.
    unfold bind, lift, ret.
    destruct (handler (Js.obj_get (or_empty params) "arguments")) as [r | e].
    + split; [exact Hm | reflexivity].
    + split; [exact Hm | reflexivity].
  - intros Hnone. split.
    + intros [<- | [<- | [<- | []]]]; discriminate.
    + rewrite Hnone. reflexivity.
Qed.

Lemma get_prompt_answers_or_refuses_witness :
  let w := initial_world 5 60000 0 in
  (exists t,
     get_prompt (Some [("name", Js.JsString "flow_tutorial")]) w =
       (Return (PromptMessages (Prompts.user_message t)),
        settled "get_prompt"
          (CircuitBreaker.on_success (CircuitBreaker.create 5 60000)) w)) /\
  fst (get_prompt
         (Some [("name", Js.JsString "component_usage");
                ("arguments",
                 Js.JsObject
                   [("name", Js.JsObject [("toString", Js.JsNumber 1 eq_refl)])])])
         w) = Throw (TypeError "Cannot convert object to primitive value").
Proof.
  intros w. split.
  - destruct (get_prompt_answers_or_refuses (Some [("name", Js.JsString "flow_tutorial")])
                "flow_tutorial" (CircuitBreaker.create 5 60000) w eq_refl)
      as (_ & Hknown & _).
    + cbn. lia.
    + reflexivity.
    + destruct (Hknown Prompts.flow_tutorial eq_refl) as ((t & Ht) & Hrun).
      exists t. rewrite Hrun, <- Ht. reflexivity.
  - destruct (get_prompt_answers_or_refuses
                (Some [("name", Js.JsString "component_usage");
                       ("arguments",
                        Js.JsObject
                          [("name", Js.JsObject [("toString", Js.JsNumber 1 eq_refl)])])])
                "component_usage" (CircuitBreaker.create 5 60000) w eq_refl)
      as (_ & Hknown & _).
    + cbn. lia.
    + reflexivity.
    + destruct (Hknown Prompts.component_usage eq_refl) as (_ & Hrun).
      rewrite Hrun. reflexivity.
Defined.

(** A prompt name that is a member every object inherits passes the
    check for a missing handler: the member is called with the arguments
    as if it were a prompt handler.  The request returns whatever the
    member returns, which is no list of messages, or fails with a
    [TypeError]; it is never refused as an unknown prompt. *)
Theorem get_prompt_inherited_name (params : option Js.JsObj) (name : string)
    (m : Js.ProtoMember) (b : CircuitBreaker.CircuitBreakerState) (w : World) :
  Js.obj_get (or_empty params) "name" = Js.JsString name ->
  CircuitBreaker.attempt (now w) (breaker w) = Some b ->
  Js.js_get Prompts.promptHandlers name = Js.Inherited m ->
  Js.assoc Prompts.promptHandlers name = None /\
  ((exists r,
      (forall messages, r <> PromptMessages messages) /\
      get_prompt params w =
        (Return r, settled "get_prompt" (CircuitBreaker.on_success b) w)) \/
   (exists msg,
      get_prompt params w =
        (Throw (TypeError msg),
         add_log (error_entry "get_prompt" (TypeError msg))
           (settled "get_prompt" (CircuitBreaker.on_failure (now w) b) w)))) /\
  (In m [Js.P_constructor; Js.P_toString] ->
   exists r,
     get_prompt params w =
       (Return r, settled "get_prompt" (CircuitBreaker.on_success b) w)).
Proof.
  intros Hname Hb Hm.
  assert (Hown : Js.assoc Prompts.promptHandlers name = None).
  { unfold Js.js_get in Hm.
    destruct (Js.assoc Prompts.promptHandlers name); [discriminate | reflexivity]. }
  assert (Hlen : 1 <= String.length name <= 1000).
  { unfold Js.js_get in Hm. rewrite Hown in Hm.
    cbn [Js.assoc Js.object_prototype] in Hm.
    repeat match type of Hm with
           | context [String.eqb ?k name] =>
               destruct (String.eqb_spec k name) as [<- | _]; [cbn; lia |]
           end.
    discriminate. }
  destruct (named_request_valid "get_prompt" params name w eq_refl Hname Hlen)
    as (validated & Hv & Hget & _).
  pose proof (handleRequest_stateless "get_prompt" params get_prompt_handler
                validated b w Hv Hb (get_prompt_handler_stateless validated)) as Hrun.
  fold (get_prompt params) in Hrun. rewrite Hrun. clear Hrun.
  unfold get_prompt_handler. rewrite Hget. cbn [as_string Js.to_string].
  rewrite !bind_lift_return, Hm.
  unfold bind, lift, call_inherited_any, call_inherited.
  split; [exact Hown |]. split.
  - destruct m, (Js.obj_get validated "arguments");
      first [ left; eexists; split; [| reflexivity]; intros messages; discriminate
            | right; eexists; reflexivity ].
  - intros [<- | [<- | []]];
      destruct (Js.obj_get validated "arguments"); eexists; reflexivity.
Qed.

Lemma get_prompt_inherited_name_witness :
  let w := initial_world 5 60000 0 in
  exists r,
    get_prompt (Some [("name", Js.JsString "toString")]) w =
      (Return r,
       settled "get_prompt" (CircuitBreaker.on_success (CircuitBreaker.create 5 60000)) w).
Proof.
  intros w.
  destruct (get_prompt_inherited_name (Some [("name", Js.JsString "toString")])
              "toString" Js.P_toString (CircuitBreaker.create 5 60000) w
              eq_refl eq_refl eq_refl) as (_ & _ & Hreturns).
  apply Hreturns. right. left. reflexivity.
Defined.

(** ** The list tools and their category *)










(** ** Names across the tools *)

(** The hook, type, utility, example and documentation lookups depend on
    the name only through its normal form whenever that form is a key of
    the table: lower case, and then the parentheses removed (hooks,
    utilities), the angle brackets removed (types), or every run of white
    space replaced by a dash (examples, documentation). *)
Theorem lookups_depend_on_normal_form (cat : Catalogue) (a b : string) :
  (call_key a = call_key b -> Js.assoc hooks (call_key a) <> None ->
   getHookInfo cat a = getHookInfo cat b) /\
  (type_key a = type_key b -> Js.assoc types (type_key a) <> None ->
   getTypeInfo cat a = getTypeInfo cat b) /\
  (call_key a = call_key b -> Js.assoc utilities (call_key a) <> None ->
   getUtilityInfo cat a = getUtilityInfo cat b) /\
  (dashed_key a = dashed_key b -> Js.assoc example_codes (dashed_key a) <> None ->
   getExampleInfo cat a = getExampleInfo cat b) /\
  (dashed_key a = dashed_key b -> Js.assoc docs (dashed_key a) <> None ->
   getDocsInfo cat a = getDocsInfo cat b).
Proof.
  unfold call_key, type_key, dashed_key,
    getHookInfo, getTypeInfo, getUtilityInfo, getExampleInfo, getDocsInfo.
  repeat split; intros Hsame Hknown; rewrite <- Hsame;
    match type of Hknown with
    | Js.assoc ?t ?k <> None =>
        destruct (Js.assoc t k) as [x |] eqn:Hk; [| contradiction];
        rewrite (assoc_js_get _ _ _ Hk)
    end; reflexivity.
Qed.

(** Evaluate the closed lookups of the goal. *)
Ltac evaluate t :=
  let r := eval vm_compute in t in
  replace t with r by (vm_compute; reflexivity).

Ltac evaluate_lookups :=
  repeat match goal with
         | |- context [String.eqb ?a ?b] => progress evaluate (String.eqb a b)
         | |- context [Js.js_get ?t ?k] => progress evaluate (Js.js_get t k)
         end.

(** The names a get tool offers in its not-found text, fed back to it.
    Every component and utility name leads back to its own entry.  Of the
    hook names, those with parameters between the parentheses are not
    found, and neither are the type names [Node<T>] and [Edge<T>]: the
    answer is the not-found text that offers the same name again. *)
Theorem offered_names_fed_back (cat : Catalogue) :
  (forall key name, In (key, name) components ->
     getComponentInfo cat name =
       text_payload (Some (render_component (Some name) (component_fields cat key)))) /\
  (forall key name, In (key, name) utilities ->
     getUtilityInfo cat name =
       text_payload (Some (render_utility (Some name) (utility_fields cat key)))) /\
  (forall key name, In (key, name) hooks ->
     if String.eqb (call_key name) key
     then getHookInfo cat name =
            text_payload (Some (render_hook (Some name) (hook_fields cat key)))
     else getHookInfo cat name =
            text_payload (Some (not_found_text "Hook" "hooks" name (map snd hooks)))) /\
  (forall key name, In (key, name) types ->
     if String.eqb (type_key name) key
     then getTypeInfo cat name =
            Return (text_payload (Some (render_type (Some name) (type_fields cat key))))
     else getTypeInfo cat name =
            Return
              (text_payload (Some (not_found_text "Type" "types" name (map snd types))))) /\
  List.filter (fun e => negb (String.eqb (call_key (snd e)) (fst e))) hooks =
    [ ("usenodesstate", "useNodesState(initialNodes)");
      ("useedgesstate", "useEdgesState(initialEdges)");
      ("usenodesdata", "useNodesData(nodeIds)");
      ("usehandleconnections", "useHandleConnections({ type, id })");
      ("usenodeconnections", "useNodeConnections({ type })");
      ("useonviewportchange", "useOnViewportChange({ onStart, onChange, onEnd })");
      ("useonselectionchange", "useOnSelectionChange({ onChange })");
      ("usekeypress", "useKeyPress(keyCode)");
      ("usestore", "useStore(selector)");
      ("usenodesinitialized", "useNodesInitialized(options?)");
      ("useinternalnode", "useInternalNode(nodeId)") ] /\
  List.filter (fun e => negb (String.eqb (type_key (snd e)) (fst e))) types =
    [ ("node", "Node<T>"); ("edge", "Edge<T>") ].
Proof.
  unfold call_key, type_key, getComponentInfo, getUtilityInfo, getHookInfo, getTypeInfo.
  split; [| split; [| split; [| split; [| split]]]].
  - intros key name Hin. cbn [In components] in Hin.
    repeat (destruct Hin as [Heq | Hin];
            [injection Heq as <- <-; evaluate_lookups; reflexivity |]).
    destruct Hin.
  - intros key name Hin. cbn [In utilities] in Hin.
    repeat (destruct Hin as [Heq | Hin];
            [injection Heq as <- <-; evaluate_lookups; reflexivity |]).
    destruct Hin.
  - intros key name Hin. cbn [In hooks] in Hin.
    repeat (destruct Hin as [Heq | Hin];
            [injection Heq as <- <-; evaluate_lookups; reflexivity |]).
    destruct Hin.
  - intros key name Hin. cbn [In types] in Hin.
    repeat (destruct Hin as [Heq | Hin];
            [injection Heq as <- <-; evaluate_lookups; reflexivity |]).
    destruct Hin.
  - vm_compute. reflexivity.
  - vm_compute. reflexivity.
Qed.

(** The names the list tools and the search print, given to the get tool
    their closing line points to.  Every listed hook and utility is found.
    Two of the fifteen listed components and nineteen of the thirty-four
    listed types are not, and neither are five of the fifteen examples the
    search can return. *)
Theorem listed_names_in_get_tools :
  length (listed components_listing) = 15 /\
  length (listed types_listing) = 34 /\
  length Search.examples = 15 /\
  (forall n, In n (listed hooks_listing) -> Js.assoc hooks (call_key n) <> None) /\
  (forall n, In n (listed utilities_listing) -> Js.assoc utilities (call_key n) <> None) /\
  List.filter (fun n => match Js.js_get components (component_key n) with
                        | Js.Undefined => true
                        | _ => false
                        end) (listed components_listing) =
    [ "<NodeResizeControl />"; "<EdgeToolbar />" ] /\
  List.filter (fun n => match Js.js_get types (type_key n) with
                        | Js.Undefined => true
                        | _ => false
                        end) (listed types_listing) =
    [ "Node<T>"; "Edge<T>"; "Dimensions"; "CoordinateExtent"; "NodeAddChange";
      "NodeRemoveChange"; "NodePositionChange"; "NodeDimensionChange";
      "NodeSelectionChange"; "BackgroundVariant"; "SelectionMode"; "FitViewOptions";
      "DefaultEdgeOptions"; "ProOptions"; "OnNodeDrag"; "OnSelectionChange"; "OnMove";
      "OnInit"; "IsValidConnection" ] /\
  List.filter (fun n => match Js.js_get example_codes (dashed_key n) with
                        | Js.Undefined => true
                        | _ => false
                        end) (map Search.id Search.examples) =
    [ "interactive-minimap"; "edge-types"; "context-menu"; "touch-device"; "undo-redo" ] /\
  (forall cat n,
     In n [ "interactive-minimap"; "edge-types"; "context-menu"; "touch-device";
            "undo-redo" ] ->
     In n (map Search.id Search.examples) /\
     getExampleInfo cat n =
       Return
         (text_payload
            (Some ("Example " +:+ Js.dquote +:+ n +:+ Js.dquote +:+
                   " not found. Available examples:" +:+ Js.nl +:+ Js.nl +:+
                   Js.join Js.nl
                     (map (fun e => "- **" +:+ fst e +:+ "**: " +:+ snd (snd e))
                        example_codes))))).
Proof.
  split; [reflexivity |]. split; [reflexivity |]. split; [reflexivity |].
  split; [| split; [| split; [| split; [| split]]]].
  - intros n Hin. vm_compute in Hin.
    repeat (destruct Hin as [<- | Hin]; [vm_compute; discriminate |]). destruct Hin.
  - intros n Hin. vm_compute in Hin.
    repeat (destruct Hin as [<- | Hin]; [vm_compute; discriminate |]). destruct Hin.
  - vm_compute. reflexivity.
  - vm_compute. reflexivity.
  - vm_compute. reflexivity.
  - intros cat n Hin. cbn [In] in Hin.
    repeat (destruct Hin as [<- | Hin];
            [ split;
              [ vm_compute; repeat first [left; reflexivity | right]
              | unfold getExampleInfo, dashed_key; evaluate_lookups; reflexivity ] |]).
    destruct Hin.
Qed.

(** ** tools/index.ts: what is advertised and what is registered *)

(** The advertised tools are the registered handlers, name by name and
    in the same order.  Each advertised input schema agrees with the
    validation rule of that name: the same properties, all of type
    string, and as required ones exactly the fields the rule wants as a
    non-empty string. *)
Theorem advertised_tools_match_registry (cat : Catalogue) :
  map ToolList.name ToolList.tools = map fst (toolHandlers cat) /\
  Forall (fun t =>
            exists shape,
              Js.assoc methodSchemas (ToolList.name t) = Some shape /\
              map fst (ToolList.properties t) = map fst shape /\
              required_list t = required_keys shape /\
              Forall (fun p => fst (snd p) = "string") (ToolList.properties t))
    ToolList.tools.
Proof.
  split; [reflexivity |].
  unfold ToolList.tools.
  repeat (constructor;
          [ eexists; split; [vm_compute; reflexivity |];
            split; [reflexivity |]; split; [reflexivity |]; repeat constructor |]).
  constructor.
Qed.

(** ** Refused requests and the breaker *)

Lemma on_failure_keeps (t : Z) (b : CircuitBreaker.CircuitBreakerState) :
  CircuitBreaker.failureThreshold (CircuitBreaker.on_failure t b) =
    CircuitBreaker.failureThreshold b /\
  CircuitBreaker.resetTimeoutMs (CircuitBreaker.on_failure t b) =
    CircuitBreaker.resetTimeoutMs b.
Proof.
  unfold CircuitBreaker.on_failure.
  destruct (CircuitBreaker.state b); [| split; reflexivity | split; reflexivity].
  destruct (_ <=? _)%Z; split; reflexivity.
Qed.

Lemma refused_read_step (t : Z) (params : option Js.JsObj) (w : World) :
  unserved params ->
  CircuitBreaker.state (breaker w) = CircuitBreaker.closed ->
  let w1 := snd (read_resource params (set_now t w)) in
  breaker w1 = CircuitBreaker.on_failure t (breaker w) /\
  length (error_entries (log w1)) = S (length (error_entries (log w))).
Proof.
  intros (uri & Huri & Hlen & Hnone & Ht) Hclosed.
  assert (Hb : CircuitBreaker.attempt (now (set_now t w)) (breaker (set_now t w)) =
               Some (breaker w)).
  { unfold CircuitBreaker.attempt. cbn [breaker set_now]. rewrite Hclosed. reflexivity. }
  cbv zeta. rewrite (read_resource_refused params uri (breaker w) (set_now t w)
                       Huri Hlen Hb Hnone Ht).
  cbn [snd breaker log add_log settled set_now now]. split; [reflexivity |].
  rewrite error_entries_add_error, length_app. cbn. lia.
Qed.

Lemma refused_reads_invariant (reads : list (Z * option Js.JsObj)) :
  forall w,
    Forall (fun r => unserved (snd r)) reads ->
    reads <> [] ->
    CircuitBreaker.state (breaker w) = CircuitBreaker.closed ->
    (CircuitBreaker.consecutiveFailures (breaker w) + Z.of_nat (length reads) =
     CircuitBreaker.failureThreshold (breaker w))%Z ->
    let w' := serve_all (map read_at reads) w in
    CircuitBreaker.state (breaker w') = CircuitBreaker.open /\
    CircuitBreaker.lastFailureTime (breaker w') = Some (List.last (map fst reads) 0%Z) /\
    CircuitBreaker.resetTimeoutMs (breaker w') = CircuitBreaker.resetTimeoutMs (breaker w) /\
    length (error_entries (log w')) = length (error_entries (log w)) + length reads.
Proof.
  induction reads as [| [t params] rest IH]; intros w Hall Hne Hclosed Hcount;
    [contradiction |].
  inversion Hall as [| ? ? Hfirst Hrest]; subst. cbn [snd] in Hfirst.
  destruct (refused_read_step t params w Hfirst Hclosed) as (Hb & Hlog).
  cbn [map read_at serve_all fst snd].
  set (w1 := snd (read_resource params (set_now t w))) in *.
  unfold CircuitBreaker.on_failure in Hb. rewrite Hclosed in Hb.
  destruct rest as [| r rest'].
  - cbn [map serve_all length List.last] in *.
    destruct (Z.leb_spec (CircuitBreaker.failureThreshold (breaker w))
                (CircuitBreaker.consecutiveFailures (breaker w) + 1)); [| lia].
    rewrite Hb. cbn. repeat split. lia.
  - destruct (Z.leb_spec (CircuitBreaker.failureThreshold (breaker w))
                (CircuitBreaker.consecutiveFailures (breaker w) + 1)).
    { cbn [length] in Hcount. lia. }
    destruct (IH w1 Hrest) as (Ho & Hl & Ht & Hn).
    + discriminate.
    + rewrite Hb. reflexivity.
    + rewrite Hb. cbn [length] in *. cbn. lia.
    + cbv zeta in *. cbn [map read_at serve_all fst snd] in *.
      repeat split.
      * exact Ho.
      * rewrite Hl. reflexivity.
      * rewrite Ht, Hb. reflexivity.
      * rewrite Hn, Hlog. cbn [length]. lia.
Qed.

(** Read requests for URIs that nothing serves are client mistakes, yet
    each counts as a failure of the one breaker.  Starting from a closed
    breaker, when as many of them in a row as the threshold still allows
    have been refused, each logged as one error, the breaker is open, and
    until the cooldown has elapsed since the last of them every request
    of whatever kind that passes validation is rejected with
    [CircuitOpenError] without its handler being run. *)
Theorem refused_reads_open_breaker (reads : list (Z * option Js.JsObj)) (w : World) :
  Forall (fun r => unserved (snd r)) reads ->
  reads <> [] ->
  CircuitBreaker.state (breaker w) = CircuitBreaker.closed ->
  (CircuitBreaker.consecutiveFailures (breaker w) + Z.of_nat (length reads) =
   CircuitBreaker.failureThreshold (breaker w))%Z ->
  let w' := serve_all (map read_at reads) w in
  CircuitBreaker.state (breaker w') = CircuitBreaker.open /\
  length (error_entries (log w')) = length (error_entries (log w)) + length reads /\
  forall (T : Type) (method : string) (params : option Js.JsObj)
         (handler : Js.JsObj -> M T) (validated : Js.JsObj) (t : Z),
    (t - List.last (map fst reads) 0 < CircuitBreaker.resetTimeoutMs (breaker w))%Z ->
    validateAndSanitizeParams method params (set_now t w') =
      (Return validated, set_now t w') ->
    handleRequest method params handler (set_now t w') =
      (Throw CircuitOpenError, rejected method (set_now t w')).
Proof.
  intros Hall Hne Hclosed Hcount.
  destruct (refused_reads_invariant reads w Hall Hne Hclosed Hcount)
    as (Hopen & Hlast & Htimeout & Hlog).
  cbv zeta. split; [exact Hopen |]. split; [exact Hlog |].
  intros T method params handler validated t Hearly Hv.
  apply (handleRequest_rejected method params handler validated _ Hv).
  unfold CircuitBreaker.attempt. cbn [breaker now set_now].
  rewrite Hopen, Hlast, Htimeout.
  destruct (Z.leb_spec (CircuitBreaker.resetTimeoutMs (breaker w))
              (t - List.last (map fst reads) 0%Z)); [lia | reflexivity].
Qed.

Lemma refused_reads_open_breaker_witness :
  let reads := [ (0%Z, Some [("uri", Js.JsString "reactflow://hooks")]);
                 (10%Z, Some [("uri", Js.JsString "resource:none")]) ] in
  let w' := serve_all (map read_at reads) (initial_world 2 60000 0) in
  fst (list_tools None (set_now 50000 w')) = Throw CircuitOpenError.
Proof.
  intros reads w'.
  destruct (refused_reads_open_breaker reads (initial_world 2 60000 0))
    as (_ & _ & Hrejected).
  - repeat constructor; eexists; (split; [reflexivity |]);
      (split; [cbn; lia |]); split; reflexivity.
  - discriminate.
  - reflexivity.
  - reflexivity.
  - unfold list_tools. subst w'.
    rewrite (Hrejected _ "list_tools" None (fun _ => ret ToolList.tools) [] 50000%Z).
    + reflexivity.
    + cbn. lia.
    + reflexivity.
Defined.

(** ** Instances *)

Lemma listing_requests_ignore_params_witness :
  let w := initial_world 5 60000 0 in
  list_tools (Some [("cursor", Js.JsNumber 3 eq_refl)]) w =
    (Return ToolList.tools,
     settled "list_tools" (CircuitBreaker.on_success (CircuitBreaker.create 5 60000)) w).
Proof.
  intros w.
  destruct (listing_requests_ignore_params (Some [("cursor", Js.JsNumber 3 eq_refl)]) w)
    as (Hserved & _).
  destruct (Hserved (CircuitBreaker.create 5 60000) eq_refl) as (_ & _ & Htools & _).
  exact Htools.
Defined.

Lemma resource_template_accepts_exactly_witness :
  Templates.getResourceTemplate "reactflow://example/no-such-example" =
    Some (Templates.plain (Templates.example_text "no-such-example")) /\
  Templates.getResourceTemplate "reactflow://hook/" = None.
Proof.
  destruct (resource_template_accepts_exactly "reactflow://hook/") as (Haccepts & _).
  destruct (Haccepts "no-such-example") as (_ & _ & Hexample);
    [discriminate | reflexivity |].
  split; [exact Hexample | reflexivity].
Defined.

Lemma prompt_arguments_fall_back_witness :
  Prompts.flow_tutorial (Js.JsObject [("task", Js.JsString "no-such-task")]) =
    Prompts.flow_tutorial Js.JsUndefined /\
  Prompts.flow_tutorial
    (Js.JsObject [("task", Js.JsObject [("toString", Js.JsNumber 1 eq_refl)])]) =
    Throw (TypeError "Cannot convert object to primitive value").
Proof.
  destruct (prompt_arguments_fall_back (Js.JsObject [("task", Js.JsString "no-such-task")]))
    as (_ & _ & (Hunknown & _) & _).
  destruct (prompt_arguments_fall_back Js.JsUndefined) as (_ & _ & (Habsent & _) & _).
  destruct (prompt_arguments_fall_back
              (Js.JsObject [("task", Js.JsObject [("toString", Js.JsNumber 1 eq_refl)])]))
    as (_ & _ & (_ & Hthrows) & _).
  split.
  - destruct (Hunknown (or_intror (ex_intro _ "no-such-task" (conj eq_refl eq_refl))))
      as (t & Ht & ->).
    destruct (Habsent (or_introl eq_refl)) as (t' & Ht' & ->).
    congruence.
  - apply Hthrows. reflexivity.
Defined.

Lemma lookups_depend_on_normal_form_witness :
  getHookInfo blank_catalogue "useNodes()" = getHookInfo blank_catalogue "USENODES" /\
  getDocsInfo blank_catalogue "State   Management" =
    getDocsInfo blank_catalogue "state-management".
Proof.
  destruct (lookups_depend_on_normal_form blank_catalogue "useNodes()" "USENODES")
    as (Hhook & _).
  destruct (lookups_depend_on_normal_form blank_catalogue "State   Management"
              "state-management") as (_ & _ & _ & _ & Hdocs).
  split.
  - apply Hhook; [vm_compute; reflexivity | vm_compute; discriminate].
  - apply Hdocs; [vm_compute; reflexivity | vm_compute; discriminate].
Defined.

(** ** index.ts: the command line *)

Lemma has_flag_spec (args : list string) (flag : string) :
  Cli.has_flag args flag = true <-> In flag args.
Proof.
  unfold Cli.has_flag. rewrite existsb_exists. split.
  - intros (x & Hin & Heq). apply String.eqb_eq in Heq. subst. exact Hin.
  - intros Hin. exists flag. split; [exact Hin | apply String.eqb_refl].
Qed.

(** The help flag wins: with [--help] or [-h] anywhere among the
    arguments the process prints the help text and exits with code 0,
    whatever else is given, a version flag included.  The server starts
    only when none of the four flags is among the arguments; a flag counts
    only as a whole argument.  The help text names every registered
    tool. *)
Theorem help_flag_wins (package : option Js.JsValue) (args : list string) :
  (In "--help" args \/ In "-h" args ->
   Cli.parseArgs package args = Cli.Exit 0 [Cli.help_text]) /\
  (~ (In "--help" args \/ In "-h" args) ->
   In "--version" args \/ In "-v" args ->
   Cli.parseArgs package args = Cli.Exit 0 [Cli.version_line package]) /\
  (Cli.parseArgs package args = Cli.Proceed <->
   forall flag, In flag ["--help"; "-h"; "--version"; "-v"] -> ~ In flag args) /\
  (forall cat n, In n (map fst (toolHandlers cat)) -> substring_of n Cli.help_text).
Proof.
  assert (Hhelp : Cli.has_flag args "--help" || Cli.has_flag args "-h" = true <->
                  In "--help" args \/ In "-h" args).
  { rewrite orb_true_iff, !has_flag_spec. reflexivity. }
  assert (Hversion : Cli.has_flag args "--version" || Cli.has_flag args "-v" = true <->
                     In "--version" args \/ In "-v" args).
  { rewrite orb_true_iff, !has_flag_spec. reflexivity. }
  unfold Cli.parseArgs.
  destruct (Cli.has_flag args "--help" || Cli.has_flag args "-h") eqn:Eh;
    destruct (Cli.has_flag args "--version" || Cli.has_flag args "-v") eqn:Ev.
  all: split; [| split; [| split]].
  all: try (intros cat n Hin; cbn in Hin;
            repeat (destruct Hin as [<- | Hin];
                    [apply includes_spec; vm_compute; reflexivity |]);
            destruct Hin).
  all: try (intros _; reflexivity).
  all: try (intros H; apply Hhelp in H; discriminate).
  all: try (intros Hnot; exfalso; apply Hnot, Hhelp; reflexivity).
  all: try (intros _ _; reflexivity).
  all: try (intros _ H; apply Hversion in H; discriminate).
  all: split; try discriminate.
  - intros Hnone. exfalso.
    destruct (proj1 Hhelp eq_refl) as [H | H]; revert H; apply Hnone; cbn; auto.
  - intros Hnone. exfalso.
    destruct (proj1 Hhelp eq_refl) as [H | H]; revert H; apply Hnone; cbn; auto.
  - intros Hnone. exfalso.
    destruct (proj1 Hversion eq_refl) as [H | H]; revert H; apply Hnone; cbn; auto.
  - intros _ flag [<- | [<- | [<- | [<- | []]]]] Hin.
    + assert (H : false = true) by (apply Hhelp; auto). discriminate.
    + assert (H : false = true) by (apply Hhelp; auto). discriminate.
    + assert (H : false = true) by (apply Hversion; auto). discriminate.
    + assert (H : false = true) by (apply Hversion; auto). discriminate.
  - intros _. reflexivity.
Qed.

Lemma help_flag_wins_witness :
  Cli.parseArgs None ["--version"; "-h"] = Cli.Exit 0 [Cli.help_text].
Proof.
  destruct (help_flag_wins None ["--version"; "-h"]) as (Hhelp & _).
  apply Hhelp. right. right. left. reflexivity.
Defined.
